(** * Restaurant platform: cart, checkout, dish form and row-level security

    A shallow embedding of the customer cart ([CustomerDashboard.tsx],
    [Cart.tsx]), the seller's dish form and menu screen ([DishForm.tsx],
    [RestaurantManager]), the lists the screens load ([RestaurantView],
    [CustomerDashboard], [SellerDashboard]) and the database schema with
    its row-level security policies (the SQL migration), with the
    properties the specification states about them and further properties
    of the code.  The first part holds the
    definitions, the second part the properties.

    Conventions.
    - A JavaScript [number] is an IEEE-754 binary64 value: [number] is the
      kernel's primitive [float], and [+], [*], [===] on numbers are
      [PrimFloat.add], [PrimFloat.mul], [PrimFloat.eqb].
    - [uuid], [text] are strings; [timestamptz] is an integer clock value.
    - A nullable column is an [option]; a [NOT NULL] column is not.
    - A [numeric] column holds the double that the client reads back for
      it (a finite double survives the JSON round trip unchanged). *)

From Stdlib Require Import List String Ascii Bool ZArith.
From Stdlib Require Import Floats.
From Stdlib Require Import Sorted Permutation.
Import ListNotations.

(* Decimal literals such as 9.99 denote the nearest double, as in JavaScript. *)
Set Warnings "-inexact-float".

Local Open Scope string_scope.
Local Open Scope list_scope.

Definition uuid := string.
Definition text := string.
Definition timestamptz := Z.
Definition number := float.

(** ** Rows of the five tables (columns as in the CREATE TABLE statements) *)

Module Profile.
Record t := mk {
  id : uuid;
  email : text;
  full_name : text;
  user_type : text;
  created_at : option timestamptz;
  updated_at : option timestamptz
}.
End Profile.

Module Restaurant.
Record t := mk {
  id : uuid;
  seller_id : uuid;
  name : text;
  description : option text;
  address : option text;
  phone : option text;
  image_url : option text;
  is_active : option bool;
  created_at : option timestamptz;
  updated_at : option timestamptz
}.
End Restaurant.

Module Dish.
Record t := mk {
  id : uuid;
  restaurant_id : uuid;
  name : text;
  description : option text;
  price : number;
  image_url : option text;
  category : option text;
  is_available : option bool;
  created_at : option timestamptz;
  updated_at : option timestamptz
}.
End Dish.

Module Order.
Record t := mk {
  id : uuid;
  customer_id : uuid;
  restaurant_id : uuid;
  total_amount : number;
  status : text;
  delivery_address : text;
  notes : option text;
  created_at : option timestamptz;
  updated_at : option timestamptz
}.
End Order.

Module OrderItem.
Record t := mk {
  id : uuid;
  order_id : uuid;
  dish_id : uuid;
  quantity : Z;
  price : number;
  created_at : option timestamptz
}.
End OrderItem.

(** ** The customer's cart ([CustomerDashboard.tsx]) *)

Module CartItem.
Record t := mk {
  dish : Dish.t;
  restaurant : Restaurant.t;
  quantity : number
}.
Definition with_quantity (item : t) (q : number) : t :=
  mk (dish item) (restaurant item) q.
Definition dish_id (item : t) : uuid := Dish.id (dish item).
End CartItem.

(** [addToCart(dish, restaurant)]: the next value of [cartItems]. *)
Definition addToCart (cartItems : list CartItem.t)
    (dish : Dish.t) (restaurant : Restaurant.t) : list CartItem.t :=
  let existingItem :=
    find (fun item => CartItem.dish_id item =? Dish.id dish) cartItems in
  match existingItem with
  | Some _ =>
      map (fun item =>
             if CartItem.dish_id item =? Dish.id dish
             then CartItem.with_quantity item (CartItem.quantity item + 1)%float
             else item) cartItems
  | None => cartItems ++ [CartItem.mk dish restaurant 1%float]
  end.

(** [updateCartItem(dishId, quantity)]: the next value of [cartItems]. *)
Definition updateCartItem (cartItems : list CartItem.t)
    (dishId : uuid) (quantity : number) : list CartItem.t :=
  if (quantity =? 0)%float
  then filter (fun item => negb (CartItem.dish_id item =? dishId)) cartItems
  else map (fun item =>
              if CartItem.dish_id item =? dishId
              then CartItem.with_quantity item quantity
              else item) cartItems.

Definition clearCart (cartItems : list CartItem.t) : list CartItem.t := [].

(** The events that change [cartItems], and a run of them. *)
Inductive cart_action :=
| AddToCart (dish : Dish.t) (restaurant : Restaurant.t)
| UpdateCartItem (dishId : uuid) (quantity : number)
| ClearCart.

Definition cart_step (cartItems : list CartItem.t) (a : cart_action)
    : list CartItem.t :=
  match a with
  | AddToCart dish restaurant => addToCart cartItems dish restaurant
  | UpdateCartItem dishId quantity => updateCartItem cartItems dishId quantity
  | ClearCart => clearCart cartItems
  end.

Definition cart_run (actions : list cart_action) (cartItems : list CartItem.t)
    : list CartItem.t :=
  fold_left cart_step actions cartItems.

Definition cart_dish_ids (cartItems : list CartItem.t) : list uuid :=
  map CartItem.dish_id cartItems.

(** ** SQL values and predicates

    A policy expression evaluates in SQL's three-valued logic: [None] is
    NULL, and a row passes a policy only when the expression is TRUE. *)

Definition sql_bool := option bool.

Definition sql_true (v : sql_bool) : bool :=
  match v with Some true => true | _ => false end.

Definition sql_eq_bool (a b : option bool) : sql_bool :=
  match a, b with
  | Some x, Some y => Some (Bool.eqb x y)
  | _, _ => None
  end.

(** [a = b] on two non-null texts or uuids. *)
Definition sql_eq (a b : string) : sql_bool := Some (a =? b).

Definition sql_and (a b : sql_bool) : sql_bool :=
  match a, b with
  | Some false, _ | _, Some false => Some false
  | Some true, Some true => Some true
  | _, _ => None
  end.

(** [SELECT .. FROM rows WHERE cond] and [EXISTS (..)]. *)
Definition sql_where {A : Type} (cond : A -> sql_bool) (rows : list A) : list A :=
  filter (fun r => sql_true (cond r)) rows.

Definition sql_exists {A : Type} (rows : list A) : sql_bool :=
  Some (match rows with [] => false | _ :: _ => true end).

(** [a JOIN b ON cond]. *)
Definition sql_join {A B : Type} (on : A -> B -> sql_bool)
    (a : list A) (b : list B) : list (A * B) :=
  filter (fun ab => sql_true (on (fst ab) (snd ab))) (list_prod a b).

(** ** Tables and the database *)

Record database := mk_database {
  profiles : list Profile.t;
  restaurants : list Restaurant.t;
  dishes : list Dish.t;
  orders : list Order.t;
  order_items : list OrderItem.t
}.

Inductive table := profiles_t | restaurants_t | dishes_t | orders_t | order_items_t.

Definition row (t : table) : Type :=
  match t with
  | profiles_t => Profile.t
  | restaurants_t => Restaurant.t
  | dishes_t => Dish.t
  | orders_t => Order.t
  | order_items_t => OrderItem.t
  end.

Definition rows_of (t : table) (db : database) : list (row t) :=
  match t with
  | profiles_t => profiles db
  | restaurants_t => restaurants db
  | dishes_t => dishes db
  | orders_t => orders db
  | order_items_t => order_items db
  end.

Definition with_rows (t : table) (rows : list (row t)) (db : database) : database :=
  match t return list (row t) -> database with
  | profiles_t => fun l =>
      mk_database l (restaurants db) (dishes db) (orders db) (order_items db)
  | restaurants_t => fun l =>
      mk_database (profiles db) l (dishes db) (orders db) (order_items db)
  | dishes_t => fun l =>
      mk_database (profiles db) (restaurants db) l (orders db) (order_items db)
  | orders_t => fun l =>
      mk_database (profiles db) (restaurants db) (dishes db) l (order_items db)
  | order_items_t => fun l =>
      mk_database (profiles db) (restaurants db) (dishes db) (orders db) l
  end rows.

(** ** Row-level security

    [CREATE POLICY name ON table FOR cmd TO authenticated USING (..)
    WITH CHECK (..)].  Every caller of the model is authenticated, and
    [auth_uid] is the caller's [auth.uid()].  Row-level security is enabled
    on all five tables, every policy is permissive: a row passes for a
    command when one of the table's policies for that command lets it
    pass, and no row passes when the table has no policy for the command. *)

Inductive command := SELECT | INSERT | UPDATE | DELETE.

Definition command_eqb (a b : command) : bool :=
  match a, b with
  | SELECT, SELECT | INSERT, INSERT | UPDATE, UPDATE | DELETE, DELETE => true
  | _, _ => false
  end.

Record policy (R : Type) := mk_policy {
  policy_name : string;
  policy_cmd : command;
  policy_using : option (R -> sql_bool);
  policy_with_check : option (R -> sql_bool)
}.
Arguments mk_policy {R}.
Arguments policy_name {R}.
Arguments policy_cmd {R}.
Arguments policy_using {R}.
Arguments policy_with_check {R}.

Definition using_of {R : Type} (p : policy R) (r : R) : bool :=
  match policy_using p with
  | Some e => sql_true (e r)
  | None => true
  end.

(** A policy without WITH CHECK checks new rows with its USING expression. *)
Definition check_of {R : Type} (p : policy R) (r : R) : bool :=
  match policy_with_check p with
  | Some e => sql_true (e r)
  | None => using_of p r
  end.

Definition rls_using {R : Type} (c : command) (ps : list (policy R)) (r : R) : bool :=
  existsb (fun p => command_eqb (policy_cmd p) c && using_of p r) ps.

Definition rls_check {R : Type} (c : command) (ps : list (policy R)) (r : R) : bool :=
  existsb (fun p => command_eqb (policy_cmd p) c && check_of p r) ps.

Section Policies.
Variable auth_uid : uuid.
Variable db : database.

Definition profiles_policies : list (policy Profile.t) :=
  [ mk_policy "Users can view own profile" SELECT
      (Some (fun p => sql_eq auth_uid (Profile.id p)))
      None;
    mk_policy "Users can update own profile" UPDATE
      (Some (fun p => sql_eq auth_uid (Profile.id p)))
      (Some (fun p => sql_eq auth_uid (Profile.id p)));
    mk_policy "Users can insert own profile" INSERT
      None
      (Some (fun p => sql_eq auth_uid (Profile.id p))) ].

(** A subquery inside a policy runs as the caller: it reads the rows of the
    other table that the caller may SELECT. *)
Definition visible_profiles : list Profile.t :=
  filter (rls_using SELECT profiles_policies) (profiles db).

Definition restaurants_policies : list (policy Restaurant.t) :=
  [ mk_policy "Anyone can view active restaurants" SELECT
      (Some (fun r => sql_eq_bool (Restaurant.is_active r) (Some true)))
      None;
    mk_policy "Sellers can view own restaurants" SELECT
      (Some (fun r => sql_eq (Restaurant.seller_id r) auth_uid))
      None;
    mk_policy "Sellers can insert own restaurants" INSERT
      None
      (Some (fun r =>
         sql_and (sql_eq (Restaurant.seller_id r) auth_uid)
           (sql_exists
              (sql_where (fun p =>
                 sql_and (sql_eq (Profile.id p) auth_uid)
                         (sql_eq (Profile.user_type p) "seller"))
                 visible_profiles))));
    mk_policy "Sellers can update own restaurants" UPDATE
      (Some (fun r => sql_eq (Restaurant.seller_id r) auth_uid))
      (Some (fun r => sql_eq (Restaurant.seller_id r) auth_uid));
    mk_policy "Sellers can delete own restaurants" DELETE
      (Some (fun r => sql_eq (Restaurant.seller_id r) auth_uid))
      None ].

Definition visible_restaurants : list Restaurant.t :=
  filter (rls_using SELECT restaurants_policies) (restaurants db).

(** [EXISTS (SELECT 1 FROM restaurants WHERE restaurants.id = rid AND
    restaurants.seller_id = auth.uid())]. *)
Definition owns_restaurant (rid : uuid) : sql_bool :=
  sql_exists
    (sql_where (fun r =>
       sql_and (sql_eq (Restaurant.id r) rid)
               (sql_eq (Restaurant.seller_id r) auth_uid))
       visible_restaurants).

Definition dishes_policies : list (policy Dish.t) :=
  [ mk_policy "Anyone can view available dishes" SELECT
      (Some (fun d =>
         sql_and (sql_eq_bool (Dish.is_available d) (Some true))
           (sql_exists
              (sql_where (fun r =>
                 sql_and (sql_eq (Restaurant.id r) (Dish.restaurant_id d))
                         (sql_eq_bool (Restaurant.is_active r) (Some true)))
                 visible_restaurants))))
      None;
    mk_policy "Sellers can view own dishes" SELECT
      (Some (fun d => owns_restaurant (Dish.restaurant_id d)))
      None;
    mk_policy "Sellers can insert dishes to own restaurants" INSERT
      None
      (Some (fun d => owns_restaurant (Dish.restaurant_id d)));
    mk_policy "Sellers can update own dishes" UPDATE
      (Some (fun d => owns_restaurant (Dish.restaurant_id d)))
      (Some (fun d => owns_restaurant (Dish.restaurant_id d)));
    mk_policy "Sellers can delete own dishes" DELETE
      (Some (fun d => owns_restaurant (Dish.restaurant_id d)))
      None ].

Definition orders_policies : list (policy Order.t) :=
  [ mk_policy "Customers can view own orders" SELECT
      (Some (fun o => sql_eq (Order.customer_id o) auth_uid))
      None;
    mk_policy "Sellers can view orders for their restaurants" SELECT
      (Some (fun o => owns_restaurant (Order.restaurant_id o)))
      None;
    mk_policy "Customers can insert own orders" INSERT
      None
      (Some (fun o =>
         sql_and (sql_eq (Order.customer_id o) auth_uid)
           (sql_exists
              (sql_where (fun p =>
                 sql_and (sql_eq (Profile.id p) auth_uid)
                         (sql_eq (Profile.user_type p) "customer"))
                 visible_profiles))));
    mk_policy "Customers can update own orders" UPDATE
      (Some (fun o => sql_eq (Order.customer_id o) auth_uid))
      (Some (fun o => sql_eq (Order.customer_id o) auth_uid));
    mk_policy "Sellers can update orders for their restaurants" UPDATE
      (Some (fun o => owns_restaurant (Order.restaurant_id o)))
      (Some (fun o => owns_restaurant (Order.restaurant_id o))) ].

Definition visible_orders : list Order.t :=
  filter (rls_using SELECT orders_policies) (orders db).

(** [EXISTS (SELECT 1 FROM orders WHERE orders.id = oid AND
    orders.customer_id = auth.uid())]. *)
Definition owns_order (oid : uuid) : sql_bool :=
  sql_exists
    (sql_where (fun o =>
       sql_and (sql_eq (Order.id o) oid)
               (sql_eq (Order.customer_id o) auth_uid))
       visible_orders).

Definition order_items_policies : list (policy OrderItem.t) :=
  [ mk_policy "Customers can view own order items" SELECT
      (Some (fun i => owns_order (OrderItem.order_id i)))
      None;
    mk_policy "Sellers can view order items for their restaurants" SELECT
      (Some (fun i =>
         sql_exists
           (sql_where (fun o_r =>
              sql_and (sql_eq (Order.id (fst o_r)) (OrderItem.order_id i))
                      (sql_eq (Restaurant.seller_id (snd o_r)) auth_uid))
              (sql_join (fun o r => sql_eq (Restaurant.id r) (Order.restaurant_id o))
                 visible_orders visible_restaurants))))
      None;
    mk_policy "Customers can insert own order items" INSERT
      None
      (Some (fun i => owns_order (OrderItem.order_id i))) ].

Definition policies (t : table) : list (policy (row t)) :=
  match t with
  | profiles_t => profiles_policies
  | restaurants_t => restaurants_policies
  | dishes_t => dishes_policies
  | orders_t => orders_policies
  | order_items_t => order_items_policies
  end.

End Policies.

(** The parent rows a foreign key designates. *)
Definition restaurant_of (db : database) (rid : uuid) : option Restaurant.t :=
  find (fun r => Restaurant.id r =? rid) (restaurants db).

(** ** Constraints of the schema *)

Fixpoint unique (keys : list string) : bool :=
  match keys with
  | [] => true
  | k :: rest => negb (existsb (String.eqb k) rest) && unique rest
  end.

(** [fk REFERENCES parent(id)]. *)
Definition references (fk : uuid) (keys : list uuid) : bool :=
  existsb (String.eqb fk) keys.

Definition one_of (v : text) (allowed : list text) : bool :=
  existsb (String.eqb v) allowed.

(** A [numeric NOT NULL CHECK (x >= 0)] column: NaN and the infinities have
    no JSON number, they arrive as null. *)
Definition numeric_nonneg (x : number) : bool :=
  is_finite x && (0 <=? x)%float.

Definition int4 (n : Z) : bool :=
  ((-2147483648 <=? n) && (n <=? 2147483647))%Z.

Definition profiles_ok (db : database) : bool :=
  unique (map Profile.id (profiles db))
  && unique (map Profile.email (profiles db))
  && forallb (fun p => one_of (Profile.user_type p) ["customer"; "seller"])
       (profiles db).

Definition restaurants_ok (db : database) : bool :=
  unique (map Restaurant.id (restaurants db))
  && forallb (fun r => references (Restaurant.seller_id r)
                         (map Profile.id (profiles db)))
       (restaurants db).

Definition dishes_ok (db : database) : bool :=
  unique (map Dish.id (dishes db))
  && forallb (fun d => references (Dish.restaurant_id d)
                         (map Restaurant.id (restaurants db))
                       && numeric_nonneg (Dish.price d))
       (dishes db).

Definition orders_ok (db : database) : bool :=
  unique (map Order.id (orders db))
  && forallb (fun o => references (Order.customer_id o)
                         (map Profile.id (profiles db))
                       && references (Order.restaurant_id o)
                            (map Restaurant.id (restaurants db))
                       && numeric_nonneg (Order.total_amount o)
                       && one_of (Order.status o)
                            ["pending"; "confirmed"; "preparing"; "ready";
                             "delivered"; "cancelled"])
       (orders db).

Definition order_items_ok (db : database) : bool :=
  unique (map OrderItem.id (order_items db))
  && forallb (fun i => references (OrderItem.order_id i)
                         (map Order.id (orders db))
                       && references (OrderItem.dish_id i)
                            (map Dish.id (dishes db))
                       && int4 (OrderItem.quantity i)
                       && (0 <? OrderItem.quantity i)%Z
                       && numeric_nonneg (OrderItem.price i))
       (order_items db).

(** PRIMARY KEY, UNIQUE, REFERENCES and CHECK of the five tables.  (The
    reference from [profiles.id] to [auth.users] leaves the schema.) *)
Definition constraints_ok (db : database) : bool :=
  profiles_ok db && restaurants_ok db && dishes_ok db && orders_ok db
  && order_items_ok db.

(** [ON DELETE CASCADE] on every foreign key: after parent rows are gone,
    the rows that referenced them go too, table by table down the
    reference chain.  Referential actions are not subject to row-level
    security. *)
Definition cascade (db : database) : database :=
  let restaurants' :=
    filter (fun r => references (Restaurant.seller_id r)
                       (map Profile.id (profiles db)))
      (restaurants db) in
  let dishes' :=
    filter (fun d => references (Dish.restaurant_id d)
                       (map Restaurant.id restaurants'))
      (dishes db) in
  let orders' :=
    filter (fun o => references (Order.customer_id o)
                       (map Profile.id (profiles db))
                     && references (Order.restaurant_id o)
                          (map Restaurant.id restaurants'))
      (orders db) in
  let order_items' :=
    filter (fun i => references (OrderItem.order_id i) (map Order.id orders')
                     && references (OrderItem.dish_id i) (map Dish.id dishes'))
      (order_items db) in
  mk_database (profiles db) restaurants' dishes' orders' order_items'.

(** ** Requests against the database

    One request is one statement in its own transaction: it commits, or
    it is refused and leaves the database as it was. *)

Inductive pg_error :=
| rls_violation
| constraint_violation
| not_null_violation
| invalid_input
| unknown_column.

Inductive result (A : Type) :=
| Ok (a : A)
| Err (e : pg_error).
Arguments Ok {A}.
Arguments Err {A}.

Inductive request :=
| Insert (t : table) (new_rows : list (row t)) (returning : bool)
| Update (t : table) (where_ : row t -> bool) (set : row t -> row t)
| Delete (t : table) (where_ : row t -> bool).

Definition commit (db' : database) : result database :=
  if constraints_ok db' then Ok db' else Err constraint_violation.

(** The statement of caller [auth_uid] on [db].
    - INSERT: every new row must pass an INSERT policy's WITH CHECK, and,
      when the rows are returned ([.select()]), a SELECT policy as well.
    - UPDATE: the rows that match the filter and pass an UPDATE policy's
      USING are rewritten, the others are skipped silently; a rewritten row
      must pass an UPDATE policy's WITH CHECK.
    - DELETE: the rows that match the filter and pass a DELETE policy's
      USING are removed, and the deletion cascades.
    A filter also brings in the SELECT policies of the table, on the rows
    read and on the rows written; they are left out because in this schema
    every USING and WITH CHECK expression for a write is the USING
    expression of a SELECT policy of the same table
    ([write_policies_within_select]). *)
Definition exec (auth_uid : uuid) (rq : request) (db : database) : result database :=
  match rq with
  | Insert t new_rows returning =>
      if negb (forallb (rls_check INSERT (policies auth_uid db t)) new_rows)
      then Err rls_violation
      else if returning
              && negb (forallb (rls_using SELECT (policies auth_uid db t)) new_rows)
      then Err rls_violation
      else commit (with_rows t (rows_of t db ++ new_rows) db)
  | Update t where_ set =>
      let touched r := where_ r && rls_using UPDATE (policies auth_uid db t) r in
      if forallb (fun r => negb (touched r)
                           || rls_check UPDATE (policies auth_uid db t) (set r))
           (rows_of t db)
      then commit (with_rows t
                     (map (fun r => if touched r then set r else r) (rows_of t db))
                     db)
      else Err rls_violation
  | Delete t where_ =>
      let gone r := where_ r && rls_using DELETE (policies auth_uid db t) r in
      commit (cascade (with_rows t
                         (filter (fun r => negb (gone r)) (rows_of t db))
                         db))
  end.

(** A refused request leaves the database unchanged. *)
Definition apply_request (db : database) (step : uuid * request) : database :=
  match exec (fst step) (snd step) db with
  | Ok db' => db'
  | Err _ => db
  end.

(** Any number of requests by any callers, one after the other. *)
Definition run_requests (steps : list (uuid * request)) (db : database) : database :=
  fold_left apply_request steps db.



(** ** The wire: JavaScript objects as JSON bodies *)

Inductive js_value :=
| js_undefined
| js_null
| js_bool (b : bool)
| js_number (x : number)
| js_string (s : string).

(** An object literal: its properties in order. *)
Definition js_object := list (string * js_value).

Inductive json :=
| JNull
| JBool (b : bool)
| JNumber (x : number)
| JString (s : string).

Definition json_object := list (string * json).

(** [JSON.stringify]: a property whose value is [undefined] is left out,
    NaN and the infinities are written as null.  (A negative zero keeps
    its sign here, where JSON writes it as 0.) *)
Definition stringify (o : js_object) : json_object :=
  flat_map (fun kv =>
    match snd kv with
    | js_undefined => []
    | js_null => [(fst kv, JNull)]
    | js_bool b => [(fst kv, JBool b)]
    | js_number x => [(fst kv, if is_finite x then JNumber x else JNull)]
    | js_string s => [(fst kv, JString s)]
    end) o.

Definition keys_of {V : Type} (o : list (string * V)) : list string := map fst o.

(** [x?.f] for a string field. *)
Definition js_optional (v : option string) : js_value :=
  match v with
  | Some s => js_string s
  | None => js_undefined
  end.

Definition bind {A B : Type} (r : result A) (k : A -> result B) : result B :=
  match r with
  | Ok a => k a
  | Err e => Err e
  end.

Notation "x <- r ;; k" := (bind r (fun x => k))
  (at level 61, r at next level, right associativity).

(** The integer a double denotes, if it denotes one. *)
Definition to_integer (x : number) : option Z :=
  match Prim2SF x with
  | S754_zero _ => Some 0%Z
  | S754_finite s m e =>
      let magnitude :=
        if (0 <=? e)%Z then Some (Z.pos m * 2 ^ e)%Z
        else if (Z.pos m mod 2 ^ (- e) =? 0)%Z then Some (Z.pos m / 2 ^ (- e))%Z
        else None in
      option_map (fun n => if s then (- n)%Z else n) magnitude
  | _ => None
  end.

(** Reading a JSON value into a column of a given type.  (The implicit
    casts between JSON types are left out: a value of another JSON type
    than the column's is refused, and so is a timestamp literal.) *)
Definition as_text (v : json) : result (option text) :=
  match v with
  | JNull => Ok None
  | JString s => Ok (Some s)
  | _ => Err invalid_input
  end.

Definition as_boolean (v : json) : result (option bool) :=
  match v with
  | JNull => Ok None
  | JBool b => Ok (Some b)
  | _ => Err invalid_input
  end.

Definition as_numeric (v : json) : result (option number) :=
  match v with
  | JNull => Ok None
  | JNumber x => Ok (Some x)
  | _ => Err invalid_input
  end.

Definition as_integer (v : json) : result (option Z) :=
  match v with
  | JNull => Ok None
  | JNumber x =>
      match to_integer x with
      | Some n => if int4 n then Ok (Some n) else Err invalid_input
      | None => Err invalid_input
      end
  | _ => Err invalid_input
  end.

Definition not_null {A : Type} (r : result (option A)) : result A :=
  v <- r ;;
  match v with
  | Some a => Ok a
  | None => Err not_null_violation
  end.

(** [SET column = value], column by column. *)
Definition profile_column (k : string) (v : json) : result (Profile.t -> Profile.t) :=
  if k =? "id" then
    x <- not_null (as_text v) ;;
    Ok (fun p => Profile.mk x (Profile.email p) (Profile.full_name p)
                   (Profile.user_type p) (Profile.created_at p) (Profile.updated_at p))
  else if k =? "email" then
    x <- not_null (as_text v) ;;
    Ok (fun p => Profile.mk (Profile.id p) x (Profile.full_name p)
                   (Profile.user_type p) (Profile.created_at p) (Profile.updated_at p))
  else if k =? "full_name" then
    x <- not_null (as_text v) ;;
    Ok (fun p => Profile.mk (Profile.id p) (Profile.email p) x
                   (Profile.user_type p) (Profile.created_at p) (Profile.updated_at p))
  else if k =? "user_type" then
    x <- not_null (as_text v) ;;
    Ok (fun p => Profile.mk (Profile.id p) (Profile.email p) (Profile.full_name p)
                   x (Profile.created_at p) (Profile.updated_at p))
  else if (k =? "created_at") || (k =? "updated_at") then Err invalid_input
  else Err unknown_column.

Definition restaurant_column (k : string) (v : json)
    : result (Restaurant.t -> Restaurant.t) :=
  let upd (f : Restaurant.t -> Restaurant.t) := Ok f in
  if k =? "id" then
    x <- not_null (as_text v) ;;
    upd (fun r => Restaurant.mk x (Restaurant.seller_id r) (Restaurant.name r)
                    (Restaurant.description r) (Restaurant.address r)
                    (Restaurant.phone r) (Restaurant.image_url r)
                    (Restaurant.is_active r) (Restaurant.created_at r)
                    (Restaurant.updated_at r))
  else if k =? "seller_id" then
    x <- not_null (as_text v) ;;
    upd (fun r => Restaurant.mk (Restaurant.id r) x (Restaurant.name r)
                    (Restaurant.description r) (Restaurant.address r)
                    (Restaurant.phone r) (Restaurant.image_url r)
                    (Restaurant.is_active r) (Restaurant.created_at r)
                    (Restaurant.updated_at r))
  else if k =? "name" then
    x <- not_null (as_text v) ;;
    upd (fun r => Restaurant.mk (Restaurant.id r) (Restaurant.seller_id r) x
                    (Restaurant.description r) (Restaurant.address r)
                    (Restaurant.phone r) (Restaurant.image_url r)
                    (Restaurant.is_active r) (Restaurant.created_at r)
                    (Restaurant.updated_at r))
  else if k =? "description" then
    x <- as_text v ;;
    upd (fun r => Restaurant.mk (Restaurant.id r) (Restaurant.seller_id r)
                    (Restaurant.name r) x (Restaurant.address r)
                    (Restaurant.phone r) (Restaurant.image_url r)
                    (Restaurant.is_active r) (Restaurant.created_at r)
                    (Restaurant.updated_at r))
  else if k =? "address" then
    x <- as_text v ;;
    upd (fun r => Restaurant.mk (Restaurant.id r) (Restaurant.seller_id r)
                    (Restaurant.name r) (Restaurant.description r) x
                    (Restaurant.phone r) (Restaurant.image_url r)
                    (Restaurant.is_active r) (Restaurant.created_at r)
                    (Restaurant.updated_at r))
  else if k =? "phone" then
    x <- as_text v ;;
    upd (fun r => Restaurant.mk (Restaurant.id r) (Restaurant.seller_id r)
                    (Restaurant.name r) (Restaurant.description r)
                    (Restaurant.address r) x (Restaurant.image_url r)
                    (Restaurant.is_active r) (Restaurant.created_at r)
                    (Restaurant.updated_at r))
  else if k =? "image_url" then
    x <- as_text v ;;
    upd (fun r => Restaurant.mk (Restaurant.id r) (Restaurant.seller_id r)
                    (Restaurant.name r) (Restaurant.description r)
                    (Restaurant.address r) (Restaurant.phone r) x
                    (Restaurant.is_active r) (Restaurant.created_at r)
                    (Restaurant.updated_at r))
  else if k =? "is_active" then
    x <- as_boolean v ;;
    upd (fun r => Restaurant.mk (Restaurant.id r) (Restaurant.seller_id r)
                    (Restaurant.name r) (Restaurant.description r)
                    (Restaurant.address r) (Restaurant.phone r)
                    (Restaurant.image_url r) x (Restaurant.created_at r)
                    (Restaurant.updated_at r))
  else if (k =? "created_at") || (k =? "updated_at") then Err invalid_input
  else Err unknown_column.

Definition dish_column (k : string) (v : json) : result (Dish.t -> Dish.t) :=
  let upd (f : Dish.t -> Dish.t) := Ok f in
  if k =? "id" then
    x <- not_null (as_text v) ;;
    upd (fun d => Dish.mk x (Dish.restaurant_id d) (Dish.name d)
                    (Dish.description d) (Dish.price d) (Dish.image_url d)
                    (Dish.category d) (Dish.is_available d) (Dish.created_at d)
                    (Dish.updated_at d))
  else if k =? "restaurant_id" then
    x <- not_null (as_text v) ;;
    upd (fun d => Dish.mk (Dish.id d) x (Dish.name d)
                    (Dish.description d) (Dish.price d) (Dish.image_url d)
                    (Dish.category d) (Dish.is_available d) (Dish.created_at d)
                    (Dish.updated_at d))
  else if k =? "name" then
    x <- not_null (as_text v) ;;
    upd (fun d => Dish.mk (Dish.id d) (Dish.restaurant_id d) x
                    (Dish.description d) (Dish.price d) (Dish.image_url d)
                    (Dish.category d) (Dish.is_available d) (Dish.created_at d)
                    (Dish.updated_at d))
  else if k =? "description" then
    x <- as_text v ;;
    upd (fun d => Dish.mk (Dish.id d) (Dish.restaurant_id d) (Dish.name d)
                    x (Dish.price d) (Dish.image_url d)
                    (Dish.category d) (Dish.is_available d) (Dish.created_at d)
                    (Dish.updated_at d))
  else if k =? "price" then
    x <- not_null (as_numeric v) ;;
    upd (fun d => Dish.mk (Dish.id d) (Dish.restaurant_id d) (Dish.name d)
                    (Dish.description d) x (Dish.image_url d)
                    (Dish.category d) (Dish.is_available d) (Dish.created_at d)
                    (Dish.updated_at d))
  else if k =? "image_url" then
    x <- as_text v ;;
    upd (fun d => Dish.mk (Dish.id d) (Dish.restaurant_id d) (Dish.name d)
                    (Dish.description d) (Dish.price d) x
                    (Dish.category d) (Dish.is_available d) (Dish.created_at d)
                    (Dish.updated_at d))
  else if k =? "category" then
    x <- as_text v ;;
    upd (fun d => Dish.mk (Dish.id d) (Dish.restaurant_id d) (Dish.name d)
                    (Dish.description d) (Dish.price d) (Dish.image_url d)
                    x (Dish.is_available d) (Dish.created_at d)
                    (Dish.updated_at d))
  else if k =? "is_available" then
    x <- as_boolean v ;;
    upd (fun d => Dish.mk (Dish.id d) (Dish.restaurant_id d) (Dish.name d)
                    (Dish.description d) (Dish.price d) (Dish.image_url d)
                    (Dish.category d) x (Dish.created_at d)
                    (Dish.updated_at d))
  else if (k =? "created_at") || (k =? "updated_at") then Err invalid_input
  else Err unknown_column.

Definition order_column (k : string) (v : json) : result (Order.t -> Order.t) :=
  let upd (f : Order.t -> Order.t) := Ok f in
  if k =? "id" then
    x <- not_null (as_text v) ;;
    upd (fun o => Order.mk x (Order.customer_id o) (Order.restaurant_id o)
                    (Order.total_amount o) (Order.status o)
                    (Order.delivery_address o) (Order.notes o)
                    (Order.created_at o) (Order.updated_at o))
  else if k =? "customer_id" then
    x <- not_null (as_text v) ;;
    upd (fun o => Order.mk (Order.id o) x (Order.restaurant_id o)
                    (Order.total_amount o) (Order.status o)
                    (Order.delivery_address o) (Order.notes o)
                    (Order.created_at o) (Order.updated_at o))
  else if k =? "restaurant_id" then
    x <- not_null (as_text v) ;;
    upd (fun o => Order.mk (Order.id o) (Order.customer_id o) x
                    (Order.total_amount o) (Order.status o)
                    (Order.delivery_address o) (Order.notes o)
                    (Order.created_at o) (Order.updated_at o))
  else if k =? "total_amount" then
    x <- not_null (as_numeric v) ;;
    upd (fun o => Order.mk (Order.id o) (Order.customer_id o)
                    (Order.restaurant_id o) x (Order.status o)
                    (Order.delivery_address o) (Order.notes o)
                    (Order.created_at o) (Order.updated_at o))
  else if k =? "status" then
    x <- not_null (as_text v) ;;
    upd (fun o => Order.mk (Order.id o) (Order.customer_id o)
                    (Order.restaurant_id o) (Order.total_amount o) x
                    (Order.delivery_address o) (Order.notes o)
                    (Order.created_at o) (Order.updated_at o))
  else if k =? "delivery_address" then
    x <- not_null (as_text v) ;;
    upd (fun o => Order.mk (Order.id o) (Order.customer_id o)
                    (Order.restaurant_id o) (Order.total_amount o)
                    (Order.status o) x (Order.notes o)
                    (Order.created_at o) (Order.updated_at o))
  else if k =? "notes" then
    x <- as_text v ;;
    upd (fun o => Order.mk (Order.id o) (Order.customer_id o)
                    (Order.restaurant_id o) (Order.total_amount o)
                    (Order.status o) (Order.delivery_address o) x
                    (Order.created_at o) (Order.updated_at o))
  else if (k =? "created_at") || (k =? "updated_at") then Err invalid_input
  else Err unknown_column.

Definition order_item_column (k : string) (v : json)
    : result (OrderItem.t -> OrderItem.t) :=
  let upd (f : OrderItem.t -> OrderItem.t) := Ok f in
  if k =? "id" then
    x <- not_null (as_text v) ;;
    upd (fun i => OrderItem.mk x (OrderItem.order_id i) (OrderItem.dish_id i)
                    (OrderItem.quantity i) (OrderItem.price i)
                    (OrderItem.created_at i))
  else if k =? "order_id" then
    x <- not_null (as_text v) ;;
    upd (fun i => OrderItem.mk (OrderItem.id i) x (OrderItem.dish_id i)
                    (OrderItem.quantity i) (OrderItem.price i)
                    (OrderItem.created_at i))
  else if k =? "dish_id" then
    x <- not_null (as_text v) ;;
    upd (fun i => OrderItem.mk (OrderItem.id i) (OrderItem.order_id i) x
                    (OrderItem.quantity i) (OrderItem.price i)
                    (OrderItem.created_at i))
  else if k =? "quantity" then
    x <- not_null (as_integer v) ;;
    upd (fun i => OrderItem.mk (OrderItem.id i) (OrderItem.order_id i)
                    (OrderItem.dish_id i) x (OrderItem.price i)
                    (OrderItem.created_at i))
  else if k =? "price" then
    x <- not_null (as_numeric v) ;;
    upd (fun i => OrderItem.mk (OrderItem.id i) (OrderItem.order_id i)
                    (OrderItem.dish_id i) (OrderItem.quantity i) x
                    (OrderItem.created_at i))
  else if k =? "created_at" then Err invalid_input
  else Err unknown_column.

Definition column (t : table) : string -> json -> result (row t -> row t) :=
  match t with
  | profiles_t => profile_column
  | restaurants_t => restaurant_column
  | dishes_t => dish_column
  | orders_t => order_column
  | order_items_t => order_item_column
  end.

(** The columns a body sets, applied from first to last. *)
Fixpoint patch (t : table) (body : json_object) : result (row t -> row t) :=
  match body with
  | [] => Ok (fun r => r)
  | (k, v) :: rest =>
      f <- column t k v ;;
      g <- patch t rest ;;
      Ok (fun r => g (f r))
  end.

(** What the backend supplies for one new row: [gen_random_uuid()] and
    [now()]. *)
Record generated := mk_generated {
  gen_random_uuid : uuid;
  now : timestamptz
}.

(** The row of column DEFAULTs; a NOT NULL column without a default holds a
    placeholder that [required] makes the body overwrite. *)
Definition defaults (t : table) (g : generated) : row t :=
  match t with
  | profiles_t =>
      Profile.mk "" "" "" "" (Some (now g)) (Some (now g))
  | restaurants_t =>
      Restaurant.mk (gen_random_uuid g) "" "" (Some "") (Some "") (Some "")
        (Some "") (Some true) (Some (now g)) (Some (now g))
  | dishes_t =>
      Dish.mk (gen_random_uuid g) "" "" (Some "") 0%float (Some "")
        (Some "Other") (Some true) (Some (now g)) (Some (now g))
  | orders_t =>
      Order.mk (gen_random_uuid g) "" "" 0%float "pending" "" (Some "")
        (Some (now g)) (Some (now g))
  | order_items_t =>
      OrderItem.mk (gen_random_uuid g) "" "" 1%Z 0%float (Some (now g))
  end.

(** The NOT NULL columns without a DEFAULT. *)
Definition required (t : table) : list string :=
  match t with
  | profiles_t => ["id"; "email"; "full_name"; "user_type"]
  | restaurants_t => ["seller_id"; "name"]
  | dishes_t => ["restaurant_id"; "name"; "price"]
  | orders_t => ["customer_id"; "restaurant_id"; "delivery_address"]
  | order_items_t => ["order_id"; "dish_id"; "price"]
  end.

Definition has_key (body : json_object) (k : string) : bool :=
  existsb (fun kv => fst kv =? k) body.

Definition new_row (t : table) (g : generated) (body : json_object) : result (row t) :=
  if forallb (has_key body) (required t)
  then set <- patch t body ;; Ok (set (defaults t g))
  else Err not_null_violation.

(** One new row per body, each with its own generated values. *)
Fixpoint new_rows (t : table) (gs : nat -> generated) (bodies : list json_object)
    : result (list (row t)) :=
  match bodies with
  | [] => Ok []
  | body :: rest =>
      r <- new_row t (gs O) body ;;
      rs <- new_rows t (fun n => gs (S n)) rest ;;
      Ok (r :: rs)
  end.

Definition row_id (t : table) : row t -> uuid :=
  match t with
  | profiles_t => Profile.id
  | restaurants_t => Restaurant.id
  | dishes_t => Dish.id
  | orders_t => Order.id
  | order_items_t => OrderItem.id
  end.

(** ** The client's calls

    [supabase.from(t).insert(bodies)], with [.select()] when [returning];
    [supabase.from(t).update(body).eq('id', id)];
    [supabase.from(t).delete().eq('id', id)]. *)

Inductive api_call :=
| call_insert (t : table) (bodies : list js_object) (returning : bool)
| call_update (t : table) (body : js_object) (id : uuid)
| call_delete (t : table) (id : uuid).

Definition api_insert (auth_uid : uuid) (gs : nat -> generated) (t : table)
    (bodies : list js_object) (returning : bool) (db : database)
    : result (list (row t) * database) :=
  rows <- new_rows t gs (map stringify bodies) ;;
  db' <- exec auth_uid (Insert t rows returning) db ;;
  Ok (rows, db').

Definition api_update (auth_uid : uuid) (t : table) (body : js_object) (id : uuid)
    (db : database) : result database :=
  set <- patch t (stringify body) ;;
  exec auth_uid (Update t (fun r => row_id t r =? id) set) db.

Definition api_delete (auth_uid : uuid) (t : table) (id : uuid) (db : database)
    : result database :=
  exec auth_uid (Delete t (fun r => row_id t r =? id)) db.

(** [.single()]: exactly one row came back. *)
Definition single {A S : Type} (r : result (list A * S)) : result (A * S) :=
  x <- r ;;
  match fst x with
  | [a] => Ok (a, snd x)
  | _ => Err invalid_input
  end.

(** ** Checkout ([Cart.tsx]) *)

(** [items.reduce((sum, item) => sum + (item.dish.price * item.quantity), 0)] *)
Definition total (items : list CartItem.t) : number :=
  fold_left
    (fun sum item => (sum + Dish.price (CartItem.dish item) * CartItem.quantity item)%float)
    items 0%float.



(** The component's state; [timeouts] are the delays of the callbacks
    handed to [setTimeout] (each runs [onClearCart(); onClose()]). *)
Module CartView.
Record t := mk {
  deliveryAddress : string;
  notes : string;
  loading : bool;
  error : string;
  success : bool;
  timeouts : list Z
}.
Definition setLoading (b : bool) (v : t) : t :=
  mk (deliveryAddress v) (notes v) b (error v) (success v) (timeouts v).
Definition setError (e : string) (v : t) : t :=
  mk (deliveryAddress v) (notes v) (loading v) e (success v) (timeouts v).
Definition setSuccess (b : bool) (v : t) : t :=
  mk (deliveryAddress v) (notes v) (loading v) (error v) b (timeouts v).
Definition setTimeout (ms : Z) (v : t) : t :=
  mk (deliveryAddress v) (notes v) (loading v) (error v) (success v)
     (timeouts v ++ [ms]).
End CartView.

(** The seller's dish form ([DishForm.tsx]). *)
Module DishForm.
Record t := mk {
  name : string;
  description : string;
  price : string;
  imageUrl : string;
  category : string;
  loading : bool;
  error : string
}.
Definition setLoading (b : bool) (f : t) : t :=
  mk (name f) (description f) (price f) (imageUrl f) (category f) b (error f).
Definition setError (e : string) (f : t) : t :=
  mk (name f) (description f) (price f) (imageUrl f) (category f) (loading f) e.
End DishForm.

Section Client.

(** [String.prototype.trim], [parseFloat], and the text the catch clauses
    show for a failed call ([err instanceof Error ? err.message : 'An error
    occurred']) are the platform's. *)
Variable trim : string -> string.
Variable parseFloat : string -> number.
Variable describe : pg_error -> string.

(** The signed-in user: [session] is the identity the backend sees
    ([auth.uid()]), [profile] the profile row the client loaded. *)
Variable session : uuid.

(** The [orderItems] of [handlePlaceOrder]. *)
Definition orderItems (order : Order.t) (items : list CartItem.t) : list js_object :=
  map (fun item =>
         [ ("order_id", js_string (Order.id order));
           ("dish_id", js_string (Dish.id (CartItem.dish item)));
           ("quantity", js_number (CartItem.quantity item));
           ("price", js_number (Dish.price (CartItem.dish item))) ])
      items.

(** The object that [handlePlaceOrder] inserts into [orders]. *)
Definition order_body (profile : option Profile.t) (items : list CartItem.t)
    (view : CartView.t) : js_object :=
  let restaurantId :=
    option_map (fun item => Restaurant.id (CartItem.restaurant item))
      (nth_error items 0) in
  [ ("customer_id", js_optional (option_map Profile.id profile));
    ("restaurant_id", js_optional restaurantId);
    ("total_amount", js_number (total items));
    ("delivery_address", js_string (CartView.deliveryAddress view));
    ("notes", js_string (CartView.notes view));
    ("status", js_string "pending") ].

(** [handlePlaceOrder()]: the view after it, the database after it, and
    the calls it made.  [gen_order] and [gen_items] are the values the
    backend generates for the rows of the first and of the second call. *)
Definition handlePlaceOrder (profile : option Profile.t) (items : list CartItem.t)
    (gen_order gen_items : nat -> generated)
    (view : CartView.t) (db : database)
    : CartView.t * database * list api_call :=
  if trim (CartView.deliveryAddress view) =? ""
  then (CartView.setError "Please enter a delivery address" view, db, [])
  else
    let view := CartView.setLoading true (CartView.setError "" view) in
    let insert_order := call_insert orders_t [order_body profile items view] true in
    match single (api_insert session gen_order orders_t
                    [order_body profile items view] true db) with
    | Err orderError =>
        (CartView.setLoading false (CartView.setError (describe orderError) view),
         db, [insert_order])
    | Ok (order, db1) =>
        let insert_items := call_insert order_items_t (orderItems order items) false in
        match api_insert session gen_items order_items_t
                (orderItems order items) false db1 with
        | Err itemsError =>
            (CartView.setLoading false (CartView.setError (describe itemsError) view),
             db1, [insert_order; insert_items])
        | Ok (_, db2) =>
            (CartView.setLoading false
               (CartView.setTimeout 2000 (CartView.setSuccess true view)),
             db2, [insert_order; insert_items])
        end
    end.

(** ** The dish form ([DishForm.tsx]) *)

Definition dishData (restaurant : Restaurant.t) (form : DishForm.t) : js_object :=
  [ ("restaurant_id", js_string (Restaurant.id restaurant));
    ("name", js_string (DishForm.name form));
    ("description", js_string (DishForm.description form));
    ("price", js_number (parseFloat (DishForm.price form)));
    ("image_url", js_string (DishForm.imageUrl form));
    ("category", js_string (DishForm.category form)) ].

(** [handleSubmit(e)] of the form opened for [dish] (an edit) or for no
    dish (a new one): the form after it, whether [onSuccess()] was called,
    the database after it, and the calls it made. *)
Definition handleSubmit (restaurant : Restaurant.t) (dish : option Dish.t)
    (gen : nat -> generated) (form : DishForm.t) (db : database)
    : DishForm.t * bool * database * list api_call :=
  let form := DishForm.setLoading true (DishForm.setError "" form) in
  match dish with
  | Some d =>
      let call := call_update dishes_t (dishData restaurant form) (Dish.id d) in
      match api_update session dishes_t (dishData restaurant form) (Dish.id d) db with
      | Err updateError =>
          (DishForm.setLoading false (DishForm.setError (describe updateError) form),
           false, db, [call])
      | Ok db' => (DishForm.setLoading false form, true, db', [call])
      end
  | None =>
      let call := call_insert dishes_t [dishData restaurant form] false in
      match api_insert session gen dishes_t [dishData restaurant form] false db with
      | Err insertError =>
          (DishForm.setLoading false (DishForm.setError (describe insertError) form),
           false, db, [call])
      | Ok (_, db') => (DishForm.setLoading false form, true, db', [call])
      end
  end.

(** ** The seller's menu screen ([RestaurantManager]) *)

(** [handleDeleteDish(dishId)], once the seller has confirmed. *)
Definition handleDeleteDish (dishId : uuid) (db : database) : database * list api_call :=
  let call := call_delete dishes_t dishId in
  match api_delete session dishes_t dishId db with
  | Err _ => (db, [call])
  | Ok db' => (db', [call])
  end.

(** [handleToggleAvailability(dish)]; [!dish.is_available] of a null flag
    is [true]. *)
Definition handleToggleAvailability (dish : Dish.t) (db : database)
    : database * list api_call :=
  let body : js_object :=
    [ ("is_available",
       js_bool (negb (match Dish.is_available dish with
                      | Some b => b
                      | None => false
                      end))) ] in
  let call := call_update dishes_t body (Dish.id dish) in
  match api_update session dishes_t body (Dish.id dish) db with
  | Err _ => (db, [call])
  | Ok db' => (db', [call])
  end.

End Client.

Definition is_delete_call (c : api_call) : bool :=
  match c with
  | call_delete _ _ => true
  | _ => false
  end.

(** The stored line of a cart item: it is a line of [order], for the
    item's dish, at the dish's price as the cart holds it. *)
Definition line_of (order : Order.t) (item : CartItem.t) (i : OrderItem.t) : Prop :=
  OrderItem.order_id i = Order.id order
  /\ OrderItem.dish_id i = Dish.id (CartItem.dish item)
  /\ OrderItem.price i = Dish.price (CartItem.dish item)
  /\ to_integer (CartItem.quantity item) = Some (OrderItem.quantity i).




(** The values an edit leaves alone in a dish row. *)
Definition kept_by_edit (edited : uuid) (d d' : Dish.t) : Prop :=
  Dish.id d' = Dish.id d
  /\ Dish.is_available d' = Dish.is_available d
  /\ Dish.created_at d' = Dish.created_at d
  /\ Dish.updated_at d' = Dish.updated_at d
  /\ (Dish.id d <> edited -> d' = d).

(** ** A small database and a cart, for the examples *)

Definition sample_seller : Profile.t :=
  Profile.mk "seller-1" "sam@example.com" "Sam Seller" "seller" (Some 1%Z) (Some 1%Z).

Definition sample_other_seller : Profile.t :=
  Profile.mk "seller-2" "olga@example.com" "Olga Owner" "seller" (Some 2%Z) (Some 2%Z).

Definition sample_customer : Profile.t :=
  Profile.mk "customer-1" "cleo@example.com" "Cleo Customer" "customer"
    (Some 3%Z) (Some 3%Z).

Definition sample_restaurant : Restaurant.t :=
  Restaurant.mk "rest-1" "seller-1" "Trattoria" (Some "") (Some "1 Main St")
    (Some "") (Some "") (Some true) (Some 4%Z) (Some 4%Z).

Definition sample_closed_restaurant : Restaurant.t :=
  Restaurant.mk "rest-2" "seller-2" "Bistro" (Some "") (Some "2 Side St")
    (Some "") (Some "") (Some false) (Some 5%Z) (Some 5%Z).

Definition sample_pasta : Dish.t :=
  Dish.mk "dish-1" "rest-1" "Pasta" (Some "") 9.99%float (Some "") (Some "Main")
    (Some true) (Some 6%Z) (Some 6%Z).

Definition sample_soup : Dish.t :=
  Dish.mk "dish-2" "rest-1" "Soup" (Some "") 5.00%float (Some "") (Some "Starter")
    (Some true) (Some 7%Z) (Some 7%Z).

Definition sample_quiche : Dish.t :=
  Dish.mk "dish-3" "rest-2" "Quiche" (Some "") 7.5%float (Some "") (Some "Main")
    (Some true) (Some 8%Z) (Some 8%Z).

Definition sample_db : database :=
  mk_database
    [sample_seller; sample_other_seller; sample_customer]
    [sample_restaurant; sample_closed_restaurant]
    [sample_pasta; sample_soup; sample_quiche]
    [] [].

(** The cart [{dish price 9.99, qty 2}, {dish price 5.00, qty 1}]. *)
Definition sample_cart : list CartItem.t :=
  [ CartItem.mk sample_pasta sample_restaurant 2%float;
    CartItem.mk sample_soup sample_restaurant 1%float ].

(** A cart whose second dish is of another restaurant than the first. *)
Definition sample_mixed_cart : list CartItem.t :=
  [ CartItem.mk sample_pasta sample_restaurant 1%float;
    CartItem.mk sample_quiche sample_closed_restaurant 1%float ].

Definition sample_generated (prefix : string) (n : nat) : generated :=
  mk_generated (String.append prefix (String (ascii_of_nat (48 + n)) EmptyString)) 100%Z.

Definition sample_view : CartView.t :=
  CartView.mk "12 Elm Road" "" false "" false [].

(** Stand-ins for the platform's functions in the examples. *)
Definition is_space (c : ascii) : bool :=
  existsb (Ascii.eqb c)
    [" "%char; ascii_of_nat 9; ascii_of_nat 10; ascii_of_nat 11;
     ascii_of_nat 12; ascii_of_nat 13].

Fixpoint trim_start (s : string) : string :=
  match s with
  | String c rest => if is_space c then trim_start rest else s
  | EmptyString => EmptyString
  end.

Fixpoint trim_end (s : string) : string :=
  match s with
  | EmptyString => EmptyString
  | String c rest =>
      let rest' := trim_end rest in
      if is_space c && (rest' =? "") then "" else String c rest'
  end.

Definition sample_trim (s : string) : string := trim_end (trim_start s).

Definition sample_describe (e : pg_error) : string := "An error occurred".

Definition sample_parseFloat (s : string) : number :=
  if s =? "11.50" then 11.5%float else nan.

(** The database once an order of [sample_cart] has been placed. *)
Definition sample_order : Order.t :=
  Order.mk "order-0" "customer-1" "rest-1" 24.98%float "pending" "12 Elm Road"
    (Some "") (Some 100%Z) (Some 100%Z).

Definition sample_order_items : list OrderItem.t :=
  [ OrderItem.mk "item-0" "order-0" "dish-1" 2%Z 9.99%float (Some 100%Z);
    OrderItem.mk "item-1" "order-0" "dish-2" 1%Z 5.00%float (Some 100%Z) ].

Definition sample_db_with_order : database :=
  mk_database (profiles sample_db) (restaurants sample_db) (dishes sample_db)
    [sample_order] sample_order_items.

(** Row rewrites for the examples. *)
Definition order_with_status (s : text) (o : Order.t) : Order.t :=
  Order.mk (Order.id o) (Order.customer_id o) (Order.restaurant_id o)
    (Order.total_amount o) s (Order.delivery_address o) (Order.notes o)
    (Order.created_at o) (Order.updated_at o).



(** The checkout of a cart with dishes of two restaurants. *)
Definition sample_mixed_checkout : CartView.t * database * list api_call :=
  handlePlaceOrder sample_trim sample_describe "customer-1" (Some sample_customer)
    sample_mixed_cart (sample_generated "order-") (sample_generated "item-")
    sample_view sample_db.

(** The seller has deleted the pasta that the customer's cart still holds. *)
Definition sample_db_without_pasta : database :=
  fst (handleDeleteDish "seller-1" "dish-1" sample_db).

Definition sample_stale_checkout : CartView.t * database * list api_call :=
  handlePlaceOrder sample_trim sample_describe "customer-1" (Some sample_customer)
    sample_cart (sample_generated "order-") (sample_generated "item-")
    sample_view sample_db_without_pasta.

(** The soup taken off the menu, and the form of an edit of it. *)
Definition sample_db_soup_off : database :=
  fst (handleToggleAvailability "seller-1" sample_soup sample_db).

Definition sample_form : DishForm.t :=
  DishForm.mk "Minestrone" "" "11.50" "" "Starter" false "".

(** The seller has re-priced (and renamed) the pasta after the customer
    put it in the cart: the cart still holds the dish as it was loaded. *)
Definition sample_db_repriced : database :=
  snd (fst (handleSubmit sample_parseFloat sample_describe "seller-1"
              sample_restaurant (Some sample_pasta) (sample_generated "dish-")
              sample_form sample_db)).

Definition sample_repriced_checkout : CartView.t * database * list api_call :=
  handlePlaceOrder sample_trim sample_describe "customer-1" (Some sample_customer)
    sample_cart (sample_generated "order-") (sample_generated "item-")
    sample_view sample_db_repriced.

(** The customer has made the own profile a seller's. *)
Definition sample_db_promoted : result database :=
  api_update "customer-1" profiles_t [("user_type", js_string "seller")]
    "customer-1" sample_db.

Definition sample_new_restaurant : js_object :=
  [ ("seller_id", js_string "customer-1"); ("name", js_string "Pop-up") ].

(** ** The cart's line buttons ([Cart.tsx]) and the dashboard's screens
    ([CustomerDashboard.tsx]) *)

(** The minus, plus and trash buttons of a cart line call [onUpdateItem]
    with the line's dish id and [item.quantity - 1], [item.quantity + 1]
    and [0]. *)
Definition cart_minus (cartItems : list CartItem.t) (item : CartItem.t)
    : list CartItem.t :=
  updateCartItem cartItems (CartItem.dish_id item) (CartItem.quantity item - 1)%float.

Definition cart_plus (cartItems : list CartItem.t) (item : CartItem.t)
    : list CartItem.t :=
  updateCartItem cartItems (CartItem.dish_id item) (CartItem.quantity item + 1)%float.

Definition cart_trash (cartItems : list CartItem.t) (item : CartItem.t)
    : list CartItem.t :=
  updateCartItem cartItems (CartItem.dish_id item) 0%float.

(** The state of [CustomerDashboard] that decides the screen, the screen
    it renders, and its handlers. *)
Module Dashboard.
Record t := mk {
  selectedRestaurant : option Restaurant.t;
  showCart : bool;
  cartItems : list CartItem.t
}.

Inductive screen :=
| RestaurantView (restaurant : Restaurant.t) (cartItemCount : nat)
| Cart (items : list CartItem.t)
| Browse (cartItemCount : nat).

Definition render (s : t) : screen :=
  match selectedRestaurant s with
  | Some restaurant => RestaurantView restaurant (List.length (cartItems s))
  | None =>
      if showCart s then Cart (cartItems s)
      else Browse (List.length (cartItems s))
  end.

(** The callbacks the screens are given.  [onAddToCart] is the one of
    [RestaurantView]: it adds the dish for the selected restaurant. *)
Inductive event :=
| selectRestaurant (restaurant : Restaurant.t)
| onBack
| onShowCart
| onClose
| onAddToCart (dish : Dish.t)
| onUpdateItem (dishId : uuid) (quantity : number)
| onClearCart.

Definition handle (s : t) (e : event) : t :=
  match e with
  | selectRestaurant restaurant =>
      mk (Some restaurant) (showCart s) (cartItems s)
  | onBack => mk None (showCart s) (cartItems s)
  | onShowCart => mk (selectedRestaurant s) true (cartItems s)
  | onClose => mk (selectedRestaurant s) false (cartItems s)
  | onAddToCart dish =>
      match selectedRestaurant s with
      | Some restaurant =>
          mk (selectedRestaurant s) (showCart s)
             (addToCart (cartItems s) dish restaurant)
      | None => s
      end
  | onUpdateItem dishId quantity =>
      mk (selectedRestaurant s) (showCart s)
         (updateCartItem (cartItems s) dishId quantity)
  | onClearCart => mk (selectedRestaurant s) (showCart s) (clearCart (cartItems s))
  end.

Definition initial : t := mk None false [].
End Dashboard.

(** An entry of the cart keeps the dish and the restaurant it was made of. *)
Definition same_dish_and_restaurant (old new : CartItem.t) : Prop :=
  CartItem.dish new = CartItem.dish old
  /\ CartItem.restaurant new = CartItem.restaurant old.

(** The order an order_item belongs to, and whether a caller has a profile
    of a given role. *)
Definition order_of (db : database) (oid : uuid) : option Order.t :=
  find (fun o => Order.id o =? oid) (orders db).

Definition has_role (db : database) (auth_uid : uuid) (role : text) : bool :=
  existsb (fun q => (Profile.id q =? auth_uid) && (Profile.user_type q =? role))
    (profiles db).

Definition is_insert_call (c : api_call) : bool :=
  match c with
  | call_insert _ _ _ => true
  | _ => false
  end.

(** PRIMARY KEY, UNIQUE and CHECK of the five tables, without the
    REFERENCES: what a table satisfies by itself. *)
Definition keys_and_checks_ok (db : database) : bool :=
  profiles_ok db
  && unique (map Restaurant.id (restaurants db))
  && (unique (map Dish.id (dishes db))
      && forallb (fun d => numeric_nonneg (Dish.price d)) (dishes db))
  && (unique (map Order.id (orders db))
      && forallb (fun o => numeric_nonneg (Order.total_amount o)
                           && one_of (Order.status o)
                                ["pending"; "confirmed"; "preparing"; "ready";
                                 "delivered"; "cancelled"])
           (orders db))
  && (unique (map OrderItem.id (order_items db))
      && forallb (fun i => int4 (OrderItem.quantity i)
                           && (0 <? OrderItem.quantity i)%Z
                           && numeric_nonneg (OrderItem.price i))
           (order_items db)).

(** The rows a DELETE of [auth_uid] on table [t] leaves in [t]. *)
Definition kept_by_delete (auth_uid : uuid) (db : database) (t : table)
    (where_ : row t -> bool) : list (row t) :=
  filter (fun r => negb (where_ r && rls_using DELETE (policies auth_uid db t) r))
    (rows_of t db).

(** Whether [auth_uid] is the seller of the restaurant [rid]. *)
Definition sells (db : database) (auth_uid : uuid) (rid : uuid) : bool :=
  existsb (fun r => (Restaurant.id r =? rid) && (Restaurant.seller_id r =? auth_uid))
    (restaurants db).

(** [SET is_available = b] on a dish row. *)
Definition dish_with_is_available (b : option bool) (d : Dish.t) : Dish.t :=
  Dish.mk (Dish.id d) (Dish.restaurant_id d) (Dish.name d) (Dish.description d)
    (Dish.price d) (Dish.image_url d) (Dish.category d) b (Dish.created_at d)
    (Dish.updated_at d).

(** The flag that [handleToggleAvailability(dish)] sends. *)
Definition toggled_flag (dish : Dish.t) : bool :=
  negb (match Dish.is_available dish with
        | Some b => b
        | None => false
        end).

(** The columns that the dish form sets, on a dish row. *)
Definition dish_with_form (parseFloat : string -> number) (restaurant : Restaurant.t)
    (form : DishForm.t) (d : Dish.t) : Dish.t :=
  Dish.mk (Dish.id d) (Restaurant.id restaurant) (DishForm.name form)
    (Some (DishForm.description form)) (parseFloat (DishForm.price form))
    (Some (DishForm.imageUrl form)) (Some (DishForm.category form))
    (Dish.is_available d) (Dish.created_at d) (Dish.updated_at d).

(** Whether [auth_uid] is a party of an order: its customer, or the seller
    of its restaurant. *)
Definition order_party (db : database) (auth_uid : uuid) (o : Order.t) : bool :=
  (Order.customer_id o =? auth_uid) || sells db auth_uid (Order.restaurant_id o).

(** [SET user_type = role] on a profile row. *)
Definition profile_with_user_type (role : text) (p : Profile.t) : Profile.t :=
  Profile.mk (Profile.id p) (Profile.email p) (Profile.full_name p) role
    (Profile.created_at p) (Profile.updated_at p).

(** ** Reading rows

    [supabase.from(t).select('*')] with its [.eq] filters returns the rows
    of [t] that the caller may SELECT and that the filters let pass;
    [.order(column)] sorts them.  Rows that tie on the sort column come in
    an order the database does not fix; the sort here keeps them in table
    order, and no property below depends on it. *)

Definition select (auth_uid : uuid) (db : database) (t : table)
    (where_ : row t -> sql_bool) : list (row t) :=
  sql_where where_ (filter (rls_using SELECT (policies auth_uid db t)) (rows_of t db)).

Fixpoint insert_by {A : Type} (le : A -> A -> bool) (x : A) (l : list A) : list A :=
  match l with
  | [] => [x]
  | y :: rest => if le x y then x :: l else y :: insert_by le x rest
  end.

Definition order_by {A : Type} (le : A -> A -> bool) (l : list A) : list A :=
  fold_right (insert_by le) [] l.

(** [ORDER BY created_at DESC]: NULL sorts first. *)
Definition newest_first (a b : option timestamptz) : bool :=
  match a, b with
  | None, _ => true
  | Some _, None => false
  | Some x, Some y => (y <=? x)%Z
  end.

(** [ORDER BY category ASC] in the collation of the database ([collate a
    b]: [a] sorts no later than [b]): NULL sorts last. *)
Definition by_text (collate : text -> text -> bool) (a b : option text) : bool :=
  match a, b with
  | _, None => true
  | None, Some _ => false
  | Some x, Some y => collate x y
  end.

(** [loadRestaurants] of [CustomerDashboard]. *)
Module CustomerDashboard.
Definition loadRestaurants (session : uuid) (db : database) : list Restaurant.t :=
  order_by (fun a b => newest_first (Restaurant.created_at a) (Restaurant.created_at b))
    (select session db restaurants_t
       (fun r => sql_eq_bool (Restaurant.is_active r) (Some true))).
End CustomerDashboard.

(** [loadRestaurants] of [SellerDashboard]: the list the screen holds after
    it.  Without a profile the filter value is [undefined], which is no
    uuid: the request fails and the list stays as it was. *)
Module SellerDashboard.
Definition loadRestaurants (session : uuid) (profile : option Profile.t)
    (db : database) (restaurants : list Restaurant.t) : list Restaurant.t :=
  match profile with
  | Some p =>
      order_by (fun a b => newest_first (Restaurant.created_at a) (Restaurant.created_at b))
        (select session db restaurants_t
           (fun r => sql_eq (Restaurant.seller_id r) (Profile.id p)))
  | None => restaurants
  end.
End SellerDashboard.

(** [loadDishes] of [RestaurantManager]. *)
Module RestaurantManager.
Definition loadDishes (session : uuid) (restaurant : Restaurant.t) (db : database)
    : list Dish.t :=
  order_by (fun a b => newest_first (Dish.created_at a) (Dish.created_at b))
    (select session db dishes_t
       (fun d => sql_eq (Dish.restaurant_id d) (Restaurant.id restaurant))).
End RestaurantManager.

(** The customer's menu screen ([RestaurantView]). *)
Module RestaurantView.

Definition loadDishes (collate : text -> text -> bool) (session : uuid)
    (restaurant : Restaurant.t) (db : database) : list Dish.t :=
  order_by (fun a b => by_text collate (Dish.category a) (Dish.category b))
    (select session db dishes_t
       (fun d => sql_and (sql_eq (Dish.restaurant_id d) (Restaurant.id restaurant))
                         (sql_eq_bool (Dish.is_available d) (Some true)))).

(** [===] on two categories (a string, or null). *)
Definition same_category (a b : option text) : bool :=
  match a, b with
  | Some x, Some y => x =? y
  | None, None => true
  | _, _ => false
  end.

(** [new Set(values)], spread: the values in the order of their first
    occurrence. *)
Definition set_of (values : list (option text)) : list (option text) :=
  fold_left (fun seen v => if existsb (same_category v) seen then seen else seen ++ [v])
    values [].

(** [['All', ...new Set(dishes.map(dish => dish.category))]] *)
Definition categories (dishes : list Dish.t) : list (option text) :=
  Some "All" :: set_of (map Dish.category dishes).

Definition filteredDishes (selectedCategory : option text) (dishes : list Dish.t)
    : list Dish.t :=
  if same_category selectedCategory (Some "All") then dishes
  else filter (fun dish => same_category (Dish.category dish) selectedCategory) dishes.

End RestaurantView.

(** * Properties *)

(** ** Cart *)

Lemma cart_ids_with_quantity (p : CartItem.t -> bool) (q : CartItem.t -> number)
    (cartItems : list CartItem.t) :
  cart_dish_ids
    (map (fun item => if p item then CartItem.with_quantity item (q item) else item)
         cartItems)
  = cart_dish_ids cartItems.
Proof.
  unfold cart_dish_ids. rewrite map_map. apply map_ext.
  intros item. destruct (p item); reflexivity.
Qed.

Lemma cart_find_none (cartItems : list CartItem.t) (dishId : uuid) :
  find (fun item => CartItem.dish_id item =? dishId) cartItems = None ->
  ~ In dishId (cart_dish_ids cartItems).
Proof.
  induction cartItems as [|item rest IH]; simpl; intros Hfind Hin.
  - exact Hin.
  - destruct (CartItem.dish_id item =? dishId) eqn:E; [discriminate|].
    destruct Hin as [Heq|Hin].
    + rewrite Heq, String.eqb_refl in E. discriminate.
    + exact (IH Hfind Hin).
Qed.

Lemma cart_find_some (cartItems : list CartItem.t) (dishId : uuid) :
  In dishId (cart_dish_ids cartItems) ->
  find (fun item => CartItem.dish_id item =? dishId) cartItems <> None.
Proof.
  induction cartItems as [|item rest IH]; simpl; intros Hin.
  - contradiction.
  - destruct (CartItem.dish_id item =? dishId) eqn:E; [discriminate|].
    destruct Hin as [Heq|Hin].
    + rewrite Heq, String.eqb_refl in E. discriminate.
    + exact (IH Hin).
Qed.

Lemma cart_ids_filter_nodup (p : CartItem.t -> bool) (cartItems : list CartItem.t) :
  NoDup (cart_dish_ids cartItems) ->
  NoDup (cart_dish_ids (filter p cartItems)).
Proof.
  unfold cart_dish_ids.
  induction cartItems as [|item rest IH]; simpl; intros Hnd.
  - constructor.
  - inversion Hnd as [|? ? Hnotin Hrest]; subst.
    destruct (p item); simpl; [constructor|]; auto.
    intros Hin. apply Hnotin.
    apply in_map_iff in Hin. destruct Hin as (x & Hx & Hxin).
    apply in_map_iff. exists x. split; [exact Hx|].
    apply filter_In in Hxin. tauto.
Qed.

Lemma cart_step_nodup (cartItems : list CartItem.t) (a : cart_action) :
  NoDup (cart_dish_ids cartItems) ->
  NoDup (cart_dish_ids (cart_step cartItems a)).
Proof.
  intros Hnd. destruct a as [dish restaurant|dishId quantity|]; simpl.
  - unfold addToCart.
    destruct (find _ cartItems) eqn:Hfind.
    + rewrite cart_ids_with_quantity. exact Hnd.
    + apply cart_find_none in Hfind.
      unfold cart_dish_ids in *. rewrite map_app. simpl.
      apply NoDup_app; [exact Hnd | repeat constructor; simpl; tauto |].
      intros x Hx [Heq|[]]. subst x. exact (Hfind Hx).
  - unfold updateCartItem. destruct (quantity =? 0)%float.
    + apply cart_ids_filter_nodup. exact Hnd.
    + rewrite cart_ids_with_quantity. exact Hnd.
  - constructor.
Qed.

Lemma cart_run_nodup (actions : list cart_action) (cartItems : list CartItem.t) :
  NoDup (cart_dish_ids cartItems) ->
  NoDup (cart_dish_ids (cart_run actions cartItems)).
Proof.
  revert cartItems. unfold cart_run.
  induction actions as [|a rest IH]; simpl; intros cartItems Hnd.
  - exact Hnd.
  - apply IH, cart_step_nodup, Hnd.
Qed.

(** With one entry per dish, rewriting the entries of [dishId] rewrites the
    single entry of that dish and keeps every other entry where it is. *)
Lemma cart_map_at (f : CartItem.t -> CartItem.t) (dishId : uuid)
    (before after : list CartItem.t) (item : CartItem.t) :
  CartItem.dish_id item = dishId ->
  NoDup (cart_dish_ids (before ++ item :: after)) ->
  map (fun x => if CartItem.dish_id x =? dishId then f x else x)
      (before ++ item :: after)
  = before ++ f item :: after.
Proof.
  intros Hid Hnd.
  assert (Hother : forall l, ~ In dishId (cart_dish_ids l) ->
            map (fun x => if CartItem.dish_id x =? dishId then f x else x) l = l).
  { induction l as [|x l IH]; simpl; intros Hnotin; [reflexivity|].
    destruct (String.eqb_spec (CartItem.dish_id x) dishId) as [E|E].
    - exfalso. apply Hnotin. left. exact E.
    - f_equal. apply IH. tauto. }
  unfold cart_dish_ids in Hnd. rewrite map_app in Hnd. simpl in Hnd.
  apply NoDup_remove_2 in Hnd. rewrite Hid in Hnd.
  rewrite map_app. simpl. rewrite Hid, String.eqb_refl.
  rewrite !Hother; [reflexivity | |];
    intros Hin; apply Hnd, in_or_app; [right|left]; exact Hin.
Qed.

(** A positive JavaScript number is not [=== 0]. *)
Lemma number_positive_nonzero (q : number) :
  (0 <? q)%float = true -> (q =? 0)%float = false.
Proof.
  rewrite ltb_spec, eqb_spec.
  change (Prim2SF 0%float) with (S754_zero false).
  unfold SFltb, SFeqb.
  destruct (Prim2SF q) as [s|s| |s m e]; cbn; try destruct s; congruence.
Qed.

(** C8.  Starting from the empty cart, every sequence of cart operations
    leaves at most one entry per dish id.  addToCart on a dish that has an
    entry adds 1 to the quantity of that entry and changes nothing else;
    on a dish without an entry it appends one with quantity 1.
    updateCartItem with quantity 0 removes the dish's entry; with a
    positive quantity it replaces the quantity of the dish's entry where
    it is. *)
Theorem cart_one_entry_per_dish :
  (forall actions, NoDup (cart_dish_ids (cart_run actions [])))
  /\ (forall before item after dish restaurant,
        CartItem.dish_id item = Dish.id dish ->
        NoDup (cart_dish_ids (before ++ item :: after)) ->
        addToCart (before ++ item :: after) dish restaurant
        = before
          ++ CartItem.with_quantity item (CartItem.quantity item + 1)%float
          :: after)
  /\ (forall cartItems dish restaurant,
        ~ In (Dish.id dish) (cart_dish_ids cartItems) ->
        addToCart cartItems dish restaurant
        = cartItems ++ [CartItem.mk dish restaurant 1%float])
  /\ (forall cartItems dishId,
        updateCartItem cartItems dishId 0%float
        = filter (fun item => negb (CartItem.dish_id item =? dishId)) cartItems
        /\ ~ In dishId (cart_dish_ids (updateCartItem cartItems dishId 0%float)))
  /\ (forall before item after quantity,
        (0 <? quantity)%float = true ->
        NoDup (cart_dish_ids (before ++ item :: after)) ->
        updateCartItem (before ++ item :: after) (CartItem.dish_id item) quantity
        = before ++ CartItem.with_quantity item quantity :: after).
Proof.
  split; [|split; [|split; [|split]]].
  - intros actions. apply cart_run_nodup. constructor.
  - intros before item after dish restaurant Hid Hnd. unfold addToCart.
    destruct (find _ (before ++ item :: after)) eqn:Hfind.
    + apply (cart_map_at
               (fun x => CartItem.with_quantity x (CartItem.quantity x + 1)%float));
        assumption.
    + exfalso. revert Hfind. apply cart_find_some.
      unfold cart_dish_ids. rewrite map_app. apply in_or_app. right. left. exact Hid.
  - intros cartItems dish restaurant Hnew. unfold addToCart.
    destruct (find _ cartItems) as [found|] eqn:Hfind; [exfalso|reflexivity].
    apply find_some in Hfind. destruct Hfind as [Hin Hid].
    apply String.eqb_eq in Hid. apply Hnew. rewrite <- Hid.
    unfold cart_dish_ids. apply in_map. exact Hin.
  - intros cartItems dishId. unfold updateCartItem.
    change (0 =? 0)%float with true. cbv iota. split; [reflexivity|].
    unfold cart_dish_ids. intros Hin. apply in_map_iff in Hin.
    destruct Hin as (item & Hid & Hitem). apply filter_In in Hitem.
    destruct Hitem as [_ Hkeep]. rewrite Hid, String.eqb_refl in Hkeep. discriminate.
  - intros before item after quantity Hpos Hnd. unfold updateCartItem.
    rewrite (number_positive_nonzero quantity Hpos).
    apply (cart_map_at (fun x => CartItem.with_quantity x quantity));
      [reflexivity | exact Hnd].
Qed.

Lemma cart_one_entry_per_dish_witness :
  addToCart sample_cart sample_pasta sample_restaurant
  = [ CartItem.mk sample_pasta sample_restaurant (2 + 1)%float;
      CartItem.mk sample_soup sample_restaurant 1%float ]
  /\ updateCartItem sample_cart "dish-2" 4%float
     = [ CartItem.mk sample_pasta sample_restaurant 2%float;
         CartItem.mk sample_soup sample_restaurant 4%float ]
  /\ cart_dish_ids (updateCartItem sample_cart "dish-1" 0%float) = ["dish-2"]
  /\ NoDup (cart_dish_ids
              (cart_run [ AddToCart sample_pasta sample_restaurant;
                          AddToCart sample_soup sample_restaurant;
                          AddToCart sample_pasta sample_restaurant;
                          UpdateCartItem "dish-2" 4%float ] [])).
Proof.
  pose proof cart_one_entry_per_dish as (Hrun & Hbump & _ & Hdrop & Hset).
  assert (Hnd : NoDup (cart_dish_ids sample_cart)).
  { repeat constructor; cbn; intuition discriminate. }
  split; [|split; [|split]].
  - apply (Hbump [] (CartItem.mk sample_pasta sample_restaurant 2%float)
             [CartItem.mk sample_soup sample_restaurant 1%float]
             sample_pasta sample_restaurant eq_refl Hnd).
  - apply (Hset [CartItem.mk sample_pasta sample_restaurant 2%float]
             (CartItem.mk sample_soup sample_restaurant 1%float) []
             4%float eq_refl Hnd).
  - destruct (Hdrop sample_cart "dish-1") as [-> _]. reflexivity.
  - apply Hrun.
Defined.

(** ** SQL predicates *)

Lemma sql_true_and (a b : sql_bool) :
  sql_true (sql_and a b) = sql_true a && sql_true b.
Proof. destruct a as [[|]|], b as [[|]|]; reflexivity. Qed.

Lemma sql_true_eq (a b : string) : sql_true (sql_eq a b) = (a =? b).
Proof. unfold sql_eq. simpl. destruct (a =? b); reflexivity. Qed.

Lemma sql_true_is_true (x : option bool) :
  sql_true (sql_eq_bool x (Some true)) = true <-> x = Some true.
Proof. destruct x as [[|]|]; simpl; split; congruence. Qed.

Lemma sql_true_exists_where {A : Type} (cond : A -> sql_bool) (rows : list A) :
  sql_true (sql_exists (sql_where cond rows)) = existsb (fun r => sql_true (cond r)) rows.
Proof.
  unfold sql_where.
  induction rows as [|r rows IH]; simpl; [reflexivity|].
  destruct (sql_true (cond r)); simpl; [reflexivity | exact IH].
Qed.

Lemma unique_NoDup (keys : list string) : unique keys = true <-> NoDup keys.
Proof.
  induction keys as [|k rest IH]; simpl.
  - split; [constructor | reflexivity].
  - rewrite andb_true_iff, negb_true_iff, IH. split.
    + intros [Hk Hrest]. constructor; [|exact Hrest].
      intros Hin. assert (existsb (String.eqb k) rest = true) as E.
      { apply existsb_exists. exists k. split; [exact Hin | apply String.eqb_refl]. }
      congruence.
    + intros Hnd. inversion Hnd as [|? ? Hnotin Hrest]; subst. split; [|exact Hrest].
      destruct (existsb (String.eqb k) rest) eqn:E; [|reflexivity].
      apply existsb_exists in E. destruct E as (x & Hx & Hkx).
      apply String.eqb_eq in Hkx. subst x. contradiction.
Qed.

Lemma references_In (fk : uuid) (keys : list uuid) :
  references fk keys = true <-> In fk keys.
Proof.
  unfold references. rewrite existsb_exists. split.
  - intros (x & Hx & E). apply String.eqb_eq in E. subst. exact Hx.
  - intros H. exists fk. split; [exact H | apply String.eqb_refl].
Qed.

(** With unique keys, the row found for a key is the only row with it. *)
Lemma find_by_key_unique {A : Type} (key : A -> string) (rows : list A)
    (k : string) (a : A) :
  NoDup (map key rows) ->
  find (fun r => key r =? k) rows = Some a ->
  In a rows /\ key a = k /\ forall r, In r rows -> key r = k -> r = a.
Proof.
  induction rows as [|x rows IH]; simpl; intros Hnd Hfind; [discriminate|].
  inversion Hnd as [|? ? Hnotin Hrest]; subst.
  destruct (String.eqb_spec (key x) k) as [E|E].
  - injection Hfind as <-. repeat split; auto.
    intros r [Hr|Hr] Hk; [auto|].
    exfalso. apply Hnotin. rewrite E, <- Hk. apply in_map. exact Hr.
  - destruct (IH Hrest Hfind) as (Hin & Hk & Huniq). repeat split; auto.
    intros r [Hr|Hr] Hkr; [subst r; contradiction | auto].
Qed.

(** ** What the policies let a caller do *)

Section PolicyFacts.
Variable auth_uid : uuid.
Variable db : database.

Lemma restaurant_select_spec (r : Restaurant.t) :
  rls_using SELECT (restaurants_policies auth_uid db) r = true
  <-> Restaurant.is_active r = Some true \/ auth_uid = Restaurant.seller_id r.
Proof.
  unfold rls_using, restaurants_policies, using_of.
  cbn [existsb policy_cmd policy_using command_eqb andb orb].
  rewrite !orb_false_r, orb_true_iff, sql_true_is_true, sql_true_eq, String.eqb_eq.
  intuition congruence.
Qed.

Lemma visible_restaurants_spec (r : Restaurant.t) :
  In r (visible_restaurants auth_uid db)
  <-> In r (restaurants db)
      /\ (Restaurant.is_active r = Some true \/ auth_uid = Restaurant.seller_id r).
Proof.
  unfold visible_restaurants. rewrite filter_In, restaurant_select_spec. tauto.
Qed.

(** The caller sees every restaurant it owns, so the ownership subquery
    is not narrowed by the policies on [restaurants]. *)
Lemma owns_restaurant_spec (rid : uuid) :
  sql_true (owns_restaurant auth_uid db rid) = true
  <-> exists r, In r (restaurants db) /\ Restaurant.id r = rid
                /\ Restaurant.seller_id r = auth_uid.
Proof.
  unfold owns_restaurant. rewrite sql_true_exists_where, existsb_exists.
  split.
  - intros (r & Hr & Hc). rewrite sql_true_and, !sql_true_eq, andb_true_iff,
      !String.eqb_eq in Hc.
    apply visible_restaurants_spec in Hr. exists r. tauto.
  - intros (r & Hr & Hid & Hs). exists r. split.
    + apply visible_restaurants_spec. split; [exact Hr | right; congruence].
    + rewrite sql_true_and, !sql_true_eq, andb_true_iff, !String.eqb_eq. tauto.
Qed.

Lemma owns_restaurant_parent (rid : uuid) (parent : Restaurant.t) :
  unique (map Restaurant.id (restaurants db)) = true ->
  restaurant_of db rid = Some parent ->
  (sql_true (owns_restaurant auth_uid db rid) = true
   <-> auth_uid = Restaurant.seller_id parent).
Proof.
  intros Hpk Hparent. apply unique_NoDup in Hpk.
  destruct (find_by_key_unique Restaurant.id _ _ _ Hpk Hparent) as (Hin & Hid & Huniq).
  rewrite owns_restaurant_spec. split.
  - intros (r & Hr & Hrid & Hs). rewrite (Huniq r Hr Hrid) in Hs. congruence.
  - intros ->. exists parent. auto.
Qed.

Lemma active_restaurant_parent (rid : uuid) (parent : Restaurant.t) :
  unique (map Restaurant.id (restaurants db)) = true ->
  restaurant_of db rid = Some parent ->
  (sql_true (sql_exists
     (sql_where (fun r =>
        sql_and (sql_eq (Restaurant.id r) rid)
                (sql_eq_bool (Restaurant.is_active r) (Some true)))
        (visible_restaurants auth_uid db))) = true
   <-> Restaurant.is_active parent = Some true).
Proof.
  intros Hpk Hparent. apply unique_NoDup in Hpk.
  destruct (find_by_key_unique Restaurant.id _ _ _ Hpk Hparent) as (Hin & Hid & Huniq).
  rewrite sql_true_exists_where, existsb_exists. split.
  - intros (r & Hr & Hc).
    rewrite sql_true_and, sql_true_eq, andb_true_iff, String.eqb_eq,
      sql_true_is_true in Hc.
    apply visible_restaurants_spec in Hr.
    destruct Hr as [Hr _], Hc as [Hrid Hact].
    rewrite (Huniq r Hr Hrid) in Hact. exact Hact.
  - intros Hact. exists parent. split.
    + apply visible_restaurants_spec. auto.
    + rewrite sql_true_and, sql_true_eq, andb_true_iff, String.eqb_eq,
        sql_true_is_true. auto.
Qed.

Lemma dish_select_spec (d : Dish.t) (parent : Restaurant.t) :
  unique (map Restaurant.id (restaurants db)) = true ->
  restaurant_of db (Dish.restaurant_id d) = Some parent ->
  (rls_using SELECT (dishes_policies auth_uid db) d = true
   <-> (Dish.is_available d = Some true /\ Restaurant.is_active parent = Some true)
       \/ auth_uid = Restaurant.seller_id parent).
Proof.
  intros Hpk Hparent.
  unfold rls_using, dishes_policies, using_of.
  cbn [existsb policy_cmd policy_using command_eqb andb orb].
  rewrite !orb_false_r, orb_true_iff, sql_true_and, andb_true_iff,
    sql_true_is_true.
  rewrite (active_restaurant_parent _ _ Hpk Hparent).
  rewrite (owns_restaurant_parent _ _ Hpk Hparent).
  tauto.
Qed.

Lemma order_update_using_spec (o : Order.t) (parent : Restaurant.t) :
  unique (map Restaurant.id (restaurants db)) = true ->
  restaurant_of db (Order.restaurant_id o) = Some parent ->
  (rls_using UPDATE (orders_policies auth_uid db) o = true
   <-> auth_uid = Order.customer_id o \/ auth_uid = Restaurant.seller_id parent).
Proof.
  intros Hpk Hparent.
  unfold rls_using, orders_policies, using_of.
  cbn [existsb policy_cmd policy_using command_eqb andb orb].
  rewrite !orb_false_r, orb_true_iff, sql_true_eq, String.eqb_eq.
  rewrite (owns_restaurant_parent _ _ Hpk Hparent).
  intuition congruence.
Qed.

Lemma order_update_check_spec (o : Order.t) (parent : Restaurant.t) :
  unique (map Restaurant.id (restaurants db)) = true ->
  restaurant_of db (Order.restaurant_id o) = Some parent ->
  (rls_check UPDATE (orders_policies auth_uid db) o = true
   <-> auth_uid = Order.customer_id o \/ auth_uid = Restaurant.seller_id parent).
Proof.
  intros Hpk Hparent.
  unfold rls_check, orders_policies, check_of.
  cbn [existsb policy_cmd policy_with_check command_eqb andb orb].
  rewrite !orb_false_r, orb_true_iff, sql_true_eq, String.eqb_eq.
  rewrite (owns_restaurant_parent _ _ Hpk Hparent).
  intuition congruence.
Qed.

End PolicyFacts.

(** Whatever a caller may write, it may read. *)
Lemma write_policies_within_select (auth_uid : uuid) (db : database) (t : table)
    (r : row t) :
  (rls_using UPDATE (policies auth_uid db t) r = true ->
   rls_using SELECT (policies auth_uid db t) r = true)
  /\ (rls_using DELETE (policies auth_uid db t) r = true ->
      rls_using SELECT (policies auth_uid db t) r = true)
  /\ (rls_check UPDATE (policies auth_uid db t) r = true ->
      rls_using SELECT (policies auth_uid db t) r = true)
  /\ (rls_check INSERT (policies auth_uid db t) r = true ->
      rls_using SELECT (policies auth_uid db t) r = true).
Proof.
  destruct t;
    unfold rls_using, rls_check, policies, profiles_policies, restaurants_policies,
      dishes_policies, orders_policies, order_items_policies, using_of, check_of;
    cbn [existsb policy_cmd policy_using policy_with_check command_eqb andb orb];
    repeat split; try discriminate; try congruence;
    rewrite ?sql_true_and;
    repeat match goal with
           | |- context [sql_true ?x] => destruct (sql_true x)
           end; cbn; auto; try congruence.
Qed.

(** C2.  The SELECT policies on restaurants let a caller read a restaurant
    exactly when the restaurant's is_active is true or the caller is its
    seller.  So a restaurant whose is_active is false is among the rows a
    caller can read only for its seller, and a query for it by any other
    caller returns no row. *)
Theorem restaurants_select_policy (auth_uid : uuid) (db : database) (r : Restaurant.t) :
  (rls_using SELECT (policies auth_uid db restaurants_t) r = true
   <-> Restaurant.is_active r = Some true \/ auth_uid = Restaurant.seller_id r)
  /\ (Restaurant.is_active r = Some false ->
      (In r (visible_restaurants auth_uid db)
       <-> In r (restaurants db) /\ auth_uid = Restaurant.seller_id r))
  /\ (Restaurant.is_active r = Some false ->
      auth_uid <> Restaurant.seller_id r ->
      unique (map Restaurant.id (restaurants db)) = true ->
      In r (restaurants db) ->
      filter (fun x => Restaurant.id x =? Restaurant.id r)
        (visible_restaurants auth_uid db) = []).
Proof.
  split; [apply restaurant_select_spec|]. split.
  - intros Hclosed. rewrite visible_restaurants_spec, Hclosed.
    intuition discriminate.
  - intros Hclosed Hother Hpk Hin.
    apply unique_NoDup in Hpk.
    destruct (filter _ (visible_restaurants auth_uid db)) as [|x rest] eqn:E;
      [reflexivity|exfalso].
    assert (Hx : In x (x :: rest)) by (left; reflexivity).
    rewrite <- E in Hx. apply filter_In in Hx. destruct Hx as [Hvis Hid].
    apply String.eqb_eq in Hid.
    apply visible_restaurants_spec in Hvis. destruct Hvis as [Hxin Hx].
    assert (x = r) as ->.
    { clear - Hpk Hin Hxin Hid.
      induction (restaurants db) as [|y l IH]; [contradiction|].
      simpl in Hpk. inversion Hpk as [|? ? Hnotin Hrest]; subst.
      destruct Hin as [->|Hin], Hxin as [->|Hxin]; auto.
      - exfalso. apply Hnotin. rewrite <- Hid. apply in_map. exact Hxin.
      - exfalso. apply Hnotin. rewrite Hid. apply in_map. exact Hin. }
    rewrite Hclosed in Hx. destruct Hx as [Hx|Hx]; [discriminate | contradiction].
Qed.

Lemma restaurants_select_policy_witness :
  In sample_closed_restaurant (visible_restaurants "seller-2" sample_db)
  /\ filter (fun x => Restaurant.id x =? "rest-2")
       (visible_restaurants "customer-1" sample_db) = []
  /\ rls_using SELECT (policies "customer-1" sample_db restaurants_t)
       sample_restaurant = true.
Proof.
  pose proof (restaurants_select_policy "seller-2" sample_db sample_closed_restaurant)
    as (_ & Hseller & _).
  pose proof (restaurants_select_policy "customer-1" sample_db sample_closed_restaurant)
    as (_ & _ & Hother).
  pose proof (restaurants_select_policy "customer-1" sample_db sample_restaurant)
    as (Hopen & _).
  split; [|split].
  - apply Hseller; [reflexivity|]. split; [|reflexivity]. right. left. reflexivity.
  - apply Hother; [reflexivity | discriminate | reflexivity |].
    right. left. reflexivity.
  - apply Hopen. left. reflexivity.
Defined.

(** C3.  The SELECT policies on dishes let a caller read a dish exactly
    when the dish is available and its parent restaurant is active, or the
    caller is the seller of the parent restaurant.  A caller who does not
    own the parent restaurant reads the dish only when both flags are
    true. *)
Theorem dishes_select_policy (auth_uid : uuid) (db : database) (d : Dish.t)
    (parent : Restaurant.t) :
  unique (map Restaurant.id (restaurants db)) = true ->
  restaurant_of db (Dish.restaurant_id d) = Some parent ->
  (rls_using SELECT (policies auth_uid db dishes_t) d = true
   <-> (Dish.is_available d = Some true /\ Restaurant.is_active parent = Some true)
       \/ auth_uid = Restaurant.seller_id parent)
  /\ (auth_uid <> Restaurant.seller_id parent ->
      rls_using SELECT (policies auth_uid db dishes_t) d = true ->
      Dish.is_available d = Some true /\ Restaurant.is_active parent = Some true).
Proof.
  intros Hpk Hparent.
  pose proof (dish_select_spec auth_uid db d parent Hpk Hparent) as Hiff.
  split; [exact Hiff|].
  intros Hother Hread. apply Hiff in Hread. tauto.
Qed.

Lemma dishes_select_policy_witness :
  rls_using SELECT (policies "customer-1" sample_db dishes_t) sample_pasta = true
  /\ rls_using SELECT (policies "seller-2" sample_db dishes_t) sample_quiche = true
  /\ rls_using SELECT (policies "customer-1" sample_db dishes_t) sample_quiche = false.
Proof.
  pose proof (dishes_select_policy "customer-1" sample_db sample_pasta
                sample_restaurant eq_refl eq_refl) as (Hpasta & _).
  pose proof (dishes_select_policy "seller-2" sample_db sample_quiche
                sample_closed_restaurant eq_refl eq_refl) as (Hown & _).
  pose proof (dishes_select_policy "customer-1" sample_db sample_quiche
                sample_closed_restaurant eq_refl eq_refl) as (_ & Hother).
  split; [|split].
  - apply Hpasta. left. split; reflexivity.
  - apply Hown. right. reflexivity.
  - destruct (rls_using SELECT (policies "customer-1" sample_db dishes_t) sample_quiche)
      eqn:E; [|reflexivity].
    destruct (Hother ltac:(discriminate) eq_refl) as [_ Hactive]. discriminate Hactive.
Defined.

(** ** Requests *)

Lemma with_rows_same (t : table) (db : database) : with_rows t (rows_of t db) db = db.
Proof. destruct t, db; reflexivity. Qed.

Lemma filter_all {A : Type} (p : A -> bool) (l : list A) :
  forallb p l = true -> filter p l = l.
Proof.
  induction l as [|x l IH]; simpl; [reflexivity|].
  rewrite andb_true_iff. intros [Hx Hl]. rewrite Hx, IH; auto.
Qed.

Lemma forallb_weaken {A : Type} (p q : A -> bool) (l : list A) :
  (forall x, p x = true -> q x = true) -> forallb p l = true -> forallb q l = true.
Proof.
  intros Hpq. rewrite !forallb_forall. auto.
Qed.

(** A database that satisfies its constraints has nothing to cascade. *)
Lemma cascade_consistent (db : database) :
  constraints_ok db = true -> cascade db = db.
Proof.
  unfold constraints_ok, restaurants_ok, dishes_ok, orders_ok, order_items_ok.
  rewrite !andb_true_iff.
  intros ((((_ & _ & Hr) & _ & Hd) & _ & Ho) & _ & Hi).
  unfold cascade.
  assert (Er : filter (fun r => references (Restaurant.seller_id r)
                                  (map Profile.id (profiles db)))
                 (restaurants db) = restaurants db)
    by (apply filter_all; exact Hr).
  rewrite Er.
  assert (Ed : filter (fun d => references (Dish.restaurant_id d)
                                  (map Restaurant.id (restaurants db)))
                 (dishes db) = dishes db).
  { apply filter_all. revert Hd. apply forallb_weaken. intros d.
    rewrite andb_true_iff. tauto. }
  rewrite Ed.
  assert (Eo : filter (fun o => references (Order.customer_id o)
                                  (map Profile.id (profiles db))
                                && references (Order.restaurant_id o)
                                     (map Restaurant.id (restaurants db)))
                 (orders db) = orders db).
  { apply filter_all. revert Ho. apply forallb_weaken. intros o.
    rewrite !andb_true_iff. tauto. }
  rewrite Eo.
  assert (Ei : filter (fun i => references (OrderItem.order_id i)
                                  (map Order.id (orders db))
                                && references (OrderItem.dish_id i)
                                     (map Dish.id (dishes db)))
                 (order_items db) = order_items db).
  { apply filter_all. revert Hi. apply forallb_weaken. intros i.
    rewrite !andb_true_iff. tauto. }
  rewrite Ei. destruct db; reflexivity.
Qed.

Lemma commit_ok (db db' : database) :
  commit db = Ok db' -> db' = db /\ constraints_ok db = true.
Proof.
  unfold commit. destruct (constraints_ok db); [|discriminate].
  intros H. injection H as <-. auto.
Qed.

Lemma exec_consistent (auth_uid : uuid) (rq : request) (db db' : database) :
  exec auth_uid rq db = Ok db' -> constraints_ok db' = true.
Proof.
  destruct rq as [t rows ret|t w s|t w]; unfold exec; intros H;
    repeat match type of H with
           | (if ?c then _ else _) = _ => destruct c; [try discriminate|try discriminate]
           end;
    apply commit_ok in H; destruct H as [-> H]; exact H.
Qed.

Lemma apply_request_consistent (db : database) (step : uuid * request) :
  constraints_ok db = true -> constraints_ok (apply_request db step) = true.
Proof.
  intros Hdb. unfold apply_request.
  destruct (exec (fst step) (snd step) db) eqn:E; [|exact Hdb].
  exact (exec_consistent _ _ _ _ E).
Qed.

Lemma run_requests_consistent (steps : list (uuid * request)) (db : database) :
  constraints_ok db = true -> constraints_ok (run_requests steps db) = true.
Proof.
  revert db. unfold run_requests.
  induction steps as [|st steps IH]; simpl; intros db Hdb; [exact Hdb|].
  apply IH, apply_request_consistent, Hdb.
Qed.

(** Rows that no policy lets the statement reach stay as they are. *)
Lemma map_untouched {A : Type} (touched : A -> bool) (set : A -> A) (l : list A) :
  (forall r, In r l -> touched r = false) ->
  map (fun r => if touched r then set r else r) l = l.
Proof.
  induction l as [|x l IH]; simpl; intros H; [reflexivity|].
  rewrite (H x) by auto. f_equal. apply IH. auto.
Qed.

Lemma filter_none_gone {A : Type} (gone : A -> bool) (l : list A) :
  (forall r, In r l -> gone r = false) ->
  filter (fun r => negb (gone r)) l = l.
Proof.
  intros H. apply filter_all, forallb_forall. intros r Hr. rewrite (H r Hr). reflexivity.
Qed.

Lemma no_policy_no_row (auth_uid : uuid) (db : database) :
  (forall r, rls_using UPDATE (policies auth_uid db order_items_t) r = false)
  /\ (forall r, rls_using DELETE (policies auth_uid db order_items_t) r = false)
  /\ (forall r, rls_using DELETE (policies auth_uid db orders_t) r = false)
  /\ (forall r, rls_using DELETE (policies auth_uid db profiles_t) r = false).
Proof. repeat split; intros r; reflexivity. Qed.


Lemma profile_update_using (auth_uid : uuid) (db : database) (p : Profile.t) :
  rls_using UPDATE (policies auth_uid db profiles_t) p = (auth_uid =? Profile.id p).
Proof.
  unfold rls_using, policies, profiles_policies, using_of.
  cbn [existsb policy_cmd policy_using command_eqb andb orb].
  rewrite orb_false_r. apply sql_true_eq.
Qed.

(** A caller's request leaves every other user's profile row in place. *)
Lemma exec_foreign_profile (auth_uid : uuid) (rq : request)
    (db db' : database) (p : Profile.t) :
  auth_uid <> Profile.id p ->
  exec auth_uid rq db = Ok db' ->
  In p (profiles db) -> In p (profiles db').
Proof.
  intros Hother H Hin.
  destruct (no_policy_no_row auth_uid db) as (_ & _ & _ & Hdp).
  destruct rq as [t rows ret|t w s|t w]; unfold exec in H.
  - repeat match type of H with
           | (if ?c then _ else _) = _ => destruct c; [try discriminate|try discriminate]
           end;
      apply commit_ok in H; destruct H as [-> _];
      destruct t; cbn [profiles with_rows rows_of]; auto using in_or_app.
  - match type of H with
    | (if ?c then _ else _) = _ => destruct c; [|discriminate]
    end.
    apply commit_ok in H. destruct H as [-> _].
    destruct t; cbn [profiles with_rows rows_of]; auto.
    apply in_map_iff. exists p. split; [|exact Hin].
    rewrite profile_update_using.
    destruct (String.eqb_spec auth_uid (Profile.id p)) as [E|_]; [contradiction|].
    rewrite andb_false_r. reflexivity.
  - apply commit_ok in H. destruct H as [-> _].
    destruct t; cbn [profiles cascade with_rows rows_of]; auto.
    apply filter_In. split; [exact Hin|].
    rewrite (Hdp p), andb_false_r. reflexivity.
Qed.

Lemma run_foreign_profile (steps : list (uuid * request)) (db : database)
    (p : Profile.t) :
  Forall (fun step => fst step <> Profile.id p) steps ->
  In p (profiles db) -> In p (profiles (run_requests steps db)).
Proof.
  revert db. unfold run_requests.
  induction steps as [|st steps IH]; simpl; intros db Hsteps Hin; [exact Hin|].
  inversion Hsteps as [|? ? Hst Hrest]; subst.
  apply IH; [exact Hrest|].
  unfold apply_request. destruct (exec (fst st) (snd st) db) eqn:E; [|exact Hin].
  exact (exec_foreign_profile _ _ _ _ _ Hst E Hin).
Qed.

(** An UPDATE on orders leaves in place the orders whose USING the caller
    does not pass. *)
Lemma update_orders_untouched (auth_uid : uuid) (db : database) (o : Order.t)
    (where_ : Order.t -> bool) (set : Order.t -> Order.t) :
  rls_using UPDATE (policies auth_uid db orders_t) o = false ->
  In o (orders db) ->
  In o (orders (apply_request db (auth_uid, Update orders_t where_ set))).
Proof.
  intros Hdenied Hin. unfold apply_request.
  destruct (exec _ _ db) as [db'|e] eqn:E; [|exact Hin].
  cbn [fst snd] in E. unfold exec in E.
  match type of E with
  | (if ?c then _ else _) = _ => destruct c; [|discriminate]
  end.
  apply commit_ok in E. destruct E as [-> _].
  cbn [orders with_rows rows_of].
  apply in_map_iff. exists o. split; [|exact Hin].
  rewrite Hdenied, andb_false_r. reflexivity.
Qed.


(** C4.  The UPDATE policies on orders let a caller update an order (and
    accept the row it writes) exactly when the caller is the order's
    customer or the seller of the order's parent restaurant; an UPDATE by
    any other caller leaves the order as it is. *)
Theorem orders_update_policy (auth_uid : uuid) (db : database) (o : Order.t)
    (parent : Restaurant.t) :
  unique (map Restaurant.id (restaurants db)) = true ->
  restaurant_of db (Order.restaurant_id o) = Some parent ->
  (rls_using UPDATE (policies auth_uid db orders_t) o = true
   <-> auth_uid = Order.customer_id o \/ auth_uid = Restaurant.seller_id parent)
  /\ (rls_check UPDATE (policies auth_uid db orders_t) o = true
      <-> auth_uid = Order.customer_id o \/ auth_uid = Restaurant.seller_id parent)
  /\ (auth_uid <> Order.customer_id o ->
      auth_uid <> Restaurant.seller_id parent ->
      forall where_ set,
        In o (orders db) ->
        In o (orders (apply_request db (auth_uid, Update orders_t where_ set)))).
Proof.
  intros Hpk Hparent.
  pose proof (order_update_using_spec auth_uid db o parent Hpk Hparent) as Husing.
  split; [exact Husing|].
  split; [exact (order_update_check_spec auth_uid db o parent Hpk Hparent)|].
  intros Hc Hs where_ set Hin.
  apply update_orders_untouched; [|exact Hin].
  destruct (rls_using UPDATE (policies auth_uid db orders_t) o) eqn:E; [|reflexivity].
  apply Husing in E. tauto.
Qed.

Lemma orders_update_policy_witness :
  rls_using UPDATE (policies "customer-1" sample_db_with_order orders_t) sample_order
    = true
  /\ rls_using UPDATE (policies "seller-1" sample_db_with_order orders_t) sample_order
     = true
  /\ In sample_order
       (orders (apply_request sample_db_with_order
                  ("seller-2",
                   Update orders_t (fun _ => true) (order_with_status "delivered"))))
  /\ orders (apply_request sample_db_with_order
               ("seller-1",
                Update orders_t (fun _ => true) (order_with_status "delivered")))
     = [order_with_status "delivered" sample_order].
Proof.
  pose proof (orders_update_policy "customer-1" sample_db_with_order sample_order
                sample_restaurant eq_refl eq_refl) as (Hcustomer & _).
  pose proof (orders_update_policy "seller-1" sample_db_with_order sample_order
                sample_restaurant eq_refl eq_refl) as (Hseller & _).
  pose proof (orders_update_policy "seller-2" sample_db_with_order sample_order
                sample_restaurant eq_refl eq_refl) as (_ & _ & Hother).
  split; [|split; [|split]].
  - apply Hcustomer. left. reflexivity.
  - apply Hseller. right. reflexivity.
  - apply Hother; [discriminate | discriminate |]. left. reflexivity.
  - vm_compute. reflexivity.
Defined.




(** C6 (as the code has it).  No request by a caller other than a
    profile's owner changes or removes the profile row, so its role stays
    as it is under every sequence of other callers' requests, and every
    role in the table stays one of customer and seller.  (The owner's own
    UPDATE may write either role.) *)
Theorem profile_role_changed_by_owner_only (steps : list (uuid * request))
    (db : database) (p : Profile.t) :
  constraints_ok db = true ->
  In p (profiles db) ->
  (Forall (fun step => fst step <> Profile.id p) steps ->
   In p (profiles (run_requests steps db)))
  /\ (forall q, In q (profiles (run_requests steps db)) ->
                Profile.user_type q = "customer" \/ Profile.user_type q = "seller").
Proof.
  intros Hdb Hin. split.
  - intros Hsteps. apply run_foreign_profile; assumption.
  - intros q Hq.
    pose proof (run_requests_consistent steps db Hdb) as Hok.
    unfold constraints_ok, profiles_ok in Hok. rewrite !andb_true_iff in Hok.
    destruct Hok as (((((_ & Hroles) & _) & _) & _) & _).
    rewrite forallb_forall in Hroles. specialize (Hroles q Hq).
    unfold one_of in Hroles. cbn [existsb] in Hroles.
    rewrite !orb_true_iff, !String.eqb_eq in Hroles.
    destruct Hroles as [H|[H|H]]; [auto | auto | discriminate].
Qed.

Lemma profile_role_changed_by_owner_only_witness :
  In sample_customer
    (profiles
       (run_requests
          [("seller-1",
            Update profiles_t (fun _ => true)
              (fun p => Profile.mk (Profile.id p) (Profile.email p)
                          (Profile.full_name p) "seller" (Profile.created_at p)
                          (Profile.updated_at p)))]
          sample_db)).
Proof.
  apply (profile_role_changed_by_owner_only _ sample_db sample_customer eq_refl).
  - right. right. left. reflexivity.
  - repeat constructor. discriminate.
Defined.

(** C6, the claim as stated fails: a customer's UPDATE of the own profile
    row sets user_type to seller, and the policies accept it. *)
Lemma profile_role_changed_by_owner :
  exists db',
    api_update "customer-1" profiles_t [("user_type", js_string "seller")]
      "customer-1" sample_db = Ok db'
    /\ map (fun p => (Profile.id p, Profile.user_type p)) (profiles sample_db)
       = [("seller-1", "seller"); ("seller-2", "seller"); ("customer-1", "customer")]
    /\ map (fun p => (Profile.id p, Profile.user_type p)) (profiles db')
       = [("seller-1", "seller"); ("seller-2", "seller"); ("customer-1", "seller")].
Proof. eexists. vm_compute. repeat split; reflexivity. Qed.

(** ** Checkout *)


(** The row the backend makes of the order body. *)
Lemma order_row_of_body (profile : option Profile.t) (items : list CartItem.t)
    (view : CartView.t) (g : generated) (o : Order.t) :
  new_row orders_t g (stringify (order_body profile items view)) = Ok o ->
  exists p first,
    profile = Some p /\ nth_error items 0 = Some first
    /\ is_finite (total items) = true
    /\ o = Order.mk (gen_random_uuid g) (Profile.id p)
             (Restaurant.id (CartItem.restaurant first)) (total items) "pending"
             (CartView.deliveryAddress view) (Some (CartView.notes view))
             (Some (now g)) (Some (now g)).
Proof.
  unfold order_body.
  destruct profile as [p|], (nth_error items 0) as [first|];
    cbn [option_map js_optional stringify flat_map snd fst app];
    destruct (is_finite (total items)) eqn:Hfin;
    unfold new_row; cbn; intros H; try discriminate.
  injection H as <-. exists p, first. auto.
Qed.

(** The row the backend makes of one element of [orderItems]. *)
Lemma order_item_row_of_body (order_id dish_id : uuid) (quantity price : number)
    (g : generated) (i : OrderItem.t) :
  new_row order_items_t g
    (stringify
       [ ("order_id", js_string order_id);
         ("dish_id", js_string dish_id);
         ("quantity", js_number quantity);
         ("price", js_number price) ]) = Ok i ->
  exists n,
    to_integer quantity = Some n
    /\ i = OrderItem.mk (gen_random_uuid g) order_id dish_id n price (Some (now g)).
Proof.
  cbn [stringify flat_map snd fst app].
  destruct (is_finite quantity), (is_finite price);
    unfold new_row; cbn; try discriminate.
  all: destruct (to_integer quantity) as [n|]; cbn; try discriminate.
  all: destruct (int4 n); cbn; try discriminate.
  intros H. injection H as <-. exists n. auto.
Qed.

Lemma order_item_rows_of_bodies (order : Order.t) (items : list CartItem.t)
    (gs : nat -> generated) (rows : list OrderItem.t) :
  new_rows order_items_t gs (map stringify (orderItems order items)) = Ok rows ->
  Forall2 (line_of order) items rows.
Proof.
  revert gs rows.
  induction items as [|item items IH]; intros gs rows.
  - cbn. intros H. injection H as <-. constructor.
  - cbn [orderItems map new_rows].
    destruct (new_row order_items_t (gs O) _) as [i|e] eqn:Hrow;
      cbn [bind]; [|discriminate].
    fold (orderItems order items).
    destruct (new_rows order_items_t (fun n => gs (S n)) _) as [rest|e] eqn:Hrest;
      cbn [bind]; [|discriminate].
    intros H. injection H as <-.
    apply order_item_row_of_body in Hrow. destruct Hrow as (n & Hn & ->).
    constructor; [|exact (IH _ _ Hrest)].
    unfold line_of. cbn. auto.
Qed.

Lemma exec_insert_ok (auth_uid : uuid) (t : table) (rows : list (row t))
    (returning : bool) (db db' : database) :
  exec auth_uid (Insert t rows returning) db = Ok db' ->
  db' = with_rows t (rows_of t db ++ rows) db
  /\ constraints_ok db' = true
  /\ forallb (rls_check INSERT (policies auth_uid db t)) rows = true.
Proof.
  unfold exec. intros H.
  destruct (forallb (rls_check INSERT (policies auth_uid db t)) rows);
    cbn [negb] in H; [|discriminate].
  match type of H with
  | (if ?c then _ else _) = _ => destruct c; [discriminate|]
  end.
  apply commit_ok in H. destruct H as [-> H]. auto.
Qed.

(** The first call of the checkout, when it succeeds. *)
Lemma insert_order_ok (session : uuid) (profile : option Profile.t)
    (items : list CartItem.t) (view : CartView.t) (gs : nat -> generated)
    (db db1 : database) (order : Order.t) :
  single (api_insert session gs orders_t [order_body profile items view] true db)
    = Ok (order, db1) ->
  (exists p first,
     profile = Some p /\ nth_error items 0 = Some first
     /\ order = Order.mk (gen_random_uuid (gs O)) (Profile.id p)
                  (Restaurant.id (CartItem.restaurant first)) (total items)
                  "pending" (CartView.deliveryAddress view)
                  (Some (CartView.notes view)) (Some (now (gs O)))
                  (Some (now (gs O))))
  /\ exec session (Insert orders_t [order] true) db = Ok db1
  /\ orders db1 = orders db ++ [order]
  /\ order_items db1 = order_items db
  /\ constraints_ok db1 = true.
Proof.
  unfold single, api_insert. cbn [map new_rows].
  destruct (new_row orders_t (gs O) _) as [o|e] eqn:Hrow; cbn [bind]; [|discriminate].
  destruct (exec session (Insert orders_t [o] true) db) as [d|e] eqn:Hexec;
    cbn [bind fst snd]; [|discriminate].
  intros H. injection H as <- <-.
  apply order_row_of_body in Hrow.
  destruct Hrow as (p & first & Hp & Hfirst & _ & Ho).
  destruct (exec_insert_ok _ _ _ _ _ _ Hexec) as (Hdb1 & Hok & _).
  split; [exists p, first; auto|].
  split; [exact Hexec|].
  rewrite Hdb1 at 1 2. cbn [orders order_items with_rows rows_of]. auto.
Qed.

(** The second call of the checkout, when it succeeds. *)
Lemma insert_order_items_ok (session : uuid) (order : Order.t)
    (items : list CartItem.t) (gs : nat -> generated)
    (db1 db2 : database) (rows : list OrderItem.t) :
  api_insert session gs order_items_t (orderItems order items) false db1
    = Ok (rows, db2) ->
  Forall2 (line_of order) items rows
  /\ orders db2 = orders db1
  /\ order_items db2 = order_items db1 ++ rows
  /\ constraints_ok db2 = true.
Proof.
  unfold api_insert.
  destruct (new_rows order_items_t gs _) as [rs|e] eqn:Hrows; cbn [bind]; [|discriminate].
  destruct (exec session (Insert order_items_t rs false) db1) as [d|e] eqn:Hexec;
    cbn [bind]; [|discriminate].
  intros H. injection H as <- <-.
  destruct (exec_insert_ok _ _ _ _ _ _ Hexec) as (Hdb2 & Hok & _).
  split; [exact (order_item_rows_of_bodies _ _ _ _ Hrows)|].
  rewrite Hdb2 at 1 2. cbn [orders order_items with_rows rows_of]. auto.
Qed.

(** A checkout that ends in the success view has made both inserts. *)
Lemma place_order_placed (trim : string -> string) (describe : pg_error -> string)
    (session : uuid) (profile : option Profile.t) (items : list CartItem.t)
    (g1 g2 : nat -> generated) (view view' : CartView.t) (db db' : database)
    (calls : list api_call) :
  CartView.success view = false ->
  handlePlaceOrder trim describe session profile items g1 g2 view db
    = (view', db', calls) ->
  CartView.success view' = true ->
  exists order db1 rows,
    single (api_insert session g1 orders_t
              [order_body profile items
                 (CartView.setLoading true (CartView.setError "" view))] true db)
      = Ok (order, db1)
    /\ api_insert session g2 order_items_t (orderItems order items) false db1
       = Ok (rows, db').
Proof.
  intros Hfresh Hrun Hdone. unfold handlePlaceOrder in Hrun.
  destruct (trim (CartView.deliveryAddress view) =? "").
  { injection Hrun as <- _ _. cbn in Hdone. congruence. }
  destruct (single _) as [[order db1]|e] eqn:Horder.
  2:{ injection Hrun as <- _ _. cbn in Hdone. congruence. }
  destruct (api_insert session g2 order_items_t _ false db1) as [[rows db2]|e] eqn:Hitems.
  2:{ injection Hrun as <- _ _. cbn in Hdone. congruence. }
  injection Hrun as _ <- _.
  exists order, db1, rows. auto.
Qed.












(** C10.  The order that a checkout inserts carries the restaurant of the
    first cart item, whatever the restaurants of the other items; a
    checkout that succeeds creates that one order and attaches an
    order_item for every cart item to it.  A cart whose second dish is of
    another restaurant is placed as one order on the first restaurant. *)
Theorem checkout_uses_first_restaurant :
  (forall (profile : option Profile.t) (first : CartItem.t)
          (others : list CartItem.t) (view : CartView.t),
     In ("restaurant_id", js_string (Restaurant.id (CartItem.restaurant first)))
        (order_body profile (first :: others) view))
  /\ (forall (trim : string -> string) (describe : pg_error -> string)
             (session : uuid) (profile : option Profile.t) (items : list CartItem.t)
             (g1 g2 : nat -> generated) (view view' : CartView.t)
             (db db' : database) (calls : list api_call),
        CartView.success view = false ->
        handlePlaceOrder trim describe session profile items g1 g2 view db
          = (view', db', calls) ->
        CartView.success view' = true ->
        exists first others order rows,
          items = first :: others
          /\ orders db' = orders db ++ [order]
          /\ Order.restaurant_id order = Restaurant.id (CartItem.restaurant first)
          /\ order_items db' = order_items db ++ rows
          /\ List.length rows = List.length items
          /\ Forall (fun i => OrderItem.order_id i = Order.id order) rows)
  /\ (let '(view', db', _) :=
        handlePlaceOrder sample_trim sample_describe "customer-1"
          (Some sample_customer) sample_mixed_cart
          (sample_generated "order-") (sample_generated "item-")
          sample_view sample_db in
      map (fun item => Restaurant.id (CartItem.restaurant item)) sample_mixed_cart
        = ["rest-1"; "rest-2"]
      /\ CartView.success view' = true
      /\ map (fun o => (Order.id o, Order.restaurant_id o)) (orders db')
         = [("order-0", "rest-1")]
      /\ map (fun i => (OrderItem.order_id i, OrderItem.dish_id i)) (order_items db')
         = [("order-0", "dish-1"); ("order-0", "dish-3")]).
Proof.
  split; [|split].
  - intros profile first others view. unfold order_body.
    cbn [nth_error option_map js_optional]. right. left. reflexivity.
  - intros trim describe session profile items g1 g2 view view' db db' calls
      Hfresh Hrun Hdone.
    destruct (place_order_placed _ _ _ _ _ _ _ _ _ _ _ _ Hfresh Hrun Hdone)
      as (order & db1 & rows & Horder & Hitems).
    apply insert_order_ok in Horder.
    destruct Horder as ((p & first & _ & Hfirst & Ho) & _ & Horders & Hkept & _).
    apply insert_order_items_ok in Hitems.
    destruct Hitems as (Hlines & Horders' & Hrows & _).
    destruct items as [|first' others]; [discriminate|].
    cbn in Hfirst. injection Hfirst as ->.
    exists first, others, order, rows. repeat split.
    + congruence.
    + rewrite Ho. reflexivity.
    + congruence.
    + symmetry. exact (Forall2_length Hlines).
    + clear - Hlines. induction Hlines as [|item i items rows Hline _ IH];
        constructor; [apply Hline | exact IH].
  - vm_compute. repeat split; reflexivity.
Qed.

Lemma checkout_uses_first_restaurant_witness :
  exists first others order rows,
    sample_mixed_cart = first :: others
    /\ Restaurant.id (CartItem.restaurant first) = "rest-1"
    /\ map (fun item => Restaurant.id (CartItem.restaurant item)) others = ["rest-2"]
    /\ orders (snd (fst sample_mixed_checkout)) = orders sample_db ++ [order]
    /\ Order.restaurant_id order = Restaurant.id (CartItem.restaurant first)
    /\ order_items (snd (fst sample_mixed_checkout)) = order_items sample_db ++ rows
    /\ List.length rows = 2
    /\ Forall (fun i => OrderItem.order_id i = Order.id order) rows.
Proof.
  assert (Hrun : handlePlaceOrder sample_trim sample_describe "customer-1"
                   (Some sample_customer) sample_mixed_cart
                   (sample_generated "order-") (sample_generated "item-")
                   sample_view sample_db
                 = (fst (fst sample_mixed_checkout), snd (fst sample_mixed_checkout),
                    snd sample_mixed_checkout)).
  { unfold sample_mixed_checkout.
    destruct (handlePlaceOrder _ _ _ _ _ _ _ _ _) as [[v d] c]. reflexivity. }
  assert (Hdone : CartView.success (fst (fst sample_mixed_checkout)) = true)
    by (vm_compute; reflexivity).
  destruct (proj1 (proj2 checkout_uses_first_restaurant) _ _ _ _ _ _ _ _ _ _ _ _
              (eq_refl : CartView.success sample_view = false) Hrun Hdone)
    as (first & others & order & rows & Hcart & Horders & Hrest & Hrows & Hlen & Hall).
  injection Hcart as <- <-.
  exists (CartItem.mk sample_pasta sample_restaurant 1%float),
         [CartItem.mk sample_quiche sample_closed_restaurant 1%float], order, rows.
  repeat split; try assumption; reflexivity.
Defined.

(** An order whose id is new to a consistent database has no order_item. *)
Lemma fresh_order_has_no_items (db db1 : database) (order : Order.t) :
  constraints_ok db = true ->
  constraints_ok db1 = true ->
  orders db1 = orders db ++ [order] ->
  order_items db1 = order_items db ->
  filter (fun i => OrderItem.order_id i =? Order.id order) (order_items db1) = [].
Proof.
  intros Hdb Hdb1 Horders Hitems.
  assert (Hfresh : ~ In (Order.id order) (map Order.id (orders db))).
  { unfold constraints_ok, orders_ok in Hdb1. rewrite !andb_true_iff in Hdb1.
    destruct Hdb1 as ((_ & Hpk & _) & _).
    apply unique_NoDup in Hpk. rewrite Horders, map_app in Hpk. cbn in Hpk.
    apply NoDup_remove_2 in Hpk. rewrite app_nil_r in Hpk. exact Hpk. }
  assert (Hfk : forall i, In i (order_items db) ->
                          In (OrderItem.order_id i) (map Order.id (orders db))).
  { unfold constraints_ok, order_items_ok in Hdb. rewrite !andb_true_iff in Hdb.
    destruct Hdb as (_ & _ & Hfk). rewrite forallb_forall in Hfk.
    intros i Hi. specialize (Hfk i Hi). rewrite !andb_true_iff in Hfk.
    apply references_In. tauto. }
  rewrite Hitems.
  destruct (filter _ (order_items db)) as [|i rest] eqn:E; [reflexivity|exfalso].
  assert (Hi : In i (i :: rest)) by (left; reflexivity).
  rewrite <- E in Hi. apply filter_In in Hi. destruct Hi as [Hi Hid].
  apply String.eqb_eq in Hid. apply Hfresh. rewrite <- Hid. exact (Hfk i Hi).
Qed.

(** C7.  When the insert of the order succeeds and the insert of the
    order_items is refused, the checkout ends with the order committed,
    no order_item for it, an error shown, and no further call: nothing
    deletes the order.  Such a run exists: the seller has deleted a dish
    that the cart still holds, so the order_items are refused for their
    reference to the dish. *)
Theorem orphaned_order_possible :
  (forall (trim : string -> string) (describe : pg_error -> string)
          (session : uuid) (profile : option Profile.t) (items : list CartItem.t)
          (g1 g2 : nat -> generated) (view : CartView.t) (db db1 : database)
          (order : Order.t) (itemsError : pg_error),
     constraints_ok db = true ->
     (trim (CartView.deliveryAddress view) =? "") = false ->
     single (api_insert session g1 orders_t
               [order_body profile items
                  (CartView.setLoading true (CartView.setError "" view))] true db)
       = Ok (order, db1) ->
     api_insert session g2 order_items_t (orderItems order items) false db1
       = Err itemsError ->
     let '(view', db', calls) :=
       handlePlaceOrder trim describe session profile items g1 g2 view db in
     orders db' = orders db ++ [order]
     /\ order_items db' = order_items db
     /\ filter (fun i => OrderItem.order_id i =? Order.id order) (order_items db') = []
     /\ CartView.success view' = CartView.success view
     /\ CartView.error view' = describe itemsError
     /\ List.length calls = 2
     /\ existsb is_delete_call calls = false)
  /\ (let '(view', db', calls) := sample_stale_checkout in
      constraints_ok sample_db_without_pasta = true
      /\ orders sample_db_without_pasta = []
      /\ map Order.id (orders db') = ["order-0"]
      /\ order_items db' = []
      /\ CartView.success view' = false
      /\ CartView.error view' = "An error occurred"
      /\ existsb is_delete_call calls = false).
Proof.
  split.
  - intros trim describe session profile items g1 g2 view db db1 order itemsError
      Hdb Haddress Horder Hitems.
    unfold handlePlaceOrder. rewrite Haddress, Horder, Hitems.
    apply insert_order_ok in Horder.
    destruct Horder as (_ & _ & Horders & Hkept & Hdb1).
    repeat split; auto.
    apply (fresh_order_has_no_items db db1 order); assumption.
  - vm_compute. repeat split; reflexivity.
Qed.

Lemma orphaned_order_possible_witness :
  exists order,
    orders (snd (fst sample_stale_checkout)) = orders sample_db_without_pasta ++ [order]
    /\ filter (fun i => OrderItem.order_id i =? Order.id order)
         (order_items (snd (fst sample_stale_checkout))) = []
    /\ existsb is_delete_call (snd sample_stale_checkout) = false.
Proof.
  destruct (single (api_insert "customer-1" (sample_generated "order-") orders_t
                      [order_body (Some sample_customer) sample_cart
                         (CartView.setLoading true (CartView.setError "" sample_view))]
                      true sample_db_without_pasta))
    as [[order db1]|e] eqn:Horder.
  2:{ vm_compute in Horder. discriminate Horder. }
  destruct (api_insert "customer-1" (sample_generated "item-") order_items_t
              (orderItems order sample_cart) false db1)
    as [[rows db2]|e] eqn:Hitems.
  1:{ exfalso. vm_compute in Horder. injection Horder as <- <-.
      vm_compute in Hitems. discriminate Hitems. }
  pose proof (proj1 orphaned_order_possible sample_trim sample_describe "customer-1"
                (Some sample_customer) sample_cart (sample_generated "order-")
                (sample_generated "item-") sample_view sample_db_without_pasta db1
                order e ltac:(vm_compute; reflexivity) ltac:(vm_compute; reflexivity)
                Horder Hitems) as H.
  unfold sample_stale_checkout.
  destruct (handlePlaceOrder _ _ _ _ _ _ _ _ _) as [[v d] c]. cbn [fst snd].
  destruct H as (Horders & _ & Hnone & _ & _ & _ & Hcalls).
  exists order. auto.
Defined.

(** ** The dish form *)

(** What the statement of an edit sets in a dish row. *)
Lemma dish_patch_of_form (parseFloat : string -> number) (restaurant : Restaurant.t)
    (form : DishForm.t) :
  patch dishes_t (stringify (dishData parseFloat restaurant form))
  = if is_finite (parseFloat (DishForm.price form))
    then Ok (fun d : Dish.t =>
               Dish.mk (Dish.id d) (Restaurant.id restaurant) (DishForm.name form)
                 (Some (DishForm.description form))
                 (parseFloat (DishForm.price form))
                 (Some (DishForm.imageUrl form)) (Some (DishForm.category form))
                 (Dish.is_available d) (Dish.created_at d) (Dish.updated_at d))
    else Err not_null_violation.
Proof.
  unfold dishData. cbn [stringify flat_map snd fst app].
  destruct (is_finite (parseFloat (DishForm.price form))); reflexivity.
Qed.

Lemma Forall2_map_same {A : Type} (R : A -> A -> Prop) (f : A -> A) (l : list A) :
  (forall x, R x (f x)) -> Forall2 R l (map f l).
Proof.
  intros H. induction l as [|x l IH]; simpl; constructor; auto.
Qed.

Lemma kept_by_edit_refl (edited : uuid) (l : list Dish.t) :
  Forall2 (kept_by_edit edited) l l.
Proof.
  induction l as [|d l IH]; constructor; [|exact IH].
  unfold kept_by_edit. auto.
Qed.

(** C9.  The edit form sends an update whose body has exactly the keys
    restaurant_id, name, description, price, image_url and category, for
    the dish being edited.  Whatever the form holds and whether the
    statement is accepted or refused, every dish keeps its id, its
    is_available flag and its timestamps, the dishes other than the edited
    one and the other four tables stay as they are.  An edit of a dish
    that is off the menu changes its name and price and leaves it off the
    menu. *)
Theorem dish_edit_keeps_availability :
  (forall (parseFloat : string -> number) (describe : pg_error -> string)
          (session : uuid) (restaurant : Restaurant.t) (dish : Dish.t)
          (gen : nat -> generated) (form : DishForm.t) (db : database),
     keys_of (dishData parseFloat restaurant form)
       = ["restaurant_id"; "name"; "description"; "price"; "image_url"; "category"]
     /\ let '(_, _, db', calls) :=
          handleSubmit parseFloat describe session restaurant (Some dish) gen form db in
        calls = [call_update dishes_t (dishData parseFloat restaurant form) (Dish.id dish)]
        /\ Forall2 (kept_by_edit (Dish.id dish)) (dishes db) (dishes db')
        /\ profiles db' = profiles db
        /\ restaurants db' = restaurants db
        /\ orders db' = orders db
        /\ order_items db' = order_items db)
  /\ (let '(_, succeeded, db', _) :=
        handleSubmit sample_parseFloat sample_describe "seller-1" sample_restaurant
          (Some sample_soup) (sample_generated "dish-") sample_form
          sample_db_soup_off in
      map (fun d => (Dish.id d, Dish.name d, Dish.is_available d))
        (dishes sample_db_soup_off)
      = [("dish-1", "Pasta", Some true); ("dish-2", "Soup", Some false);
         ("dish-3", "Quiche", Some true)]
      /\ succeeded = true
      /\ map (fun d => (Dish.id d, Dish.name d, Dish.is_available d)) (dishes db')
         = [("dish-1", "Pasta", Some true); ("dish-2", "Minestrone", Some false);
            ("dish-3", "Quiche", Some true)]
      /\ map Dish.price (dishes db') = [9.99%float; 11.5%float; 7.5%float]).
Proof.
  split.
  - intros parseFloat describe session restaurant dish gen form db.
    split; [reflexivity|].
    unfold handleSubmit, api_update.
    change (dishData parseFloat restaurant
              (DishForm.setLoading true (DishForm.setError "" form)))
      with (dishData parseFloat restaurant form).
    rewrite dish_patch_of_form.
    destruct (is_finite (parseFloat (DishForm.price form))); cbn [bind].
    2:{ repeat split; auto using kept_by_edit_refl. }
    destruct (exec session _ db) as [db'|e] eqn:E.
    2:{ repeat split; auto using kept_by_edit_refl. }
    unfold exec in E.
    match type of E with
    | (if ?c then _ else _) = _ => destruct c; [|discriminate]
    end.
    apply commit_ok in E. destruct E as [-> _].
    cbn [profiles restaurants dishes orders order_items with_rows rows_of].
    repeat split; auto.
    apply Forall2_map_same. intros d.
    destruct (_ && _) eqn:Htouched.
    + unfold kept_by_edit. cbn. repeat split; auto.
      intros Hother. apply andb_true_iff in Htouched. destruct Htouched as [Hid _].
      cbn in Hid. apply String.eqb_eq in Hid. contradiction.
    + unfold kept_by_edit. auto.
  - vm_compute. repeat split; reflexivity.
Qed.

(** ** Further observations on the checkout and on roles *)

(** The price an order_item stores is the price of the dish as the cart
    holds it, that is, as it was when the menu was loaded: when the seller
    has re-priced the dish in between, the order_item does not carry the
    dish row's current price. *)
Example checkout_stores_cart_price :
  let '(view', db', _) := sample_repriced_checkout in
  CartView.success view' = true
  /\ map (fun d => (Dish.id d, Dish.price d)) (dishes db')
     = [("dish-1", 11.5%float); ("dish-2", 5.00%float); ("dish-3", 7.5%float)]
  /\ map (fun i => (OrderItem.dish_id i, OrderItem.price i)) (order_items db')
     = [("dish-1", 9.99%float); ("dish-2", 5.00%float)]
  /\ map Order.total_amount (orders db') = [24.98%float].
Proof. vm_compute. repeat split; reflexivity. Qed.

(** The total is a binary64 sum: 9.99 + 7.5 is stored as
    17.490000000000002. *)
Example checkout_total_is_binary64 :
  let '(_, db', _) := sample_mixed_checkout in
  map OrderItem.price (order_items db') = [9.99%float; 7.5%float]
  /\ map OrderItem.quantity (order_items db') = [1%Z; 1%Z]
  /\ map Order.total_amount (orders db') = [17.490000000000002%float]
  /\ (17.490000000000002 =? 17.49)%float = false.
Proof. vm_compute. repeat split; reflexivity. Qed.

(** A customer cannot insert a restaurant; once the customer has made the
    own profile a seller's, the same insert is accepted. *)
Example role_change_opens_seller_insert :
  api_insert "customer-1" (sample_generated "rest-") restaurants_t
    [sample_new_restaurant] false sample_db = Err rls_violation
  /\ match sample_db_promoted with
     | Ok db' =>
         match api_insert "customer-1" (sample_generated "rest-") restaurants_t
                 [sample_new_restaurant] false db' with
         | Ok (_, db'') =>
             map (fun r => (Restaurant.id r, Restaurant.seller_id r))
               (restaurants db'')
             = [("rest-1", "seller-1"); ("rest-2", "seller-2");
                ("rest-0", "customer-1")]
         | Err _ => False
         end
     | Err _ => False
     end.
Proof. vm_compute. split; reflexivity. Qed.

(** * Further properties of the code *)

(** ** The cart and the dashboard *)

Lemma cart_map_quantity_same (p : CartItem.t -> bool) (q : CartItem.t -> number)
    (cartItems : list CartItem.t) :
  Forall2 same_dish_and_restaurant cartItems
    (map (fun item => if p item then CartItem.with_quantity item (q item) else item)
       cartItems).
Proof.
  induction cartItems as [|item rest IH]; simpl; constructor; [|exact IH].
  unfold same_dish_and_restaurant. destruct (p item); auto.
Qed.

Lemma cart_filter_absent (cartItems : list CartItem.t) (dishId : uuid) :
  ~ In dishId (cart_dish_ids cartItems) ->
  filter (fun item => negb (CartItem.dish_id item =? dishId)) cartItems = cartItems.
Proof.
  induction cartItems as [|item rest IH]; simpl; intros Habsent; [reflexivity|].
  destruct (String.eqb_spec (CartItem.dish_id item) dishId) as [E|E].
  - exfalso. apply Habsent. left. exact E.
  - simpl. f_equal. apply IH. tauto.
Qed.

Lemma cart_map_absent (f : CartItem.t -> CartItem.t) (cartItems : list CartItem.t)
    (dishId : uuid) :
  ~ In dishId (cart_dish_ids cartItems) ->
  map (fun item => if CartItem.dish_id item =? dishId then f item else item) cartItems
  = cartItems.
Proof.
  induction cartItems as [|item rest IH]; simpl; intros Habsent; [reflexivity|].
  destruct (String.eqb_spec (CartItem.dish_id item) dishId) as [E|E].
  - exfalso. apply Habsent. left. exact E.
  - f_equal. apply IH. tauto.
Qed.

Lemma addToCart_absent (cartItems : list CartItem.t) (dish : Dish.t)
    (restaurant : Restaurant.t) :
  ~ In (Dish.id dish) (cart_dish_ids cartItems) ->
  addToCart cartItems dish restaurant
  = cartItems ++ [CartItem.mk dish restaurant 1%float].
Proof.
  intros Hnew. unfold addToCart.
  destruct (find _ cartItems) as [found|] eqn:Hfind; [exfalso|reflexivity].
  apply find_some in Hfind. destruct Hfind as [Hin Hid].
  apply String.eqb_eq in Hid. apply Hnew. rewrite <- Hid.
  unfold cart_dish_ids. apply in_map. exact Hin.
Qed.

(** The cart keeps the dish object and the restaurant of an entry as they
    were when the dish was first added: adding a dish whose id the cart
    already holds keeps the stored dish (and its price), whatever the dish
    object passed now; adding any dish leaves the dish and restaurant of
    every entry that was there in place. *)
Theorem cart_keeps_first_dish_object (cartItems : list CartItem.t)
    (dish : Dish.t) (restaurant : Restaurant.t) :
  Forall2 same_dish_and_restaurant cartItems
    (firstn (List.length cartItems) (addToCart cartItems dish restaurant))
  /\ (In (Dish.id dish) (cart_dish_ids cartItems) ->
      map CartItem.dish (addToCart cartItems dish restaurant)
      = map CartItem.dish cartItems
      /\ map CartItem.restaurant (addToCart cartItems dish restaurant)
         = map CartItem.restaurant cartItems).
Proof.
  unfold addToCart. split.
  - destruct (find _ cartItems).
    + rewrite <- (length_map (fun item =>
                    if CartItem.dish_id item =? Dish.id dish
                    then CartItem.with_quantity item (CartItem.quantity item + 1)%float
                    else item) cartItems) at 1.
      rewrite firstn_all.
      apply (cart_map_quantity_same
               (fun item => CartItem.dish_id item =? Dish.id dish)
               (fun item => (CartItem.quantity item + 1)%float)).
    + rewrite firstn_app, Nat.sub_diag, firstn_all. simpl. rewrite app_nil_r.
      clear. induction cartItems; constructor; auto.
      unfold same_dish_and_restaurant. auto.
  - intros Hin. destruct (find _ cartItems) eqn:Hfind.
    + rewrite !map_map. split; apply map_ext; intros item;
        destruct (CartItem.dish_id item =? Dish.id dish); reflexivity.
    + exfalso. revert Hfind. apply cart_find_some. exact Hin.
Qed.

Lemma cart_keeps_first_dish_object_witness :
  map (fun item => Dish.price (CartItem.dish item))
    (addToCart sample_cart
       (Dish.mk "dish-1" "rest-1" "Pasta" (Some "") 12.5%float (Some "")
          (Some "Main") (Some true) (Some 6%Z) (Some 9%Z))
       sample_restaurant)
  = [9.99%float; 5.00%float].
Proof.
  destruct (cart_keeps_first_dish_object sample_cart
              (Dish.mk "dish-1" "rest-1" "Pasta" (Some "") 12.5%float (Some "")
                 (Some "Main") (Some true) (Some 6%Z) (Some 9%Z))
              sample_restaurant) as [_ Hkept].
  destruct (Hkept ltac:(left; reflexivity)) as [Hdishes _].
  rewrite <- map_map, Hdishes. reflexivity.
Defined.

(** Adding a dish that the cart does not hold and then removing it (the
    trash button, or quantity 0) gives the cart back; removing takes the
    whole entry away, whatever its quantity. *)
Theorem cart_add_then_remove (cartItems : list CartItem.t) (dish : Dish.t)
    (restaurant : Restaurant.t) :
  ~ In (Dish.id dish) (cart_dish_ids cartItems) ->
  updateCartItem (addToCart cartItems dish restaurant) (Dish.id dish) 0%float
  = cartItems
  /\ updateCartItem
       (addToCart (addToCart cartItems dish restaurant) dish restaurant)
       (Dish.id dish) 0%float
     = cartItems.
Proof.
  intros Habsent.
  pose proof addToCart_absent as Hnew.
  assert (Hremove : forall q,
            filter (fun item => negb (CartItem.dish_id item =? Dish.id dish))
              (cartItems ++ [CartItem.mk dish restaurant q]) = cartItems).
  { intros q. rewrite filter_app, cart_filter_absent by exact Habsent.
    simpl. unfold CartItem.dish_id at 1. simpl. rewrite String.eqb_refl. simpl.
    apply app_nil_r. }
  rewrite (Hnew cartItems dish restaurant Habsent).
  unfold updateCartItem. change (0 =? 0)%float with true. cbv iota.
  split; [apply Hremove|].
  unfold addToCart.
  destruct (find _ (cartItems ++ _)) eqn:Hfind.
  - rewrite map_app, cart_map_absent by exact Habsent. simpl.
    unfold CartItem.dish_id at 1. simpl. rewrite String.eqb_refl.
    apply Hremove.
  - exfalso. revert Hfind. apply cart_find_some.
    unfold cart_dish_ids. rewrite map_app. apply in_or_app. right. left. reflexivity.
Qed.

Lemma cart_add_then_remove_witness :
  updateCartItem (addToCart sample_cart sample_quiche sample_closed_restaurant)
    "dish-3" 0%float = sample_cart.
Proof.
  apply (cart_add_then_remove sample_cart sample_quiche sample_closed_restaurant).
  cbn. intuition discriminate.
Defined.

Lemma cart_ids_after_update (cartItems : list CartItem.t) (dishId : uuid)
    (quantity : number) :
  cart_dish_ids (updateCartItem cartItems dishId quantity)
  = if (quantity =? 0)%float
    then filter (fun d => negb (d =? dishId)) (cart_dish_ids cartItems)
    else cart_dish_ids cartItems.
Proof.
  unfold updateCartItem. destruct (quantity =? 0)%float.
  - unfold cart_dish_ids. induction cartItems as [|item rest IH]; simpl; [reflexivity|].
    destruct (CartItem.dish_id item =? dishId); simpl; rewrite IH; reflexivity.
  - apply cart_ids_with_quantity.
Qed.

(** [updateCartItem] for a dish that the cart does not hold changes
    nothing, whatever the quantity: an update never adds an entry, and
    once an entry is removed no update brings it back.  Updates of two
    different dishes can be made in either order. *)
Theorem cart_update_absent_and_order (cartItems : list CartItem.t) :
  (forall dishId quantity,
     ~ In dishId (cart_dish_ids cartItems) ->
     updateCartItem cartItems dishId quantity = cartItems)
  /\ (forall dishId quantity,
        updateCartItem (updateCartItem cartItems dishId 0%float) dishId quantity
        = updateCartItem cartItems dishId 0%float)
  /\ (forall d1 d2 q1 q2,
        d1 <> d2 ->
        updateCartItem (updateCartItem cartItems d1 q1) d2 q2
        = updateCartItem (updateCartItem cartItems d2 q2) d1 q1).
Proof.
  assert (Habsent : forall cart dishId quantity,
            ~ In dishId (cart_dish_ids cart) ->
            updateCartItem cart dishId quantity = cart).
  { intros cart dishId quantity H. unfold updateCartItem.
    destruct (quantity =? 0)%float;
      [apply cart_filter_absent | apply cart_map_absent]; exact H. }
  split; [apply Habsent|]. split.
  - intros dishId quantity. apply Habsent.
    rewrite cart_ids_after_update. change (0 =? 0)%float with true. cbv iota.
    intros Hin. apply filter_In in Hin. destruct Hin as [_ Hneq].
    rewrite String.eqb_refl in Hneq. discriminate.
  - intros d1 d2 q1 q2 Hneq. unfold updateCartItem.
    destruct (q1 =? 0)%float, (q2 =? 0)%float.
    + induction cartItems as [|item rest IH]; simpl; [reflexivity|].
      destruct (CartItem.dish_id item =? d1) eqn:E1,
               (CartItem.dish_id item =? d2) eqn:E2; simpl;
        rewrite ?E1, ?E2; simpl; rewrite ?IH; reflexivity.
    + induction cartItems as [|item rest IH]; simpl; [reflexivity|].
      destruct (CartItem.dish_id item =? d1) eqn:E1,
               (CartItem.dish_id item =? d2) eqn:E2; simpl;
        unfold CartItem.dish_id in *; simpl; rewrite ?E1, ?E2; simpl;
        rewrite ?IH; reflexivity.
    + induction cartItems as [|item rest IH]; simpl; [reflexivity|].
      destruct (CartItem.dish_id item =? d1) eqn:E1,
               (CartItem.dish_id item =? d2) eqn:E2; simpl;
        unfold CartItem.dish_id in *; simpl; rewrite ?E1, ?E2; simpl;
        rewrite ?IH; reflexivity.
    + induction cartItems as [|item rest IH]; simpl; [reflexivity|].
      destruct (String.eqb_spec (CartItem.dish_id item) d1) as [E1|E1],
               (String.eqb_spec (CartItem.dish_id item) d2) as [E2|E2]; simpl;
        unfold CartItem.dish_id in *; simpl;
        try (exfalso; congruence);
        repeat match goal with
               | |- context [Dish.id ?d =? ?k] =>
                   destruct (String.eqb_spec (Dish.id d) k); try congruence
               end;
        rewrite ?IH; reflexivity.
Qed.

Lemma cart_update_absent_and_order_witness :
  updateCartItem sample_cart "dish-9" 3%float = sample_cart
  /\ updateCartItem (updateCartItem sample_cart "dish-1" 0%float) "dish-2" 4%float
     = updateCartItem (updateCartItem sample_cart "dish-2" 4%float) "dish-1" 0%float.
Proof.
  destruct (cart_update_absent_and_order sample_cart) as (Habsent & _ & Horder).
  split.
  - apply Habsent. cbn. intuition discriminate.
  - apply Horder. discriminate.
Defined.

(** The buttons of a cart line, on a cart with one entry per dish.  The
    plus button does what adding the line's dish from the menu again does
    (provided the raised quantity is not 0).  On a line with quantity 1
    the minus button removes the line, as the trash button does; the trash
    button removes that line and leaves the others as they are. *)
Theorem cart_line_buttons (before after : list CartItem.t) (item : CartItem.t) :
  NoDup (cart_dish_ids (before ++ item :: after)) ->
  ((CartItem.quantity item + 1 =? 0)%float = false ->
   forall restaurant,
     cart_plus (before ++ item :: after) item
     = addToCart (before ++ item :: after) (CartItem.dish item) restaurant)
  /\ cart_trash (before ++ item :: after) item = before ++ after
  /\ (CartItem.quantity item = 1%float ->
      cart_minus (before ++ item :: after) item = before ++ after).
Proof.
  intros Hnd.
  assert (Htrash : cart_trash (before ++ item :: after) item = before ++ after).
  { unfold cart_trash, updateCartItem. change (0 =? 0)%float with true. cbv iota.
    unfold cart_dish_ids in Hnd. rewrite map_app in Hnd. simpl in Hnd.
    apply NoDup_remove_2 in Hnd.
    rewrite filter_app. simpl. rewrite String.eqb_refl. simpl.
    rewrite !cart_filter_absent; [reflexivity | |];
      intros Hin; apply Hnd, in_or_app; [right|left]; exact Hin. }
  split; [|split; [exact Htrash|]].
  - intros Hnonzero restaurant. unfold cart_plus, updateCartItem. rewrite Hnonzero.
    rewrite (cart_map_at (fun x => CartItem.with_quantity x (CartItem.quantity item + 1)%float)
               (CartItem.dish_id item) before after item eq_refl Hnd).
    unfold addToCart.
    destruct (find _ (before ++ item :: after)) eqn:Hfind.
    + symmetry.
      apply (cart_map_at
               (fun x => CartItem.with_quantity x (CartItem.quantity x + 1)%float)
               (Dish.id (CartItem.dish item)) before after item eq_refl Hnd).
    + exfalso. revert Hfind. apply cart_find_some.
      unfold cart_dish_ids. rewrite map_app. apply in_or_app. right. left. reflexivity.
  - intros Hone. rewrite <- Htrash. unfold cart_minus, cart_trash. rewrite Hone.
    unfold updateCartItem. change (1 - 1 =? 0)%float with true.
    change (0 =? 0)%float with true. reflexivity.
Qed.

Lemma cart_line_buttons_witness :
  cart_plus sample_cart (CartItem.mk sample_soup sample_restaurant 1%float)
  = addToCart sample_cart sample_soup sample_closed_restaurant
  /\ cart_minus sample_cart (CartItem.mk sample_soup sample_restaurant 1%float)
     = [CartItem.mk sample_pasta sample_restaurant 2%float].
Proof.
  assert (Hnd : NoDup (cart_dish_ids sample_cart)).
  { repeat constructor; cbn; intuition discriminate. }
  destruct (cart_line_buttons [CartItem.mk sample_pasta sample_restaurant 2%float] []
              (CartItem.mk sample_soup sample_restaurant 1%float) Hnd)
    as (Hplus & _ & Hminus).
  split.
  - apply (Hplus eq_refl).
  - apply (Hminus eq_refl).
Defined.

(** The dashboard shows the cart exactly when the cart was asked for and
    no restaurant is selected.  The cart button of the restaurant view
    therefore leaves the restaurant view on the screen, and the cart comes
    up once the customer goes back; the cart is kept across all of this. *)
Theorem dashboard_cart_screen (s : Dashboard.t) :
  (forall items, Dashboard.render s = Dashboard.Cart items
                 <-> Dashboard.selectedRestaurant s = None
                     /\ Dashboard.showCart s = true
                     /\ items = Dashboard.cartItems s)
  /\ (forall restaurant,
        Dashboard.selectedRestaurant s = Some restaurant ->
        Dashboard.render (Dashboard.handle s Dashboard.onShowCart)
        = Dashboard.RestaurantView restaurant (List.length (Dashboard.cartItems s))
        /\ Dashboard.render
             (Dashboard.handle (Dashboard.handle s Dashboard.onShowCart)
                Dashboard.onBack)
           = Dashboard.Cart (Dashboard.cartItems s)).
Proof.
  split.
  - intros items. unfold Dashboard.render.
    destruct (Dashboard.selectedRestaurant s), (Dashboard.showCart s);
      split; try discriminate; try (intros (? & ? & ?); discriminate).
    + intros H. injection H as <-. auto.
    + intros (_ & _ & ->). reflexivity.
  - intros restaurant Hsel. unfold Dashboard.render. cbn. rewrite Hsel. auto.
Qed.

Lemma dashboard_cart_screen_witness :
  Dashboard.render
    (Dashboard.handle
       (Dashboard.handle
          (Dashboard.handle Dashboard.initial
             (Dashboard.selectRestaurant sample_restaurant))
          (Dashboard.onAddToCart sample_pasta))
       Dashboard.onShowCart)
  = Dashboard.RestaurantView sample_restaurant 1.
Proof.
  apply (dashboard_cart_screen
           (Dashboard.handle
              (Dashboard.handle Dashboard.initial
                 (Dashboard.selectRestaurant sample_restaurant))
              (Dashboard.onAddToCart sample_pasta))).
  reflexivity.
Defined.

(** ** The policies for the other commands *)

Section MorePolicyFacts.
Variable auth_uid : uuid.
Variable db : database.

Lemma visible_profiles_spec (p : Profile.t) :
  In p (visible_profiles auth_uid db) <-> In p (profiles db) /\ auth_uid = Profile.id p.
Proof.
  unfold visible_profiles. rewrite filter_In.
  unfold rls_using, profiles_policies, using_of.
  cbn [existsb policy_cmd policy_using command_eqb andb orb].
  rewrite orb_false_r, sql_true_eq, String.eqb_eq. tauto.
Qed.

(** [EXISTS (SELECT 1 FROM profiles WHERE id = auth.uid() AND user_type =
    role)]: the caller reads the own profile row, so the subquery sees it. *)
Lemma role_subquery_spec (role : text) :
  sql_true
    (sql_exists
       (sql_where (fun p =>
          sql_and (sql_eq (Profile.id p) auth_uid)
                  (sql_eq (Profile.user_type p) role))
          (visible_profiles auth_uid db)))
  = has_role db auth_uid role.
Proof.
  rewrite sql_true_exists_where. unfold has_role.
  apply eq_true_iff_eq. rewrite !existsb_exists. split.
  - intros (p & Hp & Hc). apply visible_profiles_spec in Hp.
    rewrite sql_true_and, !sql_true_eq in Hc. exists p. tauto.
  - intros (p & Hp & Hc). exists p. split.
    + apply visible_profiles_spec. split; [exact Hp|].
      apply andb_true_iff in Hc. destruct Hc as [Hid _].
      apply String.eqb_eq in Hid. auto.
    + rewrite sql_true_and, !sql_true_eq. exact Hc.
Qed.

Lemma order_insert_check_spec (o : Order.t) :
  rls_check INSERT (policies auth_uid db orders_t) o = true
  <-> Order.customer_id o = auth_uid /\ has_role db auth_uid "customer" = true.
Proof.
  unfold rls_check, policies, orders_policies, check_of.
  cbn [existsb policy_cmd policy_using policy_with_check command_eqb andb orb].
  rewrite orb_false_r, sql_true_and, andb_true_iff, sql_true_eq, String.eqb_eq.
  rewrite role_subquery_spec. tauto.
Qed.

Lemma restaurant_insert_check_spec (r : Restaurant.t) :
  rls_check INSERT (policies auth_uid db restaurants_t) r = true
  <-> Restaurant.seller_id r = auth_uid /\ has_role db auth_uid "seller" = true.
Proof.
  unfold rls_check, policies, restaurants_policies, check_of.
  cbn [existsb policy_cmd policy_using policy_with_check command_eqb andb orb].
  rewrite orb_false_r, sql_true_and, andb_true_iff, sql_true_eq, String.eqb_eq.
  rewrite role_subquery_spec. tauto.
Qed.

Lemma visible_orders_spec (o : Order.t) :
  In o (visible_orders auth_uid db)
  <-> In o (orders db)
      /\ (Order.customer_id o = auth_uid
          \/ sql_true (owns_restaurant auth_uid db (Order.restaurant_id o)) = true).
Proof.
  unfold visible_orders. rewrite filter_In.
  unfold rls_using, orders_policies, using_of.
  cbn [existsb policy_cmd policy_using command_eqb andb orb].
  rewrite orb_false_r, orb_true_iff, sql_true_eq, String.eqb_eq. tauto.
Qed.

Lemma owns_order_spec (oid : uuid) :
  sql_true (owns_order auth_uid db oid) = true
  <-> exists o, In o (orders db) /\ Order.id o = oid /\ Order.customer_id o = auth_uid.
Proof.
  unfold owns_order. rewrite sql_true_exists_where, existsb_exists. split.
  - intros (o & Ho & Hc). apply visible_orders_spec in Ho.
    rewrite sql_true_and, !sql_true_eq, andb_true_iff, !String.eqb_eq in Hc.
    exists o. tauto.
  - intros (o & Ho & Hid & Hc). exists o. split.
    + apply visible_orders_spec. auto.
    + rewrite sql_true_and, !sql_true_eq, andb_true_iff, !String.eqb_eq. auto.
Qed.

End MorePolicyFacts.

(** Profiles.  A caller may select, insert and update exactly the profile
    row whose id is the caller's identity, and nobody may delete a
    profile. *)
Theorem profiles_policies_own_row (auth_uid : uuid) (db : database) (p : Profile.t) :
  (rls_using SELECT (policies auth_uid db profiles_t) p = true <-> auth_uid = Profile.id p)
  /\ (rls_check INSERT (policies auth_uid db profiles_t) p = true
      <-> auth_uid = Profile.id p)
  /\ (rls_using UPDATE (policies auth_uid db profiles_t) p = true
      <-> auth_uid = Profile.id p)
  /\ (rls_check UPDATE (policies auth_uid db profiles_t) p = true
      <-> auth_uid = Profile.id p)
  /\ rls_using DELETE (policies auth_uid db profiles_t) p = false.
Proof.
  unfold rls_using, rls_check, policies, profiles_policies, using_of, check_of.
  cbn [existsb policy_cmd policy_using policy_with_check command_eqb andb orb].
  rewrite !orb_false_r, sql_true_eq, String.eqb_eq. tauto.
Qed.

(** Restaurants.  A caller may insert a restaurant exactly when the row
    names the caller as seller and the caller's profile has the role
    seller; update and delete need the caller to be the row's seller (and
    an update may not hand the restaurant to another seller). *)
Theorem restaurants_write_policies (auth_uid : uuid) (db : database)
    (r : Restaurant.t) :
  (rls_check INSERT (policies auth_uid db restaurants_t) r = true
   <-> Restaurant.seller_id r = auth_uid /\ has_role db auth_uid "seller" = true)
  /\ (rls_using UPDATE (policies auth_uid db restaurants_t) r = true
      <-> Restaurant.seller_id r = auth_uid)
  /\ (rls_check UPDATE (policies auth_uid db restaurants_t) r = true
      <-> Restaurant.seller_id r = auth_uid)
  /\ (rls_using DELETE (policies auth_uid db restaurants_t) r = true
      <-> Restaurant.seller_id r = auth_uid).
Proof.
  split; [apply restaurant_insert_check_spec|].
  unfold rls_using, rls_check, policies, restaurants_policies, using_of, check_of.
  cbn [existsb policy_cmd policy_using policy_with_check command_eqb andb orb].
  rewrite !orb_false_r, sql_true_eq, String.eqb_eq. tauto.
Qed.

(** Dishes.  Insert, update (the row before and the row after) and delete
    are let through exactly for the seller of the dish's restaurant; for a
    dish that names no existing restaurant they are let through for
    nobody. *)
Theorem dishes_write_policies (auth_uid : uuid) (db : database) (d : Dish.t) :
  unique (map Restaurant.id (restaurants db)) = true ->
  let owner :=
    match restaurant_of db (Dish.restaurant_id d) with
    | Some parent => auth_uid = Restaurant.seller_id parent
    | None => False
    end in
  (rls_check INSERT (policies auth_uid db dishes_t) d = true <-> owner)
  /\ (rls_using UPDATE (policies auth_uid db dishes_t) d = true <-> owner)
  /\ (rls_check UPDATE (policies auth_uid db dishes_t) d = true <-> owner)
  /\ (rls_using DELETE (policies auth_uid db dishes_t) d = true <-> owner).
Proof.
  intros Hpk owner.
  assert (Howner : sql_true (owns_restaurant auth_uid db (Dish.restaurant_id d)) = true
                   <-> owner).
  { unfold owner. destruct (restaurant_of db (Dish.restaurant_id d)) as [parent|] eqn:E.
    - apply owns_restaurant_parent; assumption.
    - rewrite owns_restaurant_spec. split; [|contradiction].
      intros (r & Hr & Hid & _). unfold restaurant_of in E.
      apply (find_none _ _ E) in Hr. rewrite Hid, String.eqb_refl in Hr. discriminate. }
  unfold rls_using, rls_check, policies, dishes_policies, using_of, check_of.
  cbn [existsb policy_cmd policy_using policy_with_check command_eqb andb orb].
  rewrite !orb_false_r. tauto.
Qed.

Lemma dishes_write_policies_witness :
  rls_check INSERT (policies "seller-1" sample_db dishes_t) sample_pasta = true
  /\ rls_using DELETE (policies "seller-2" sample_db dishes_t) sample_pasta = false.
Proof.
  destruct (dishes_write_policies "seller-1" sample_db sample_pasta eq_refl)
    as (Hins & _).
  destruct (dishes_write_policies "seller-2" sample_db sample_pasta eq_refl)
    as (_ & _ & _ & Hdel).
  split.
  - apply Hins. reflexivity.
  - destruct (rls_using DELETE (policies "seller-2" sample_db dishes_t) sample_pasta);
      [|reflexivity].
    assert (H : "seller-2" = "seller-1") by (apply Hdel; reflexivity).
    discriminate H.
Defined.

(** Orders.  A caller reads an order exactly when the caller is its
    customer or the seller of its restaurant; a caller may insert an order
    exactly when the row names the caller as customer and the caller's
    profile has the role customer; nobody may delete an order. *)
Theorem orders_select_insert_policies (auth_uid : uuid) (db : database)
    (o : Order.t) (parent : Restaurant.t) :
  unique (map Restaurant.id (restaurants db)) = true ->
  restaurant_of db (Order.restaurant_id o) = Some parent ->
  (rls_using SELECT (policies auth_uid db orders_t) o = true
   <-> auth_uid = Order.customer_id o \/ auth_uid = Restaurant.seller_id parent)
  /\ (rls_check INSERT (policies auth_uid db orders_t) o = true
      <-> auth_uid = Order.customer_id o /\ has_role db auth_uid "customer" = true)
  /\ rls_using DELETE (policies auth_uid db orders_t) o = false.
Proof.
  intros Hpk Hparent. split; [|split].
  - unfold rls_using, policies, orders_policies, using_of.
    cbn [existsb policy_cmd policy_using command_eqb andb orb].
    rewrite !orb_false_r, orb_true_iff, sql_true_eq, String.eqb_eq.
    rewrite (owns_restaurant_parent _ _ _ _ Hpk Hparent).
    intuition congruence.
  - rewrite order_insert_check_spec. intuition congruence.
  - reflexivity.
Qed.

Lemma orders_select_insert_policies_witness :
  rls_using SELECT (policies "seller-1" sample_db_with_order orders_t) sample_order
    = true
  /\ rls_check INSERT (policies "customer-1" sample_db orders_t) sample_order = true
  /\ rls_check INSERT (policies "seller-1" sample_db orders_t)
       (Order.mk "order-1" "seller-1" "rest-1" 0%float "pending" "x" None None None)
     = false.
Proof.
  destruct (orders_select_insert_policies "seller-1" sample_db_with_order sample_order
              sample_restaurant eq_refl eq_refl) as (Hsel & _).
  destruct (orders_select_insert_policies "customer-1" sample_db sample_order
              sample_restaurant eq_refl eq_refl) as (_ & Hins & _).
  destruct (orders_select_insert_policies "seller-1" sample_db
              (Order.mk "order-1" "seller-1" "rest-1" 0%float "pending" "x"
                 None None None)
              sample_restaurant eq_refl eq_refl) as (_ & Hno & _).
  split; [|split].
  - apply Hsel. right. reflexivity.
  - apply Hins. split; reflexivity.
  - destruct (rls_check INSERT (policies "seller-1" sample_db orders_t)
                (Order.mk "order-1" "seller-1" "rest-1" 0%float "pending" "x"
                   None None None)) eqn:E; [|reflexivity].
    destruct (proj1 Hno eq_refl) as [_ Hrole]. discriminate Hrole.
Defined.

(** Order items.  A caller reads an order_item exactly when the caller is
    the customer of its order or the seller of that order's restaurant;
    only the order's customer may insert an order_item for the order (the
    restaurant's seller may not). *)
Theorem order_items_select_insert_policies (auth_uid : uuid) (db : database)
    (i : OrderItem.t) (o : Order.t) (parent : Restaurant.t) :
  unique (map Order.id (orders db)) = true ->
  unique (map Restaurant.id (restaurants db)) = true ->
  order_of db (OrderItem.order_id i) = Some o ->
  restaurant_of db (Order.restaurant_id o) = Some parent ->
  (rls_using SELECT (policies auth_uid db order_items_t) i = true
   <-> auth_uid = Order.customer_id o \/ auth_uid = Restaurant.seller_id parent)
  /\ (rls_check INSERT (policies auth_uid db order_items_t) i = true
      <-> auth_uid = Order.customer_id o).
Proof.
  intros Hopk Hrpk Ho Hparent.
  apply unique_NoDup in Hopk.
  destruct (find_by_key_unique Order.id _ _ _ Hopk Ho) as (Hoin & Hoid & Hounique).
  pose proof Hrpk as Hrnd. apply unique_NoDup in Hrnd.
  destruct (find_by_key_unique Restaurant.id _ _ _ Hrnd Hparent)
    as (Hrin & Hrid & Hrunique).
  assert (Hown : sql_true (owns_order auth_uid db (OrderItem.order_id i)) = true
                 <-> auth_uid = Order.customer_id o).
  { rewrite owns_order_spec. split.
    - intros (o' & Ho' & Hid & Hc). rewrite (Hounique o' Ho' Hid) in Hc. auto.
    - intros ->. exists o. auto. }
  assert (Hsells :
    sql_true
      (sql_exists
         (sql_where (fun o_r =>
            sql_and (sql_eq (Order.id (fst o_r)) (OrderItem.order_id i))
                    (sql_eq (Restaurant.seller_id (snd o_r)) auth_uid))
            (sql_join (fun o r => sql_eq (Restaurant.id r) (Order.restaurant_id o))
               (visible_orders auth_uid db) (visible_restaurants auth_uid db))))
    = true
    <-> auth_uid = Restaurant.seller_id parent).
  { rewrite sql_true_exists_where, existsb_exists. split.
    - intros ([o' r'] & Hjoin & Hc). cbn [fst snd] in Hc.
      unfold sql_join in Hjoin. apply filter_In in Hjoin.
      destruct Hjoin as [Hprod Hon]. cbn [fst snd] in Hon.
      apply in_prod_iff in Hprod. destruct Hprod as [Ho' Hr'].
      apply visible_orders_spec in Ho'. apply visible_restaurants_spec in Hr'.
      rewrite sql_true_and, !sql_true_eq, andb_true_iff, !String.eqb_eq in Hc.
      rewrite sql_true_eq, String.eqb_eq in Hon.
      destruct Hc as [Hid Hseller], Ho' as [Ho' _], Hr' as [Hr' _].
      rewrite (Hounique o' Ho' Hid) in Hon.
      rewrite (Hrunique r' Hr' Hon) in Hseller. auto.
    - intros Hseller. exists (o, parent). split.
      + unfold sql_join. apply filter_In. split.
        * apply in_prod_iff. split.
          -- apply visible_orders_spec. split; [exact Hoin|]. right.
             apply (owns_restaurant_parent _ _ _ _ Hrpk Hparent). exact Hseller.
          -- apply visible_restaurants_spec. auto.
        * cbn [fst snd]. rewrite sql_true_eq, String.eqb_eq. exact Hrid.
      + cbn [fst snd].
        rewrite sql_true_and, !sql_true_eq, andb_true_iff, !String.eqb_eq. auto. }
  unfold rls_using, rls_check, policies, order_items_policies, using_of, check_of.
  cbn [existsb policy_cmd policy_using policy_with_check command_eqb andb orb].
  rewrite !orb_false_r, orb_true_iff. tauto.
Qed.

Lemma order_items_select_insert_policies_witness :
  rls_using SELECT (policies "seller-1" sample_db_with_order order_items_t)
    (OrderItem.mk "item-0" "order-0" "dish-1" 2%Z 9.99%float (Some 100%Z)) = true
  /\ rls_check INSERT (policies "seller-1" sample_db_with_order order_items_t)
       (OrderItem.mk "item-0" "order-0" "dish-1" 2%Z 9.99%float (Some 100%Z)) = false
  /\ rls_check INSERT (policies "customer-1" sample_db_with_order order_items_t)
       (OrderItem.mk "item-0" "order-0" "dish-1" 2%Z 9.99%float (Some 100%Z)) = true.
Proof.
  destruct (order_items_select_insert_policies "seller-1" sample_db_with_order
              (OrderItem.mk "item-0" "order-0" "dish-1" 2%Z 9.99%float (Some 100%Z))
              sample_order sample_restaurant eq_refl eq_refl eq_refl eq_refl)
    as (Hsel & Hins).
  destruct (order_items_select_insert_policies "customer-1" sample_db_with_order
              (OrderItem.mk "item-0" "order-0" "dish-1" 2%Z 9.99%float (Some 100%Z))
              sample_order sample_restaurant eq_refl eq_refl eq_refl eq_refl)
    as (_ & Hcust).
  split; [|split].
  - apply Hsel. right. reflexivity.
  - destruct (rls_check INSERT (policies "seller-1" _ _) _); [|reflexivity].
    assert (H : "seller-1" = "customer-1") by (apply Hins; reflexivity).
    discriminate H.
  - apply Hcust. reflexivity.
Defined.

(** ** The checkout on every input *)

Lemma exec_insert_frame (auth_uid : uuid) (t : table) (rows : list (row t))
    (returning : bool) (db db' : database) :
  exec auth_uid (Insert t rows returning) db = Ok db' ->
  forall t', t' <> t -> rows_of t' db' = rows_of t' db.
Proof.
  intros H t' Hneq. apply exec_insert_ok in H. destruct H as (-> & _ & _).
  destruct t, t'; try reflexivity; contradiction.
Qed.

(** Whatever it is given, [handlePlaceOrder] makes at most two calls, both
    inserts; it leaves profiles, restaurants and dishes as they are; it
    adds no order, or one pending order of the signed-in user for the
    cart's total; for that order it adds no order_item or one per cart
    item; a consistent database stays consistent; and once it has made a
    call it has switched [loading] off again. *)
Theorem checkout_changes_only_orders (trim : string -> string)
    (describe : pg_error -> string) (session : uuid) (profile : option Profile.t)
    (items : list CartItem.t) (g1 g2 : nat -> generated) (view : CartView.t)
    (db : database) :
  let '(view', db', calls) :=
    handlePlaceOrder trim describe session profile items g1 g2 view db in
  profiles db' = profiles db
  /\ restaurants db' = restaurants db
  /\ dishes db' = dishes db
  /\ ((orders db' = orders db /\ order_items db' = order_items db)
      \/ exists order,
           orders db' = orders db ++ [order]
           /\ Order.customer_id order = session
           /\ Order.status order = "pending"
           /\ Order.total_amount order = total items
           /\ (order_items db' = order_items db
               \/ exists rows,
                    order_items db' = order_items db ++ rows
                    /\ Forall2 (line_of order) items rows))
  /\ (List.length calls <= 2)%nat
  /\ forallb is_insert_call calls = true
  /\ (constraints_ok db = true -> constraints_ok db' = true)
  /\ (calls <> [] -> CartView.loading view' = false).
Proof.
  unfold handlePlaceOrder.
  destruct (trim (CartView.deliveryAddress view) =? "").
  { repeat split; auto. intros H. contradiction. }
  destruct (single _) as [[order db1]|e] eqn:Horder.
  2:{ repeat split; auto. }
  apply insert_order_ok in Horder.
  destruct Horder as ((p & first & _ & _ & Ho) & Hexec & Horders & Hkept & Hdb1).
  pose proof (exec_insert_frame _ _ _ _ _ _ Hexec) as Hframe.
  pose proof (Hframe profiles_t ltac:(discriminate)) as Hp.
  pose proof (Hframe restaurants_t ltac:(discriminate)) as Hr.
  pose proof (Hframe dishes_t ltac:(discriminate)) as Hd.
  cbn [rows_of] in Hp, Hr, Hd.
  assert (Hmine : Order.customer_id order = session).
  { apply exec_insert_ok in Hexec. destruct Hexec as (_ & _ & Hcheck).
    cbn [forallb] in Hcheck. rewrite andb_true_r in Hcheck.
    apply order_insert_check_spec in Hcheck. tauto. }
  assert (Hshape : Order.status order = "pending"
                   /\ Order.total_amount order = total items).
  { rewrite Ho. split; reflexivity. }
  destruct Hshape as [Hstatus Htotal].
  destruct (api_insert session g2 order_items_t _ false db1)
    as [[rows db2]|e] eqn:Hitems.
  - pose proof Hitems as Hitems'. apply insert_order_items_ok in Hitems'.
    destruct Hitems' as (Hlines & Horders' & Hrows & Hdb2).
    unfold api_insert in Hitems.
    destruct (new_rows order_items_t g2 _) as [rs|?]; cbn [bind] in Hitems;
      [|discriminate].
    destruct (exec session (Insert order_items_t rs false) db1) as [d|?] eqn:Hexec2;
      cbn [bind] in Hitems; [|discriminate].
    injection Hitems as -> ->.
    pose proof (exec_insert_frame _ _ _ _ _ _ Hexec2) as Hframe2.
    pose proof (Hframe2 profiles_t ltac:(discriminate)) as Hp2.
    pose proof (Hframe2 restaurants_t ltac:(discriminate)) as Hr2.
    pose proof (Hframe2 dishes_t ltac:(discriminate)) as Hd2.
    cbn [rows_of] in Hp2, Hr2, Hd2.
    repeat split; try congruence; auto.
    right. exists order. repeat split; try congruence.
    right. exists rows. split; [congruence | exact Hlines].
  - repeat split; try congruence; auto.
    right. exists order. repeat split; try congruence. left. congruence.
Qed.



(** Only a customer places an order, and only in the own name: when the
    signed-in user has no profile with the role customer (a seller, say),
    or the profile the client holds is not the signed-in user's, the
    checkout inserts nothing. *)
Theorem checkout_only_for_customers (trim : string -> string)
    (describe : pg_error -> string) (session : uuid) (profile : option Profile.t)
    (items : list CartItem.t) (g1 g2 : nat -> generated) (view : CartView.t)
    (db : database) :
  has_role db session "customer" = false
  \/ option_map Profile.id profile <> Some session ->
  let '(view', db', calls) :=
    handlePlaceOrder trim describe session profile items g1 g2 view db in
  db' = db /\ CartView.success view' = CartView.success view.
Proof.
  intros Hdenied. unfold handlePlaceOrder.
  destruct (trim (CartView.deliveryAddress view) =? ""); [split; reflexivity|].
  destruct (single _) as [[order db1]|e] eqn:Horder; [exfalso|split; reflexivity].
  apply insert_order_ok in Horder.
  destruct Horder as ((p & first & Hp & _ & Ho) & Hexec & _).
  apply exec_insert_ok in Hexec. destruct Hexec as (_ & _ & Hcheck).
  cbn [forallb] in Hcheck. rewrite andb_true_r in Hcheck.
  apply order_insert_check_spec in Hcheck. destruct Hcheck as [Hmine Hrole].
  destruct Hdenied as [Hnone|Hother].
  - congruence.
  - apply Hother. rewrite Hp. cbn. rewrite <- Hmine, Ho. reflexivity.
Qed.

Lemma checkout_only_for_customers_witness :
  snd (fst (handlePlaceOrder sample_trim sample_describe "seller-1"
              (Some sample_seller) sample_cart
              (sample_generated "order-") (sample_generated "item-")
              sample_view sample_db))
  = sample_db.
Proof.
  pose proof (checkout_only_for_customers sample_trim sample_describe "seller-1"
                (Some sample_seller) sample_cart (sample_generated "order-")
                (sample_generated "item-") sample_view sample_db
                (or_introl eq_refl)) as H.
  destruct (handlePlaceOrder _ _ _ _ _ _ _ _ _) as [[v d] c]. apply H.
Defined.

(** ** Deletes and their cascades *)

Lemma unique_map_filter {A : Type} (key : A -> string) (p : A -> bool) (l : list A) :
  unique (map key l) = true -> unique (map key (filter p l)) = true.
Proof.
  rewrite !unique_NoDup.
  induction l as [|x l IH]; simpl; intros Hnd; [constructor|].
  inversion Hnd as [|? ? Hnotin Hrest]; subst.
  destruct (p x); simpl; [constructor|]; auto.
  intros Hin. apply Hnotin. apply in_map_iff in Hin. destruct Hin as (y & Hy & Hyin).
  apply in_map_iff. exists y. split; [exact Hy|]. apply filter_In in Hyin. tauto.
Qed.

Lemma forallb_filter {A : Type} (q p : A -> bool) (l : list A) :
  forallb q l = true -> forallb q (filter p l) = true.
Proof.
  rewrite !forallb_forall. intros H x Hx. apply filter_In in Hx. apply H. tauto.
Qed.

Lemma forallb_filter_both {A : Type} (p q : A -> bool) (l : list A) :
  forallb q l = true -> forallb (fun x => p x && q x) (filter p l) = true.
Proof.
  rewrite !forallb_forall. intros H x Hx. apply filter_In in Hx.
  destruct Hx as [Hx Hp]. rewrite Hp, (H x Hx). reflexivity.
Qed.

Lemma keys_and_checks_of_constraints (db : database) :
  constraints_ok db = true -> keys_and_checks_ok db = true.
Proof.
  unfold constraints_ok, keys_and_checks_ok, restaurants_ok, dishes_ok, orders_ok,
    order_items_ok.
  rewrite !andb_true_iff.
  intros ((((Hp & Hr & _) & Hd & Hdall) & Ho & Hoall) & Hi & Hiall).
  repeat split; try assumption.
  - revert Hdall. apply forallb_weaken. intros d. rewrite andb_true_iff. tauto.
  - revert Hoall. apply forallb_weaken. intros o. rewrite !andb_true_iff. tauto.
  - revert Hiall. apply forallb_weaken. intros i. rewrite !andb_true_iff. tauto.
Qed.

Lemma keys_and_checks_filter (db : database) (t : table) (keep : row t -> bool) :
  keys_and_checks_ok db = true ->
  keys_and_checks_ok (with_rows t (filter keep (rows_of t db)) db) = true.
Proof.
  unfold keys_and_checks_ok, profiles_ok. rewrite !andb_true_iff.
  intros ((((((Hp1 & Hp2) & Hp3) & Hr) & Hd & Hdall) & Ho & Hoall) & Hi & Hiall).
  destruct t; cbn [with_rows rows_of profiles restaurants dishes orders order_items];
    repeat split;
    try assumption;
    try (apply unique_map_filter; assumption);
    try (apply forallb_filter; assumption).
Qed.

(** The cascade leaves no dangling reference. *)
Lemma cascade_restores_references (db : database) :
  keys_and_checks_ok db = true -> constraints_ok (cascade db) = true.
Proof.
  unfold keys_and_checks_ok. rewrite !andb_true_iff.
  intros ((((Hp & Hr) & Hd & Hdall) & Ho & Hoall) & Hi & Hiall).
  unfold constraints_ok, cascade, restaurants_ok, dishes_ok, orders_ok, order_items_ok.
  cbn [profiles restaurants dishes orders order_items].
  rewrite !andb_true_iff. repeat split.
  - exact Hp.
  - apply (unique_map_filter Restaurant.id). exact Hr.
  - apply forallb_forall. intros r Hin. apply filter_In in Hin. tauto.
  - apply (unique_map_filter Dish.id). exact Hd.
  - apply (forallb_filter_both
             (fun d => references (Dish.restaurant_id d) _)
             (fun d => numeric_nonneg (Dish.price d))). exact Hdall.
  - apply (unique_map_filter Order.id). exact Ho.
  - rewrite forallb_forall in *. intros o Hin. apply filter_In in Hin.
    destruct Hin as [Hin Hrefs]. rewrite Hrefs. exact (Hoall o Hin).
  - apply (unique_map_filter OrderItem.id). exact Hi.
  - rewrite forallb_forall in *. intros i Hin. apply filter_In in Hin.
    destruct Hin as [Hin Hrefs]. rewrite Hrefs. exact (Hiall i Hin).
Qed.

Lemma exec_delete (auth_uid : uuid) (db : database) (t : table)
    (where_ : row t -> bool) :
  constraints_ok db = true ->
  exec auth_uid (Delete t where_) db
  = Ok (cascade (with_rows t (kept_by_delete auth_uid db t where_) db)).
Proof.
  intros Hdb. unfold exec, commit, kept_by_delete.
  rewrite cascade_restores_references; [reflexivity|].
  apply keys_and_checks_filter, keys_and_checks_of_constraints, Hdb.
Qed.

(** A DELETE is never refused: every foreign key cascades, so on a
    consistent database the statement of any caller on any table commits,
    with the rows the policies let the caller delete removed and the
    cascade applied.  On profiles, orders and order_items, which have no
    DELETE policy, it commits without removing anything. *)
Theorem delete_always_commits (auth_uid : uuid) (db : database) (t : table)
    (where_ : row t -> bool) :
  constraints_ok db = true ->
  exec auth_uid (Delete t where_) db
  = Ok (cascade (with_rows t (kept_by_delete auth_uid db t where_) db))
  /\ (t = profiles_t \/ t = orders_t \/ t = order_items_t ->
      exec auth_uid (Delete t where_) db = Ok db).
Proof.
  intros Hdb. pose proof (exec_delete auth_uid db t where_ Hdb) as Hcommit.
  split; [exact Hcommit|].
  intros Ht. rewrite Hcommit. f_equal.
  destruct (no_policy_no_row auth_uid db) as (_ & Hi & Ho & Hp).
  assert (Hkept : kept_by_delete auth_uid db t where_ = rows_of t db).
  { unfold kept_by_delete. apply filter_none_gone. intros r _.
    destruct Ht as [-> | [-> | ->]]; rewrite ?Hp, ?Ho, ?Hi; apply andb_false_r. }
  rewrite Hkept, with_rows_same. apply cascade_consistent, Hdb.
Qed.

Lemma delete_always_commits_witness :
  exec "customer-1" (Delete orders_t (fun _ => true)) sample_db_with_order
  = Ok sample_db_with_order.
Proof.
  apply (delete_always_commits "customer-1" sample_db_with_order orders_t
           (fun _ => true) eq_refl).
  right. left. reflexivity.
Defined.

Lemma references_without_key {A : Type} (key : A -> string) (l : list A)
    (fk k : string) :
  references fk (map key l) = true ->
  references fk (map key (filter (fun x => negb (key x =? k)) l)) = negb (fk =? k).
Proof.
  intros Href. apply references_In in Href.
  destruct (String.eqb_spec fk k) as [E|E]; simpl.
  - destruct (references fk _) eqn:R; [exfalso|reflexivity].
    apply references_In, in_map_iff in R. destruct R as (x & Hx & Hin).
    apply filter_In in Hin. destruct Hin as [_ Hne].
    rewrite Hx, E, String.eqb_refl in Hne. discriminate.
  - apply references_In. apply in_map_iff in Href. destruct Href as (x & Hx & Hin).
    apply in_map_iff. exists x. split; [exact Hx|]. apply filter_In. split; [exact Hin|].
    apply negb_true_iff. apply String.eqb_neq. congruence.
Qed.

Lemma filter_ext_in {A : Type} (p q : A -> bool) (l : list A) :
  (forall x, In x l -> p x = q x) -> filter p l = filter q l.
Proof.
  induction l as [|x l IH]; simpl; intros H; [reflexivity|].
  rewrite (H x) by auto. rewrite IH by auto. reflexivity.
Qed.

(** With unique keys, a row is the only one with its key. *)
Lemma same_key_same_row {A : Type} (key : A -> string) (l : list A) (a b : A) :
  unique (map key l) = true -> In a l -> In b l -> key a = key b -> a = b.
Proof.
  rewrite unique_NoDup.
  induction l as [|x l IH]; simpl; intros Hnd Ha Hb Hk; [contradiction|].
  inversion Hnd as [|? ? Hnotin Hrest]; subst.
  destruct Ha as [->|Ha], Hb as [->|Hb]; auto.
  - exfalso. apply Hnotin. rewrite Hk. apply in_map. exact Hb.
  - exfalso. apply Hnotin. rewrite <- Hk. apply in_map. exact Ha.
Qed.

(** What the cascade removes after rows of dishes are gone. *)
Lemma cascade_after_dishes (db : database) (kept : list Dish.t) :
  constraints_ok db = true ->
  incl kept (dishes db) ->
  cascade (with_rows dishes_t kept db)
  = mk_database (profiles db) (restaurants db) kept (orders db)
      (filter (fun i => references (OrderItem.dish_id i) (map Dish.id kept))
         (order_items db)).
Proof.
  intros Hdb Hincl. pose proof Hdb as Hall.
  unfold constraints_ok, restaurants_ok, dishes_ok, orders_ok, order_items_ok in Hall.
  rewrite !andb_true_iff in Hall.
  destruct Hall as ((((_ & _ & Hr) & _ & Hd) & _ & Ho) & _ & Hi).
  unfold cascade. cbn [with_rows profiles restaurants dishes orders order_items].
  rewrite (filter_all _ (restaurants db)) by exact Hr.
  assert (Hkept : filter (fun d => references (Dish.restaurant_id d)
                                     (map Restaurant.id (restaurants db))) kept
                  = kept).
  { apply filter_all, forallb_forall. intros d Hin. apply Hincl in Hin.
    rewrite forallb_forall in Hd. specialize (Hd d Hin).
    apply andb_true_iff in Hd. tauto. }
  rewrite Hkept.
  f_equal.
  - apply filter_all. revert Ho. apply forallb_weaken. intros o.
    rewrite !andb_true_iff. tauto.
  - rewrite (filter_all _ (orders db))
      by (revert Ho; apply forallb_weaken; intros o; rewrite !andb_true_iff; tauto).
    apply filter_ext_in. intros i Hin.
    rewrite forallb_forall in Hi. specialize (Hi i Hin).
    rewrite !andb_true_iff in Hi. destruct Hi as ((((-> & _) & _) & _) & _).
    reflexivity.
Qed.

(** [handleDeleteDish].  On a consistent database the call always
    commits.  It leaves profiles, restaurants and orders (with their
    totals) as they are.  When the signed-in user owns the dish's
    restaurant, the dish is gone and so is every order_item that recorded
    it; when the policies let the user delete no dish of that id (the dish
    is another seller's, or is gone already), nothing changes. *)
Theorem delete_dish_effect (session : uuid) (dishId : uuid) (db : database) :
  constraints_ok db = true ->
  let '(db', calls) := handleDeleteDish session dishId db in
  calls = [call_delete dishes_t dishId]
  /\ profiles db' = profiles db
  /\ restaurants db' = restaurants db
  /\ orders db' = orders db
  /\ (forall d,
        In d (dishes db) -> Dish.id d = dishId ->
        rls_using DELETE (policies session db dishes_t) d = true ->
        dishes db' = filter (fun x => negb (Dish.id x =? dishId)) (dishes db)
        /\ order_items db'
           = filter (fun i => negb (OrderItem.dish_id i =? dishId)) (order_items db))
  /\ ((forall d,
         In d (dishes db) -> Dish.id d = dishId ->
         rls_using DELETE (policies session db dishes_t) d = false) ->
      db' = db).
Proof.
  intros Hdb. unfold handleDeleteDish, api_delete.
  cbn [row_id].
  rewrite (exec_delete session db dishes_t (fun r => Dish.id r =? dishId) Hdb).
  assert (Hincl : incl (kept_by_delete session db dishes_t
                          (fun r => Dish.id r =? dishId)) (dishes db)).
  { intros d Hd. unfold kept_by_delete in Hd. apply filter_In in Hd. tauto. }
  rewrite (cascade_after_dishes db _ Hdb Hincl).
  cbn [profiles restaurants dishes orders order_items].
  pose proof Hdb as Hall.
  unfold constraints_ok, dishes_ok, order_items_ok in Hall.
  rewrite !andb_true_iff in Hall.
  destruct Hall as ((((_ & _) & Hdpk & _) & _) & _ & Hi).
  split; [reflexivity|]. split; [reflexivity|]. split; [reflexivity|].
  split; [reflexivity|]. split.
  - intros d Hd Hid Hrls.
    assert (Hkept : kept_by_delete session db dishes_t (fun r => Dish.id r =? dishId)
                    = filter (fun x => negb (Dish.id x =? dishId)) (dishes db)).
    { unfold kept_by_delete. apply filter_ext_in. intros x Hx. cbn [rows_of] in Hx.
      destruct (String.eqb_spec (Dish.id x) dishId) as [E|E]; [|reflexivity].
      assert (x = d) as ->.
      { apply (same_key_same_row Dish.id (dishes db)); try assumption.
        rewrite E, Hid. reflexivity. }
      rewrite Hrls. reflexivity. }
    rewrite Hkept. split; [reflexivity|].
    apply filter_ext_in. intros i Hin.
    apply references_without_key.
    rewrite forallb_forall in Hi. specialize (Hi i Hin).
    rewrite !andb_true_iff in Hi. tauto.
  - intros Hnone.
    assert (Hkept : kept_by_delete session db dishes_t (fun r => Dish.id r =? dishId)
                    = dishes db).
    { unfold kept_by_delete. apply filter_none_gone. intros d Hd. cbn [rows_of] in Hd.
      destruct (String.eqb_spec (Dish.id d) dishId) as [E|E]; [|reflexivity].
      rewrite (Hnone d Hd E). reflexivity. }
    rewrite Hkept.
    rewrite (filter_all _ (order_items db)).
    + destruct db; reflexivity.
    + revert Hi. apply forallb_weaken. intros i. rewrite !andb_true_iff. tauto.
Qed.

Lemma delete_dish_effect_witness :
  map OrderItem.id
    (order_items (fst (handleDeleteDish "seller-1" "dish-1" sample_db_with_order)))
  = ["item-1"]
  /\ orders (fst (handleDeleteDish "seller-1" "dish-1" sample_db_with_order))
     = [sample_order]
  /\ fst (handleDeleteDish "seller-2" "dish-1" sample_db_with_order)
     = sample_db_with_order.
Proof.
  pose proof (delete_dish_effect "seller-1" "dish-1" sample_db_with_order eq_refl)
    as Hown.
  pose proof (delete_dish_effect "seller-2" "dish-1" sample_db_with_order eq_refl)
    as Hother.
  destruct (handleDeleteDish "seller-1" "dish-1" sample_db_with_order) as [d1 c1].
  destruct (handleDeleteDish "seller-2" "dish-1" sample_db_with_order) as [d2 c2].
  cbn [fst].
  destruct Hown as (_ & _ & _ & Horders & Hgone & _).
  destruct Hother as (_ & _ & _ & _ & _ & Hsame).
  destruct (Hgone sample_pasta ltac:(left; reflexivity) eq_refl eq_refl)
    as [_ Hitems].
  split; [|split].
  - rewrite Hitems. reflexivity.
  - exact Horders.
  - apply Hsame. intros d [<-|[<-|[<-|[]]]]; intros E; try discriminate E.
    reflexivity.
Defined.

Lemma restaurant_delete_using (auth_uid : uuid) (db : database) (r : Restaurant.t) :
  rls_using DELETE (policies auth_uid db restaurants_t) r
  = (Restaurant.seller_id r =? auth_uid).
Proof.
  unfold rls_using, policies, restaurants_policies, using_of.
  cbn [existsb policy_cmd policy_using command_eqb andb orb].
  rewrite orb_false_r. apply sql_true_eq.
Qed.

(** Deleting a restaurant.  The seller's DELETE of the own restaurant on a
    consistent database commits and takes with it, through the cascades,
    the restaurant's dishes, every order placed at it (whoever the customer
    is), and the order_items of those orders and dishes; profiles and the
    other restaurants stay.  The same statement by anyone else changes
    nothing. *)
Theorem delete_restaurant_cascade (auth_uid : uuid) (db : database)
    (r : Restaurant.t) :
  constraints_ok db = true ->
  In r (restaurants db) ->
  let rid := Restaurant.id r in
  let dishes' := filter (fun d => negb (Dish.restaurant_id d =? rid)) (dishes db) in
  let orders' := filter (fun o => negb (Order.restaurant_id o =? rid)) (orders db) in
  exec auth_uid (Delete restaurants_t (fun x => Restaurant.id x =? rid)) db
  = Ok (if Restaurant.seller_id r =? auth_uid
        then mk_database (profiles db)
               (filter (fun x => negb (Restaurant.id x =? rid)) (restaurants db))
               dishes' orders'
               (filter (fun i => references (OrderItem.order_id i) (map Order.id orders')
                                 && references (OrderItem.dish_id i)
                                      (map Dish.id dishes'))
                  (order_items db))
        else db).
Proof.
  intros Hdb Hr rid dishes' orders'.
  rewrite (exec_delete auth_uid db restaurants_t _ Hdb).
  pose proof Hdb as Hall.
  unfold constraints_ok, restaurants_ok, dishes_ok, orders_ok in Hall.
  rewrite !andb_true_iff in Hall.
  destruct Hall as ((((_ & Hrpk & Hrfk) & _ & Hd) & _ & Ho) & _).
  f_equal.
  destruct (String.eqb_spec (Restaurant.seller_id r) auth_uid) as [Hs|Hs].
  - assert (Hkept : kept_by_delete auth_uid db restaurants_t
                      (fun x => Restaurant.id x =? rid)
                    = filter (fun x => negb (Restaurant.id x =? rid)) (restaurants db)).
    { unfold kept_by_delete. apply filter_ext_in. intros x Hx. cbn [rows_of] in Hx.
      destruct (String.eqb_spec (Restaurant.id x) rid) as [E|E]; [|reflexivity].
      assert (x = r) as ->
        by (apply (same_key_same_row Restaurant.id (restaurants db)); assumption).
      rewrite restaurant_delete_using, Hs, String.eqb_refl. reflexivity. }
    rewrite Hkept. unfold cascade.
    cbn [with_rows profiles restaurants dishes orders order_items].
    assert (Hrest : filter (fun x => references (Restaurant.seller_id x)
                                       (map Profile.id (profiles db)))
                      (filter (fun x => negb (Restaurant.id x =? rid)) (restaurants db))
                    = filter (fun x => negb (Restaurant.id x =? rid)) (restaurants db)).
    { apply filter_all, forallb_filter. exact Hrfk. }
    rewrite Hrest.
    assert (Hdishes : filter (fun d => references (Dish.restaurant_id d)
                          (map Restaurant.id
                             (filter (fun x => negb (Restaurant.id x =? rid))
                                (restaurants db))))
                        (dishes db) = dishes').
    { apply filter_ext_in. intros d Hin. apply references_without_key.
      rewrite forallb_forall in Hd. specialize (Hd d Hin).
      apply andb_true_iff in Hd. tauto. }
    assert (Horders : filter (fun o => references (Order.customer_id o)
                                         (map Profile.id (profiles db))
                                       && references (Order.restaurant_id o)
                          (map Restaurant.id
                             (filter (fun x => negb (Restaurant.id x =? rid))
                                (restaurants db))))
                        (orders db) = orders').
    { apply filter_ext_in. intros o Hin.
      rewrite forallb_forall in Ho. specialize (Ho o Hin).
      rewrite !andb_true_iff in Ho. destruct Ho as (((Hc & Hrf) & _) & _).
      rewrite Hc. cbn [andb]. apply references_without_key. exact Hrf. }
    rewrite Hdishes, Horders. reflexivity.
  - assert (Hkept : kept_by_delete auth_uid db restaurants_t
                      (fun x => Restaurant.id x =? rid)
                    = rows_of restaurants_t db).
    { unfold kept_by_delete. apply filter_none_gone. intros x Hx. cbn [rows_of] in Hx.
      destruct (String.eqb_spec (Restaurant.id x) rid) as [E|E]; [|reflexivity].
      assert (x = r) as ->
        by (apply (same_key_same_row Restaurant.id (restaurants db)); assumption).
      rewrite restaurant_delete_using.
      apply String.eqb_neq in Hs. rewrite Hs. reflexivity. }
    rewrite Hkept, with_rows_same. apply cascade_consistent, Hdb.
Qed.

Lemma delete_restaurant_cascade_witness :
  exec "seller-1"
    (Delete restaurants_t (fun x => Restaurant.id x =? "rest-1")) sample_db_with_order
  = Ok (mk_database (profiles sample_db_with_order) [sample_closed_restaurant]
          [sample_quiche] [] [])
  /\ exec "customer-1"
       (Delete restaurants_t (fun x => Restaurant.id x =? "rest-1")) sample_db_with_order
     = Ok sample_db_with_order.
Proof.
  split.
  - exact (delete_restaurant_cascade "seller-1" sample_db_with_order sample_restaurant
             eq_refl ltac:(left; reflexivity)).
  - exact (delete_restaurant_cascade "customer-1" sample_db_with_order sample_restaurant
             eq_refl ltac:(left; reflexivity)).
Defined.

(** ** The seller's menu: toggling, creating and editing dishes *)

Lemma owns_restaurant_sells (auth_uid : uuid) (db : database) (rid : uuid) :
  sql_true (owns_restaurant auth_uid db rid) = sells db auth_uid rid.
Proof.
  apply eq_true_iff_eq. rewrite owns_restaurant_spec. unfold sells.
  rewrite existsb_exists. split.
  - intros (r & Hr & Hid & Hs). exists r. split; [exact Hr|].
    rewrite Hid, Hs, !String.eqb_refl. reflexivity.
  - intros (r & Hr & Hc). apply andb_true_iff in Hc. rewrite !String.eqb_eq in Hc.
    exists r. tauto.
Qed.

Lemma dish_write_using (auth_uid : uuid) (db : database) (d : Dish.t) :
  rls_using UPDATE (policies auth_uid db dishes_t) d
  = sells db auth_uid (Dish.restaurant_id d)
  /\ rls_check UPDATE (policies auth_uid db dishes_t) d
     = sells db auth_uid (Dish.restaurant_id d)
  /\ rls_check INSERT (policies auth_uid db dishes_t) d
     = sells db auth_uid (Dish.restaurant_id d)
  /\ rls_using DELETE (policies auth_uid db dishes_t) d
     = sells db auth_uid (Dish.restaurant_id d).
Proof.
  unfold rls_using, rls_check, policies, dishes_policies, using_of, check_of.
  cbn [existsb policy_cmd policy_using policy_with_check command_eqb andb orb].
  rewrite !orb_false_r, owns_restaurant_sells. auto.
Qed.

Lemma sells_references (db : database) (auth_uid rid : uuid) :
  sells db auth_uid rid = true ->
  references rid (map Restaurant.id (restaurants db)) = true.
Proof.
  unfold sells. rewrite existsb_exists, references_In.
  intros (r & Hr & Hc). apply andb_true_iff in Hc. destruct Hc as [Hid _].
  apply String.eqb_eq in Hid. rewrite <- Hid. apply in_map. exact Hr.
Qed.

Lemma map_key_kept {A : Type} (key : A -> string) (f : A -> A) (l : list A) :
  (forall x, In x l -> key (f x) = key x) -> map key (map f l) = map key l.
Proof.
  induction l as [|x l IH]; simpl; intros H; [reflexivity|].
  rewrite H by auto. f_equal. apply IH. auto.
Qed.

(** An UPDATE on dishes that keeps the id of the rows it rewrites, moves
    them only to restaurants of the caller and sets a price that the
    column accepts, commits on a consistent database. *)
Lemma exec_update_dishes (auth_uid : uuid) (db : database)
    (where_ : Dish.t -> bool) (set : Dish.t -> Dish.t) :
  constraints_ok db = true ->
  (forall d, In d (dishes db) -> where_ d = true ->
     sells db auth_uid (Dish.restaurant_id d) = true ->
     Dish.id (set d) = Dish.id d
     /\ sells db auth_uid (Dish.restaurant_id (set d)) = true
     /\ numeric_nonneg (Dish.price (set d)) = true) ->
  exec auth_uid (Update dishes_t where_ set) db
  = Ok (with_rows dishes_t
          (map (fun d => if where_ d && sells db auth_uid (Dish.restaurant_id d)
                         then set d else d) (dishes db)) db).
Proof.
  intros Hdb Hset.
  change (exec auth_uid (Update dishes_t where_ set) db)
    with (if forallb (fun r : Dish.t =>
                negb (where_ r && rls_using UPDATE (policies auth_uid db dishes_t) r)
                || rls_check UPDATE (policies auth_uid db dishes_t) (set r)) (dishes db)
          then commit (with_rows dishes_t
                         (map (fun r : Dish.t =>
                            if where_ r
                               && rls_using UPDATE (policies auth_uid db dishes_t) r
                            then set r else r) (dishes db)) db)
          else Err rls_violation).
  assert (Hsame : map (fun r : Dish.t =>
                         if where_ r && rls_using UPDATE (policies auth_uid db dishes_t) r
                         then set r else r) (dishes db)
                  = map (fun d => if where_ d && sells db auth_uid (Dish.restaurant_id d)
                                  then set d else d) (dishes db)).
  { apply map_ext. intros d.
    rewrite (proj1 (dish_write_using auth_uid db d)). reflexivity. }
  assert (Hcheck : forallb (fun r : Dish.t =>
              negb (where_ r && rls_using UPDATE (policies auth_uid db dishes_t) r)
              || rls_check UPDATE (policies auth_uid db dishes_t) (set r)) (dishes db)
            = true).
  { apply forallb_forall. intros d Hd.
    destruct (dish_write_using auth_uid db d) as (-> & _).
    destruct (dish_write_using auth_uid db (set d)) as (_ & -> & _).
    destruct (where_ d) eqn:Hw; [|reflexivity].
    destruct (sells db auth_uid (Dish.restaurant_id d)) eqn:Hs; [|reflexivity].
    destruct (Hset d Hd Hw Hs) as (_ & -> & _). reflexivity. }
  rewrite Hcheck, Hsame. unfold commit.
  set (f := fun d : Dish.t => if where_ d && sells db auth_uid (Dish.restaurant_id d)
                              then set d else d).
  assert (Hf : forall d, In d (dishes db) ->
               Dish.id (f d) = Dish.id d
               /\ references (Dish.restaurant_id (f d))
                    (map Restaurant.id (restaurants db)) = true
               /\ numeric_nonneg (Dish.price (f d)) = true).
  { intros d Hd. unfold f.
    pose proof Hdb as Hall. unfold constraints_ok, dishes_ok in Hall.
    rewrite !andb_true_iff in Hall. destruct Hall as (((_ & _ & Hrows) & _) & _).
    rewrite forallb_forall in Hrows. specialize (Hrows d Hd).
    apply andb_true_iff in Hrows.
    destruct (where_ d) eqn:Hw; cbn [andb]; [|tauto].
    destruct (sells db auth_uid (Dish.restaurant_id d)) eqn:Hs; [|tauto].
    destruct (Hset d Hd Hw Hs) as (Hid & Hsells & Hprice).
    repeat split; auto. apply (sells_references db auth_uid). exact Hsells. }
  assert (Hids : map Dish.id (map f (dishes db)) = map Dish.id (dishes db)).
  { apply map_key_kept. intros d Hd. apply Hf. exact Hd. }
  assert (Hok : constraints_ok (with_rows dishes_t (map f (dishes db)) db) = true).
  { pose proof Hdb as Hall.
    unfold constraints_ok in *. rewrite !andb_true_iff in *.
    destruct Hall as ((((Hp & Hr) & Hd) & Ho) & Hi).
    repeat split; try assumption.
    - unfold dishes_ok in *. cbn [with_rows dishes restaurants].
      rewrite Hids. rewrite andb_true_iff in *. split; [tauto|].
      apply forallb_forall. intros d' Hin. apply in_map_iff in Hin.
      destruct Hin as (d & <- & Hin). apply andb_true_iff.
      destruct (Hf d Hin) as (_ & H1 & H2). auto.
    - unfold order_items_ok in *. cbn [with_rows dishes orders order_items].
      rewrite Hids. exact Hi. }
  rewrite Hok. reflexivity.
Qed.

Lemma toggle_patch (b : bool) :
  patch dishes_t (stringify [("is_available", js_bool b)])
  = Ok (dish_with_is_available (Some b)).
Proof. reflexivity. Qed.

Lemma toggle_update (session : uuid) (b : bool) (id : uuid) (db : database) :
  constraints_ok db = true ->
  api_update session dishes_t [("is_available", js_bool b)] id db
  = Ok (with_rows dishes_t
          (map (fun d => if (Dish.id d =? id) && sells db session (Dish.restaurant_id d)
                         then dish_with_is_available (Some b) d else d) (dishes db)) db).
Proof.
  intros Hdb. unfold api_update. rewrite toggle_patch. cbn [bind row_id].
  rewrite exec_update_dishes; [reflexivity | exact Hdb |].
  intros d Hd Hw Hs. cbn. repeat split; auto.
  pose proof Hdb as Hall. unfold constraints_ok, dishes_ok in Hall.
  rewrite !andb_true_iff in Hall. destruct Hall as (((_ & _ & Hrows) & _) & _).
  rewrite forallb_forall in Hrows. specialize (Hrows d Hd).
  apply andb_true_iff in Hrows. tauto.
Qed.

Lemma toggle_availability_effect_eq (session : uuid) (dish : Dish.t) (db : database) :
  constraints_ok db = true ->
  handleToggleAvailability session dish db
  = (with_rows dishes_t
       (map (fun d => if (Dish.id d =? Dish.id dish)
                         && sells db session (Dish.restaurant_id d)
                      then dish_with_is_available (Some (toggled_flag dish)) d
                      else d) (dishes db)) db,
     [call_update dishes_t [("is_available", js_bool (toggled_flag dish))]
        (Dish.id dish)]).
Proof.
  intros Hdb. unfold handleToggleAvailability. fold (toggled_flag dish).
  rewrite (toggle_update session (toggled_flag dish) (Dish.id dish) db Hdb).
  reflexivity.
Qed.

(** [handleToggleAvailability].  On a consistent database the update is
    never refused.  It rewrites the dish of the given id when the
    signed-in user is the seller of its restaurant, and no row otherwise;
    the rewritten row differs from the old one in is_available only, which
    becomes the negation of the flag of the dish object that was passed
    (the client's copy), whatever the row holds. *)
Theorem toggle_availability_effect (session : uuid) (dish : Dish.t) (db : database) :
  constraints_ok db = true ->
  handleToggleAvailability session dish db
  = (with_rows dishes_t
       (map (fun d => if (Dish.id d =? Dish.id dish)
                         && sells db session (Dish.restaurant_id d)
                      then dish_with_is_available (Some (toggled_flag dish)) d
                      else d) (dishes db)) db,
     [call_update dishes_t [("is_available", js_bool (toggled_flag dish))]
        (Dish.id dish)]).
Proof. exact (toggle_availability_effect_eq session dish db). Qed.

Lemma toggle_availability_effect_witness :
  map (fun d => (Dish.id d, Dish.is_available d))
    (dishes (fst (handleToggleAvailability "seller-1" sample_soup sample_db)))
  = [("dish-1", Some true); ("dish-2", Some false); ("dish-3", Some true)]
  /\ fst (handleToggleAvailability "seller-2" sample_soup sample_db) = sample_db.
Proof.
  rewrite (toggle_availability_effect "seller-1" sample_soup sample_db eq_refl).
  rewrite (toggle_availability_effect "seller-2" sample_soup sample_db eq_refl).
  split; reflexivity.
Defined.

(** The negation is taken from the dish object the screen holds, not from
    the stored row: the call sets the flag rather than flipping it, so a
    second call with the same object changes nothing more. *)
Theorem toggle_sets_rather_than_flips (session : uuid) (dish : Dish.t) (db : database) :
  constraints_ok db = true ->
  fst (handleToggleAvailability session dish
         (fst (handleToggleAvailability session dish db)))
  = fst (handleToggleAvailability session dish db).
Proof.
  intros Hdb.
  rewrite (toggle_availability_effect_eq session dish db Hdb). cbn [fst].
  set (f := fun d : Dish.t =>
              if (Dish.id d =? Dish.id dish) && sells db session (Dish.restaurant_id d)
              then dish_with_is_available (Some (toggled_flag dish)) d else d).
  assert (Hdb1 : constraints_ok (with_rows dishes_t (map f (dishes db)) db) = true).
  { pose proof (toggle_update session (toggled_flag dish) (Dish.id dish) db Hdb) as E.
    unfold api_update in E. rewrite toggle_patch in E. cbn [bind] in E.
    apply exec_consistent in E. exact E. }
  rewrite (toggle_availability_effect_eq session dish _ Hdb1). cbn [fst].
  cbn [with_rows dishes]. f_equal. rewrite map_map. apply map_ext. intros d.
  unfold f, sells. cbn [restaurants].
  destruct ((Dish.id d =? Dish.id dish)
            && existsb (fun r => (Restaurant.id r =? Dish.restaurant_id d)
                                 && (Restaurant.seller_id r =? session))
                 (restaurants db)) eqn:C.
  - cbn [dish_with_is_available Dish.id Dish.restaurant_id]. rewrite C. reflexivity.
  - rewrite C. reflexivity.
Qed.

Lemma toggle_sets_rather_than_flips_witness :
  map Dish.is_available
    (dishes (fst (handleToggleAvailability "seller-1" sample_soup
                    (fst (handleToggleAvailability "seller-1" sample_soup sample_db)))))
  = [Some true; Some false; Some true].
Proof.
  rewrite (toggle_sets_rather_than_flips "seller-1" sample_soup sample_db eq_refl).
  reflexivity.
Defined.

Lemma restaurant_of_sells (db : database) (rid : uuid) (parent : Restaurant.t) :
  restaurant_of db rid = Some parent ->
  sells db (Restaurant.seller_id parent) rid = true.
Proof.
  unfold restaurant_of, sells. intros H. apply find_some in H. destruct H as [Hin Hid].
  apply existsb_exists. exists parent. split; [exact Hin|].
  rewrite Hid, String.eqb_refl. reflexivity.
Qed.

(** What the toggle does to what customers see.  After the seller's
    toggle of an own dish, the dish row is the old row with the new flag,
    and a user other than the seller may read it exactly when the flag
    sent is true and the restaurant is active: a dish switched off
    disappears from every customer's menu, a dish switched on in an
    inactive restaurant stays hidden. *)
Theorem toggle_controls_visibility (session viewer : uuid) (dish d : Dish.t)
    (parent : Restaurant.t) (db : database) :
  constraints_ok db = true ->
  In d (dishes db) ->
  Dish.id d = Dish.id dish ->
  restaurant_of db (Dish.restaurant_id d) = Some parent ->
  Restaurant.seller_id parent = session ->
  viewer <> session ->
  let db' := fst (handleToggleAvailability session dish db) in
  let d' := dish_with_is_available (Some (toggled_flag dish)) d in
  In d' (dishes db')
  /\ (forall x, In x (dishes db') -> Dish.id x = Dish.id dish -> x = d')
  /\ (rls_using SELECT (policies viewer db' dishes_t) d' = true
      <-> toggled_flag dish = true /\ Restaurant.is_active parent = Some true).
Proof.
  intros Hdb Hd Hid Hparent Hseller Hviewer db' d'.
  pose proof Hdb as Hall. unfold constraints_ok, restaurants_ok, dishes_ok in Hall.
  rewrite !andb_true_iff in Hall.
  destruct Hall as ((((_ & Hrpk & _) & Hdpk & _) & _) & _).
  assert (Hsells : sells db session (Dish.restaurant_id d) = true).
  { rewrite <- Hseller. apply restaurant_of_sells. exact Hparent. }
  unfold db'. rewrite (toggle_availability_effect_eq session dish db Hdb).
  cbn [fst with_rows dishes].
  split; [|split].
  - apply in_map_iff. exists d. split; [|exact Hd].
    rewrite Hid, String.eqb_refl, Hsells. reflexivity.
  - intros x Hx Hxid. apply in_map_iff in Hx. destruct Hx as (d0 & <- & Hd0).
    assert (Hd0id : Dish.id d0 = Dish.id dish).
    { destruct ((Dish.id d0 =? Dish.id dish)
                && sells db session (Dish.restaurant_id d0)); exact Hxid. }
    assert (d0 = d) as ->.
    { apply (same_key_same_row Dish.id (dishes db)); try assumption. congruence. }
    rewrite Hid, String.eqb_refl, Hsells. reflexivity.
  - match goal with
    | |- rls_using SELECT (policies viewer ?db1 dishes_t) d' = true <-> _ =>
        rewrite (dish_select_spec viewer db1 d' parent Hrpk Hparent)
    end.
    unfold d'. cbn [dish_with_is_available Dish.is_available].
    split.
    + intros [[Hflag Hactive]|Hv]; [|congruence].
      split; [congruence | exact Hactive].
    + intros [-> Hactive]. left. auto.
Qed.

Lemma toggle_controls_visibility_witness :
  rls_using SELECT
    (policies "customer-1" (fst (handleToggleAvailability "seller-1" sample_soup sample_db))
       dishes_t)
    (dish_with_is_available (Some false) sample_soup) = false
  /\ rls_using SELECT (policies "customer-1" sample_db dishes_t) sample_soup = true.
Proof.
  destruct (toggle_controls_visibility "seller-1" "customer-1" sample_soup sample_soup
              sample_restaurant sample_db eq_refl
              ltac:(right; left; reflexivity) eq_refl eq_refl eq_refl
              ltac:(discriminate)) as (_ & _ & Hsee).
  split; [|reflexivity].
  destruct (rls_using SELECT
              (policies "customer-1"
                 (fst (handleToggleAvailability "seller-1" sample_soup sample_db))
                 dishes_t)
              (dish_with_is_available (Some (toggled_flag sample_soup)) sample_soup))
    eqn:E.
  - destruct (proj1 Hsee eq_refl) as [Hflag _]. discriminate Hflag.
  - exact E.
Defined.

(** *** The dish form *)

Lemma new_dish_row (parseFloat : string -> number) (restaurant : Restaurant.t)
    (form : DishForm.t) (gen : nat -> generated) :
  new_rows dishes_t gen (map stringify [dishData parseFloat restaurant form])
  = if is_finite (parseFloat (DishForm.price form))
    then Ok [dish_with_form parseFloat restaurant form (defaults dishes_t (gen O))]
    else Err not_null_violation.
Proof.
  cbn [map new_rows]. unfold new_row.
  assert (Hkeys : forallb (has_key (stringify (dishData parseFloat restaurant form)))
                    (required dishes_t) = true).
  { unfold dishData. cbn [stringify flat_map snd fst app].
    destruct (is_finite (parseFloat (DishForm.price form))); reflexivity. }
  rewrite Hkeys, dish_patch_of_form.
  destruct (is_finite (parseFloat (DishForm.price form))); reflexivity.
Qed.


Lemma constraints_new_dish_price (db : database) (d : Dish.t) :
  constraints_ok (with_rows dishes_t (dishes db ++ [d]) db) = true ->
  numeric_nonneg (Dish.price d) = true.
Proof.
  unfold constraints_ok, dishes_ok. cbn [with_rows dishes restaurants].
  rewrite !andb_true_iff, forallb_app. cbn [forallb]. rewrite !andb_true_iff. tauto.
Qed.



Lemma update_touches_only_valid_prices (auth_uid : uuid) (db db' : database)
    (where_ : Dish.t -> bool) (set : Dish.t -> Dish.t) :
  (forall d, numeric_nonneg (Dish.price (set d)) = false) ->
  exec auth_uid (Update dishes_t where_ set) db = Ok db' ->
  db' = db.
Proof.
  intros Hbad E. unfold exec in E.
  match type of E with
  | (if ?c then _ else _) = _ => destruct c; [|discriminate]
  end.
  apply commit_ok in E. destruct E as [-> Hok].
  assert (Hprices : forallb (fun d => numeric_nonneg (Dish.price d))
                      (map (fun r : Dish.t =>
                              if where_ r
                                 && rls_using UPDATE (policies auth_uid db dishes_t) r
                              then set r else r) (dishes db)) = true).
  { unfold constraints_ok, dishes_ok in Hok. rewrite !andb_true_iff in Hok.
    destruct Hok as (((_ & _ & Hrows) & _) & _).
    revert Hrows. apply forallb_weaken. intros d. rewrite andb_true_iff. tauto. }
  transitivity (with_rows dishes_t (rows_of dishes_t db) db);
    [f_equal | apply with_rows_same].
  apply (map_untouched (A := Dish.t)). intros d Hd. cbn [rows_of] in Hd.
  rewrite forallb_forall in Hprices.
  specialize (Hprices _ (in_map _ _ _ Hd)). cbn beta in Hprices.
  destruct (where_ d && rls_using UPDATE (policies auth_uid db dishes_t) d);
    [|reflexivity].
  rewrite Hbad in Hprices. discriminate Hprices.
Qed.

(** A price that is not a finite number of value zero or more never
    reaches the database: when the price field parses to NaN (an empty or
    non-numeric field), to an infinity or to a negative number, submitting
    the form, for a new dish or for an edit, leaves the whole database as
    it was, and for a new dish the form reports the failure. *)
Theorem dish_form_bad_price (parseFloat : string -> number)
    (describe : pg_error -> string) (session : uuid) (restaurant : Restaurant.t)
    (dish : option Dish.t) (gen : nat -> generated) (form : DishForm.t)
    (db : database) :
  numeric_nonneg (parseFloat (DishForm.price form)) = false ->
  let '(form', succeeded, db', _) :=
    handleSubmit parseFloat describe session restaurant dish gen form db in
  db' = db
  /\ (dish = None ->
      succeeded = false
      /\ exists e, DishForm.error form' = describe e).
Proof.
  intros Hbad. unfold handleSubmit.
  change (dishData parseFloat restaurant
            (DishForm.setLoading true (DishForm.setError "" form)))
    with (dishData parseFloat restaurant form).
  destruct dish as [d|].
  - unfold api_update. rewrite dish_patch_of_form.
    destruct (is_finite (parseFloat (DishForm.price form))); cbn [bind].
    2:{ split; [reflexivity | discriminate]. }
    destruct (exec session _ db) as [db'|e] eqn:E.
    2:{ split; [reflexivity | discriminate]. }
    split; [|discriminate].
    revert E. apply update_touches_only_valid_prices. intros x. exact Hbad.
  - unfold api_insert. rewrite new_dish_row.
    destruct (is_finite (parseFloat (DishForm.price form))); cbn [bind].
    2:{ split; [reflexivity|]. intros _. split; [reflexivity|].
        exists not_null_violation. reflexivity. }
    destruct (exec session _ db) as [db'|e] eqn:E.
    2:{ split; [reflexivity|]. intros _. split; [reflexivity|].
        exists e. reflexivity. }
    exfalso. apply exec_insert_ok in E. destruct E as (-> & Hok & _).
    apply constraints_new_dish_price in Hok. cbn in Hok. congruence.
Qed.

Lemma dish_form_bad_price_witness :
  snd (fst (handleSubmit (fun _ => (-1)%float) sample_describe "seller-1"
              sample_restaurant (Some sample_soup) (sample_generated "dish-")
              (DishForm.mk "Soup" "" "-1" "" "Starters" false "") sample_db))
  = sample_db
  /\ snd (fst (handleSubmit sample_parseFloat sample_describe "seller-1"
                 sample_restaurant None (sample_generated "dish-")
                 (DishForm.mk "Soup" "" "" "" "Starters" false "") sample_db))
     = sample_db.
Proof.
  pose proof (dish_form_bad_price (fun _ => (-1)%float) sample_describe "seller-1"
                sample_restaurant (Some sample_soup) (sample_generated "dish-")
                (DishForm.mk "Soup" "" "-1" "" "Starters" false "") sample_db
                eq_refl) as Hedit.
  pose proof (dish_form_bad_price sample_parseFloat sample_describe "seller-1"
                sample_restaurant None (sample_generated "dish-")
                (DishForm.mk "Soup" "" "" "" "Starters" false "") sample_db
                eq_refl) as Hnew.
  destruct (handleSubmit _ _ _ _ (Some sample_soup) _ _ _) as [[[f1 s1] d1] c1].
  destruct (handleSubmit _ _ _ _ None _ _ _) as [[[f2 s2] d2] c2].
  cbn [fst snd]. split; [apply Hedit | apply Hnew].
Defined.



(** An edit that matches no row the seller may update is not an error:
    when the dish of the form is gone, or is in a restaurant of another
    seller, and the price field parses to a finite number, the form
    reports success ([onSuccess] is called, no error is shown) although the
    database is unchanged. *)
Theorem dish_edit_reports_success_without_change (parseFloat : string -> number)
    (describe : pg_error -> string) (session : uuid) (restaurant : Restaurant.t)
    (dish : Dish.t) (gen : nat -> generated) (form : DishForm.t) (db : database) :
  constraints_ok db = true ->
  is_finite (parseFloat (DishForm.price form)) = true ->
  (forall d, In d (dishes db) -> Dish.id d = Dish.id dish ->
             sells db session (Dish.restaurant_id d) = false) ->
  let '(form', succeeded, db', _) :=
    handleSubmit parseFloat describe session restaurant (Some dish) gen form db in
  succeeded = true /\ DishForm.error form' = "" /\ db' = db.
Proof.
  intros Hdb Hfin Hnone. unfold handleSubmit, api_update.
  change (dishData parseFloat restaurant
            (DishForm.setLoading true (DishForm.setError "" form)))
    with (dishData parseFloat restaurant form).
  rewrite dish_patch_of_form, Hfin. cbn [bind row_id].
  rewrite exec_update_dishes; [| exact Hdb |].
  - repeat split; try reflexivity.
    transitivity (with_rows dishes_t (rows_of dishes_t db) db);
      [f_equal | apply with_rows_same].
    apply (map_untouched (A := Dish.t)). intros d Hd. cbn [rows_of] in Hd.
    destruct (String.eqb_spec (Dish.id d) (Dish.id dish)) as [E|E]; [|reflexivity].
    rewrite (Hnone d Hd E). reflexivity.
  - intros d Hd Hw Hs. apply String.eqb_eq in Hw. rewrite (Hnone d Hd Hw) in Hs.
    discriminate Hs.
Qed.

Lemma dish_edit_reports_success_without_change_witness :
  snd (fst (fst (handleSubmit sample_parseFloat sample_describe "seller-2"
                   sample_restaurant (Some sample_soup) (sample_generated "dish-")
                   sample_form sample_db)))
  = true
  /\ snd (fst (handleSubmit sample_parseFloat sample_describe "seller-2"
                 sample_restaurant (Some sample_soup) (sample_generated "dish-")
                 sample_form sample_db))
     = sample_db.
Proof.
  assert (Hnone : forall d, In d (dishes sample_db) -> Dish.id d = Dish.id sample_soup ->
                            sells sample_db "seller-2" (Dish.restaurant_id d) = false).
  { intros d [<-|[<-|[<-|[]]]]; intros E; try discriminate E. reflexivity. }
  pose proof (dish_edit_reports_success_without_change sample_parseFloat
                sample_describe "seller-2" sample_restaurant sample_soup
                (sample_generated "dish-") sample_form sample_db eq_refl eq_refl
                Hnone) as H.
  destruct (handleSubmit _ _ _ _ _ _ _ _) as [[[f s] d] c]. cbn [fst snd].
  destruct H as (-> & _ & ->). split; reflexivity.
Defined.

(** ** Updates of orders and of profiles *)

Lemma order_update_party (auth_uid : uuid) (db : database) (o : Order.t) :
  rls_using UPDATE (policies auth_uid db orders_t) o = order_party db auth_uid o
  /\ rls_check UPDATE (policies auth_uid db orders_t) o = order_party db auth_uid o.
Proof.
  unfold rls_using, rls_check, policies, orders_policies, using_of, check_of, order_party.
  cbn [existsb policy_cmd policy_using policy_with_check command_eqb andb orb].
  rewrite !orb_false_r, sql_true_eq, owns_restaurant_sells. auto.
Qed.

(** The UPDATE policies on orders name no column: a party of an order, its
    customer or the seller of its restaurant, may rewrite the order's
    total, status, address and notes.  On a consistent database an update
    that keeps id, customer and restaurant and sets values the CHECKs
    accept is committed for the orders the caller is a party of, and skips
    the others; the order_items, and with them the prices recorded at the
    checkout, stay as they are. *)
Theorem order_update_any_column (auth_uid : uuid) (db : database)
    (set : Order.t -> Order.t) (oid : uuid) :
  constraints_ok db = true ->
  (forall x, Order.id (set x) = Order.id x
             /\ Order.customer_id (set x) = Order.customer_id x
             /\ Order.restaurant_id (set x) = Order.restaurant_id x
             /\ numeric_nonneg (Order.total_amount (set x)) = true
             /\ one_of (Order.status (set x))
                  ["pending"; "confirmed"; "preparing"; "ready"; "delivered";
                   "cancelled"] = true) ->
  exec auth_uid (Update orders_t (fun x => Order.id x =? oid) set) db
  = Ok (mk_database (profiles db) (restaurants db) (dishes db)
          (map (fun x => if (Order.id x =? oid) && order_party db auth_uid x
                         then set x else x) (orders db))
          (order_items db)).
Proof.
  intros Hdb Hset.
  change (exec auth_uid (Update orders_t (fun x => Order.id x =? oid) set) db)
    with (if forallb (fun r : Order.t =>
                negb ((Order.id r =? oid)
                      && rls_using UPDATE (policies auth_uid db orders_t) r)
                || rls_check UPDATE (policies auth_uid db orders_t) (set r)) (orders db)
          then commit (with_rows orders_t
                         (map (fun r : Order.t =>
                            if (Order.id r =? oid)
                               && rls_using UPDATE (policies auth_uid db orders_t) r
                            then set r else r) (orders db)) db)
          else Err rls_violation).
  set (f := fun x : Order.t => if (Order.id x =? oid) && order_party db auth_uid x
                               then set x else x).
  assert (Hsame : map (fun r : Order.t =>
                         if (Order.id r =? oid)
                            && rls_using UPDATE (policies auth_uid db orders_t) r
                         then set r else r) (orders db)
                  = map f (orders db)).
  { apply map_ext. intros o. unfold f.
    rewrite (proj1 (order_update_party auth_uid db o)). reflexivity. }
  assert (Hparty : forall x, order_party db auth_uid (set x) = order_party db auth_uid x).
  { intros x. unfold order_party. destruct (Hset x) as (_ & -> & -> & _). reflexivity. }
  assert (Hcheck : forallb (fun r : Order.t =>
              negb ((Order.id r =? oid)
                    && rls_using UPDATE (policies auth_uid db orders_t) r)
              || rls_check UPDATE (policies auth_uid db orders_t) (set r)) (orders db)
            = true).
  { apply forallb_forall. intros o _.
    rewrite (proj1 (order_update_party auth_uid db o)).
    rewrite (proj2 (order_update_party auth_uid db (set o))), Hparty.
    destruct (Order.id o =? oid), (order_party db auth_uid o); reflexivity. }
  rewrite Hcheck, Hsame. unfold commit.
  assert (Hids : map Order.id (map f (orders db)) = map Order.id (orders db)).
  { apply map_key_kept. intros o _. unfold f.
    destruct ((Order.id o =? oid) && order_party db auth_uid o); [apply Hset|reflexivity]. }
  assert (Hok : constraints_ok (with_rows orders_t (map f (orders db)) db) = true).
  { pose proof Hdb as Hall.
    unfold constraints_ok in *. rewrite !andb_true_iff in *.
    destruct Hall as ((((Hp & Hr) & Hd) & Ho) & Hi).
    repeat split; try assumption.
    - unfold orders_ok in *. cbn [with_rows orders profiles restaurants].
      rewrite Hids. rewrite andb_true_iff in *. split; [tauto|].
      destruct Ho as [_ Hrows]. rewrite forallb_forall in Hrows.
      apply forallb_forall. intros o' Hin. apply in_map_iff in Hin.
      destruct Hin as (o & <- & Hin). specialize (Hrows o Hin). unfold f.
      destruct ((Order.id o =? oid) && order_party db auth_uid o); [|exact Hrows].
      rewrite !andb_true_iff in Hrows. destruct Hrows as (((Hc & Hrf) & _) & _).
      destruct (Hset o) as (_ & -> & -> & -> & ->). rewrite Hc, Hrf. reflexivity.
    - unfold order_items_ok in *. cbn [with_rows dishes orders order_items].
      rewrite Hids. exact Hi. }
  rewrite Hok. reflexivity.
Qed.

Lemma order_update_any_column_witness :
  exists db',
    exec "customer-1"
      (Update orders_t (fun x => Order.id x =? "order-0")
         (fun o => Order.mk (Order.id o) (Order.customer_id o)
                     (Order.restaurant_id o) 0%float "delivered"
                     (Order.delivery_address o) (Order.notes o)
                     (Order.created_at o) (Order.updated_at o)))
      sample_db_with_order = Ok db'
    /\ map (fun o => (Order.total_amount o, Order.status o)) (orders db')
       = [(0%float, "delivered")]
    /\ order_items db' = sample_order_items.
Proof.
  pose proof (order_update_any_column "customer-1" sample_db_with_order
                (fun o => Order.mk (Order.id o) (Order.customer_id o)
                            (Order.restaurant_id o) 0%float "delivered"
                            (Order.delivery_address o) (Order.notes o)
                            (Order.created_at o) (Order.updated_at o))
                "order-0" eq_refl
                ltac:(intros x; repeat split; reflexivity)) as H.
  eexists. split; [exact H|]. split; reflexivity.
Defined.

Lemma role_patch (role : text) :
  patch profiles_t (stringify [("user_type", js_string role)])
  = Ok (profile_with_user_type role).
Proof. reflexivity. Qed.

Lemma has_role_after_switch (auth_uid : uuid) (role role' : text)
    (rows : list Profile.t) :
  In auth_uid (map Profile.id rows) ->
  existsb (fun q => (Profile.id q =? auth_uid) && (Profile.user_type q =? role'))
    (map (fun q => if auth_uid =? Profile.id q
                   then profile_with_user_type role q else q) rows)
  = (role =? role').
Proof.
  intros Hin. apply eq_true_iff_eq. rewrite existsb_exists. split.
  - intros (q' & Hq' & Hc). apply in_map_iff in Hq'. destruct Hq' as (q & <- & _).
    apply andb_true_iff in Hc. destruct Hc as [Hid Hrole].
    destruct (String.eqb_spec auth_uid (Profile.id q)) as [E|E].
    + exact Hrole.
    + apply String.eqb_eq in Hid. congruence.
  - intros Hrole. apply in_map_iff in Hin. destruct Hin as (q & Hid & Hq).
    exists (profile_with_user_type role q). split.
    + apply in_map_iff. exists q. split; [|exact Hq].
      rewrite Hid, String.eqb_refl. reflexivity.
    + cbn [profile_with_user_type Profile.id Profile.user_type].
      rewrite Hid, String.eqb_refl. exact Hrole.
Qed.

(** The UPDATE policy on profiles names no column either: a user who has
    a profile may set the own user_type to customer or to seller, on a
    consistent database the update is committed, and from then on the user
    has the new role and no longer the old one.  So the insert policies
    that ask for a role follow the switch: restaurants may be inserted
    exactly after a switch to seller, orders exactly after a switch to
    customer. *)
Theorem profile_owner_switches_role (auth_uid : uuid) (db : database) (role : text) :
  constraints_ok db = true ->
  one_of role ["customer"; "seller"] = true ->
  In auth_uid (map Profile.id (profiles db)) ->
  exists db',
    api_update auth_uid profiles_t [("user_type", js_string role)] auth_uid db = Ok db'
    /\ restaurants db' = restaurants db
    /\ map Profile.id (profiles db') = map Profile.id (profiles db)
    /\ (forall role', has_role db' auth_uid role' = (role =? role'))
    /\ (forall r, rls_check INSERT (policies auth_uid db' restaurants_t) r = true
                  <-> Restaurant.seller_id r = auth_uid /\ role = "seller")
    /\ (forall o, rls_check INSERT (policies auth_uid db' orders_t) o = true
                  <-> Order.customer_id o = auth_uid /\ role = "customer").
Proof.
  intros Hdb Hrole Hprofile.
  set (f := fun q : Profile.t => if auth_uid =? Profile.id q
                                 then profile_with_user_type role q else q).
  assert (Hids : map Profile.id (map f (profiles db)) = map Profile.id (profiles db)).
  { apply map_key_kept. intros q _. unfold f.
    destruct (auth_uid =? Profile.id q); reflexivity. }
  assert (Hemails : map Profile.email (map f (profiles db))
                    = map Profile.email (profiles db)).
  { apply map_key_kept. intros q _. unfold f.
    destruct (auth_uid =? Profile.id q); reflexivity. }
  exists (with_rows profiles_t (map f (profiles db)) db).
  assert (Hhas : forall role',
             has_role (with_rows profiles_t (map f (profiles db)) db) auth_uid role'
             = (role =? role')).
  { intros role'. unfold has_role. cbn [with_rows profiles].
    apply has_role_after_switch. exact Hprofile. }
  split; [|split; [reflexivity|split; [exact Hids|split; [exact Hhas|split]]]].
  - unfold api_update. rewrite role_patch. cbn [bind row_id].
    change (exec auth_uid
              (Update profiles_t (fun r => Profile.id r =? auth_uid)
                 (profile_with_user_type role)) db)
      with (if forallb (fun r : Profile.t =>
                  negb ((Profile.id r =? auth_uid)
                        && rls_using UPDATE (policies auth_uid db profiles_t) r)
                  || rls_check UPDATE (policies auth_uid db profiles_t)
                       (profile_with_user_type role r)) (profiles db)
            then commit (with_rows profiles_t
                           (map (fun r : Profile.t =>
                              if (Profile.id r =? auth_uid)
                                 && rls_using UPDATE (policies auth_uid db profiles_t) r
                              then profile_with_user_type role r else r)
                              (profiles db)) db)
            else Err rls_violation).
    assert (Hsame : map (fun r : Profile.t =>
                           if (Profile.id r =? auth_uid)
                              && rls_using UPDATE (policies auth_uid db profiles_t) r
                           then profile_with_user_type role r else r) (profiles db)
                    = map f (profiles db)).
    { apply map_ext. intros q. unfold f. rewrite profile_update_using.
      rewrite (String.eqb_sym (Profile.id q) auth_uid).
      destruct (auth_uid =? Profile.id q); reflexivity. }
    assert (Hcheck : forallb (fun r : Profile.t =>
                negb ((Profile.id r =? auth_uid)
                      && rls_using UPDATE (policies auth_uid db profiles_t) r)
                || rls_check UPDATE (policies auth_uid db profiles_t)
                     (profile_with_user_type role r)) (profiles db) = true).
    { apply forallb_forall. intros q _. rewrite profile_update_using.
      unfold rls_check, policies, profiles_policies, check_of.
      cbn [existsb policy_cmd policy_using policy_with_check command_eqb andb orb
           profile_with_user_type Profile.id].
      rewrite orb_false_r, sql_true_eq, (String.eqb_sym (Profile.id q) auth_uid).
      destruct (auth_uid =? Profile.id q); reflexivity. }
    rewrite Hcheck, Hsame. unfold commit.
    assert (Hok : constraints_ok (with_rows profiles_t (map f (profiles db)) db) = true).
    { pose proof Hdb as Hall.
      unfold constraints_ok in *. rewrite !andb_true_iff in *.
      destruct Hall as ((((Hp & Hr) & Hd) & Ho) & Hi).
      repeat split; try assumption.
      - unfold profiles_ok in *. cbn [with_rows profiles].
        rewrite Hids, Hemails. rewrite !andb_true_iff in *.
        destruct Hp as ((Hpk & Hemail) & Hroles). repeat split; try assumption.
        rewrite forallb_forall in Hroles.
        apply forallb_forall. intros q' Hin. apply in_map_iff in Hin.
        destruct Hin as (q & <- & Hin). unfold f.
        destruct (auth_uid =? Profile.id q); [exact Hrole | exact (Hroles q Hin)].
      - unfold restaurants_ok in *. cbn [with_rows profiles restaurants].
        rewrite Hids. exact Hr.
      - unfold orders_ok in *. cbn [with_rows profiles restaurants orders].
        rewrite Hids. exact Ho. }
    rewrite Hok. reflexivity.
  - intros r. rewrite restaurant_insert_check_spec, Hhas, String.eqb_eq. tauto.
  - intros o. rewrite order_insert_check_spec, Hhas, String.eqb_eq. tauto.
Qed.

Lemma profile_owner_switches_role_witness :
  exists db',
    api_update "customer-1" profiles_t [("user_type", js_string "seller")]
      "customer-1" sample_db = Ok db'
    /\ has_role db' "customer-1" "seller" = true
    /\ has_role db' "customer-1" "customer" = false.
Proof.
  destruct (profile_owner_switches_role "customer-1" sample_db "seller" eq_refl eq_refl
              ltac:(right; right; left; reflexivity))
    as (db' & Hrun & _ & _ & Hhas & _).
  exists db'. split; [exact Hrun|]. rewrite !Hhas. split; reflexivity.
Defined.

(** ** What the screens list *)

Lemma insert_by_perm {A : Type} (le : A -> A -> bool) (x : A) (l : list A) :
  Permutation (insert_by le x l) (x :: l).
Proof.
  induction l as [|y l IH]; simpl; [apply Permutation_refl|].
  destruct (le x y); [apply Permutation_refl|].
  apply perm_trans with (y :: x :: l); [apply perm_skip, IH | apply perm_swap].
Qed.

Lemma order_by_perm {A : Type} (le : A -> A -> bool) (l : list A) :
  Permutation (order_by le l) l.
Proof.
  induction l as [|x l IH]; simpl; [apply perm_nil|].
  apply perm_trans with (x :: order_by le l); [apply insert_by_perm|].
  apply perm_skip, IH.
Qed.

Lemma order_by_In {A : Type} (le : A -> A -> bool) (l : list A) (x : A) :
  In x (order_by le l) <-> In x l.
Proof.
  split; apply Permutation_in; [|apply Permutation_sym]; apply order_by_perm.
Qed.

Lemma insert_by_sorted {A : Type} (le : A -> A -> bool) (x : A) (l : list A) :
  (forall a b, le a b = true \/ le b a = true) ->
  (forall a b c, le a b = true -> le b c = true -> le a c = true) ->
  StronglySorted (fun a b => le a b = true) l ->
  StronglySorted (fun a b => le a b = true) (insert_by le x l).
Proof.
  intros Htotal Htrans. induction l as [|y l IH]; simpl; intros Hs.
  - constructor; constructor.
  - inversion Hs as [|? ? Hl Hy]; subst.
    destruct (le x y) eqn:E.
    + constructor; [exact Hs|]. constructor; [exact E|].
      rewrite Forall_forall in *. intros z Hz. eapply Htrans; [exact E | auto].
    + constructor; [apply IH; exact Hl|].
      rewrite Forall_forall in *. intros z Hz.
      apply (Permutation_in _ (insert_by_perm le x l)) in Hz.
      destruct Hz as [<-|Hz]; [|auto].
      destruct (Htotal x y) as [H|H]; [congruence | exact H].
Qed.

Lemma order_by_sorted {A : Type} (le : A -> A -> bool) (l : list A) :
  (forall a b, le a b = true \/ le b a = true) ->
  (forall a b c, le a b = true -> le b c = true -> le a c = true) ->
  StronglySorted (fun a b => le a b = true) (order_by le l).
Proof.
  intros Htotal Htrans. induction l as [|x l IH]; simpl; [constructor|].
  apply insert_by_sorted; assumption.
Qed.

Lemma newest_first_total (a b : option timestamptz) :
  newest_first a b = true \/ newest_first b a = true.
Proof.
  destruct a as [x|], b as [y|]; simpl; auto.
  rewrite !Z.leb_le. destruct (Z.le_ge_cases x y); auto.
Qed.

Lemma newest_first_trans (a b c : option timestamptz) :
  newest_first a b = true -> newest_first b c = true -> newest_first a c = true.
Proof.
  destruct a as [x|], b as [y|], c as [z|]; simpl; try congruence.
  rewrite !Z.leb_le. intros H1 H2. eapply Z.le_trans; eassumption.
Qed.

Lemma select_In (auth_uid : uuid) (db : database) (t : table)
    (where_ : row t -> sql_bool) (r : row t) :
  In r (select auth_uid db t where_)
  <-> In r (rows_of t db)
      /\ rls_using SELECT (policies auth_uid db t) r = true
      /\ sql_true (where_ r) = true.
Proof.
  unfold select, sql_where. rewrite !filter_In. tauto.
Qed.

(** The customer's start screen lists exactly the active restaurants,
    newest first, whoever is signed in: a restaurant that is not active is
    left out even for its own seller, who may read it. *)
Theorem browse_lists_active_restaurants (session : uuid) (db : database) :
  (forall r, In r (CustomerDashboard.loadRestaurants session db)
             <-> In r (restaurants db) /\ Restaurant.is_active r = Some true)
  /\ StronglySorted
       (fun a b => newest_first (Restaurant.created_at a) (Restaurant.created_at b) = true)
       (CustomerDashboard.loadRestaurants session db).
Proof.
  split.
  - intros r. unfold CustomerDashboard.loadRestaurants.
    rewrite order_by_In, (select_In session db restaurants_t).
    cbn [rows_of policies]. rewrite restaurant_select_spec, sql_true_is_true. tauto.
  - apply (order_by_sorted
             (fun a b => newest_first (Restaurant.created_at a) (Restaurant.created_at b))).
    + intros a b. apply newest_first_total.
    + intros a b c. apply newest_first_trans.
Qed.

(** The seller's start screen, for a seller who is signed in with the own
    profile, lists exactly the restaurants this seller owns, active or
    not, newest first; without a profile it keeps the list it had. *)
Theorem seller_dashboard_lists_own_restaurants (session : uuid) (db : database)
    (shown : list Restaurant.t) :
  SellerDashboard.loadRestaurants session None db shown = shown
  /\ forall p, Profile.id p = session ->
       (forall r, In r (SellerDashboard.loadRestaurants session (Some p) db shown)
                  <-> In r (restaurants db) /\ Restaurant.seller_id r = session)
       /\ StronglySorted
            (fun a b =>
               newest_first (Restaurant.created_at a) (Restaurant.created_at b) = true)
            (SellerDashboard.loadRestaurants session (Some p) db shown).
Proof.
  split; [reflexivity|]. intros p Hp. split.
  - intros r. unfold SellerDashboard.loadRestaurants.
    rewrite order_by_In, (select_In session db restaurants_t).
    cbn [rows_of policies]. rewrite restaurant_select_spec, sql_true_eq, String.eqb_eq, Hp.
    intuition congruence.
  - apply (order_by_sorted
             (fun a b => newest_first (Restaurant.created_at a) (Restaurant.created_at b))).
    + intros a b. apply newest_first_total.
    + intros a b c. apply newest_first_trans.
Qed.

Lemma seller_dashboard_lists_own_restaurants_witness :
  SellerDashboard.loadRestaurants "seller-2" (Some sample_other_seller) sample_db []
  = [sample_closed_restaurant]
  /\ (In sample_closed_restaurant
        (SellerDashboard.loadRestaurants "seller-2" (Some sample_other_seller) sample_db [])
      <-> In sample_closed_restaurant (restaurants sample_db)
          /\ Restaurant.seller_id sample_closed_restaurant = "seller-2").
Proof.
  split; [reflexivity|].
  apply (proj2 (seller_dashboard_lists_own_restaurants "seller-2" sample_db [])
           sample_other_seller eq_refl).
Defined.

Lemma dish_parent_exists (db : database) (d : Dish.t) :
  constraints_ok db = true ->
  In d (dishes db) ->
  unique (map Restaurant.id (restaurants db)) = true
  /\ exists parent, restaurant_of db (Dish.restaurant_id d) = Some parent.
Proof.
  intros Hdb Hd. unfold constraints_ok, restaurants_ok, dishes_ok in Hdb.
  rewrite !andb_true_iff in Hdb.
  destruct Hdb as ((((_ & Hrpk & _) & _ & Hrows) & _) & _).
  split; [exact Hrpk|].
  rewrite forallb_forall in Hrows. specialize (Hrows d Hd).
  apply andb_true_iff in Hrows. destruct Hrows as [Href _].
  apply references_In, in_map_iff in Href. destruct Href as (r & Hid & Hr).
  unfold restaurant_of.
  destruct (find _ (restaurants db)) as [parent|] eqn:E; [eauto|].
  apply (find_none _ _ E) in Hr. rewrite Hid, String.eqb_refl in Hr. discriminate.
Qed.

(** The customer's menu of a restaurant lists exactly the dishes of that
    restaurant that are available, provided the restaurant is active or
    is the viewer's own: unavailable dishes are left out for everybody,
    the seller included, and the menu of an inactive restaurant is empty
    for everybody but its seller. *)
Theorem menu_lists_available_dishes (collate : text -> text -> bool) (session : uuid)
    (restaurant : Restaurant.t) (db : database) (d : Dish.t) :
  constraints_ok db = true ->
  (In d (RestaurantView.loadDishes collate session restaurant db)
   <-> In d (dishes db)
       /\ Dish.restaurant_id d = Restaurant.id restaurant
       /\ Dish.is_available d = Some true
       /\ exists parent,
            restaurant_of db (Restaurant.id restaurant) = Some parent
            /\ (Restaurant.is_active parent = Some true
                \/ session = Restaurant.seller_id parent)).
Proof.
  intros Hdb. unfold RestaurantView.loadDishes.
  rewrite order_by_In, (select_In session db dishes_t).
  cbn [rows_of policies].
  rewrite sql_true_and, andb_true_iff, sql_true_eq, String.eqb_eq, sql_true_is_true.
  split.
  - intros (Hd & Hsee & Hrid & Havail).
    destruct (dish_parent_exists db d Hdb Hd) as (Hpk & parent & Hparent).
    rewrite (dish_select_spec session db d parent Hpk Hparent) in Hsee.
    repeat split; try assumption. exists parent. rewrite <- Hrid. split; [exact Hparent|].
    tauto.
  - intros (Hd & Hrid & Havail & parent & Hparent & Hsee).
    destruct (dish_parent_exists db d Hdb Hd) as (Hpk & _).
    rewrite <- Hrid in Hparent.
    rewrite (dish_select_spec session db d parent Hpk Hparent). tauto.
Qed.

Lemma menu_lists_available_dishes_witness :
  RestaurantView.loadDishes String.leb "customer-1" sample_restaurant sample_db_soup_off
  = [sample_pasta]
  /\ RestaurantView.loadDishes String.leb "customer-1" sample_closed_restaurant sample_db
     = []
  /\ (In sample_pasta
        (RestaurantView.loadDishes String.leb "customer-1" sample_restaurant
           sample_db_soup_off)
      <-> In sample_pasta (dishes sample_db_soup_off)
          /\ Dish.restaurant_id sample_pasta = Restaurant.id sample_restaurant
          /\ Dish.is_available sample_pasta = Some true
          /\ exists parent,
               restaurant_of sample_db_soup_off (Restaurant.id sample_restaurant)
               = Some parent
               /\ (Restaurant.is_active parent = Some true
                   \/ "customer-1" = Restaurant.seller_id parent)).
Proof.
  split; [reflexivity|]. split; [reflexivity|].
  apply (menu_lists_available_dishes String.leb "customer-1" sample_restaurant
           sample_db_soup_off sample_pasta eq_refl).
Defined.

(** The seller's menu screen lists, newest first, the dishes of the
    restaurant that the signed-in user may read: all of them, available or
    not, for the seller of the restaurant; for anyone else only the
    available ones, and none when the restaurant is not active. *)
Theorem manager_lists_dishes (session : uuid) (restaurant : Restaurant.t)
    (db : database) :
  constraints_ok db = true ->
  (forall d, In d (RestaurantManager.loadDishes session restaurant db)
             <-> In d (dishes db)
                 /\ Dish.restaurant_id d = Restaurant.id restaurant
                 /\ exists parent,
                      restaurant_of db (Restaurant.id restaurant) = Some parent
                      /\ (session = Restaurant.seller_id parent
                          \/ (Dish.is_available d = Some true
                              /\ Restaurant.is_active parent = Some true)))
  /\ StronglySorted
       (fun a b => newest_first (Dish.created_at a) (Dish.created_at b) = true)
       (RestaurantManager.loadDishes session restaurant db).
Proof.
  intros Hdb. split.
  - intros d. unfold RestaurantManager.loadDishes.
    rewrite order_by_In, (select_In session db dishes_t).
    cbn [rows_of policies]. rewrite sql_true_eq, String.eqb_eq.
    split.
    + intros (Hd & Hsee & Hrid).
      destruct (dish_parent_exists db d Hdb Hd) as (Hpk & parent & Hparent).
      rewrite (dish_select_spec session db d parent Hpk Hparent) in Hsee.
      repeat split; try assumption. exists parent. rewrite <- Hrid.
      split; [exact Hparent | tauto].
    + intros (Hd & Hrid & parent & Hparent & Hsee).
      destruct (dish_parent_exists db d Hdb Hd) as (Hpk & _).
      rewrite <- Hrid in Hparent.
      rewrite (dish_select_spec session db d parent Hpk Hparent). tauto.
  - apply (order_by_sorted
             (fun a b => newest_first (Dish.created_at a) (Dish.created_at b))).
    + intros a b. apply newest_first_total.
    + intros a b c. apply newest_first_trans.
Qed.

Lemma manager_lists_dishes_witness :
  RestaurantManager.loadDishes "seller-1" sample_restaurant sample_db_soup_off
  = [dish_with_is_available (Some false) sample_soup; sample_pasta]
  /\ RestaurantManager.loadDishes "customer-1" sample_restaurant sample_db_soup_off
     = [sample_pasta]
  /\ StronglySorted
       (fun a b => newest_first (Dish.created_at a) (Dish.created_at b) = true)
       (RestaurantManager.loadDishes "seller-1" sample_restaurant sample_db_soup_off).
Proof.
  split; [reflexivity|]. split; [reflexivity|].
  apply (manager_lists_dishes "seller-1" sample_restaurant sample_db_soup_off eq_refl).
Defined.

Lemma same_category_eq (a b : option text) :
  RestaurantView.same_category a b = true <-> a = b.
Proof.
  destruct a as [x|], b as [y|]; simpl; try (split; congruence).
  rewrite String.eqb_eq. split; congruence.
Qed.

Lemma seen_category (v : option text) (seen : list (option text)) :
  existsb (RestaurantView.same_category v) seen = true <-> In v seen.
Proof.
  rewrite existsb_exists. split.
  - intros (x & Hx & E). apply same_category_eq in E. subst. exact Hx.
  - intros H. exists v. split; [exact H | apply same_category_eq; reflexivity].
Qed.

Lemma set_of_from (values seen : list (option text)) :
  NoDup seen ->
  let result :=
    fold_left (fun seen v => if existsb (RestaurantView.same_category v) seen
                             then seen else seen ++ [v]) values seen in
  NoDup result /\ forall c, In c result <-> In c seen \/ In c values.
Proof.
  revert seen. induction values as [|v values IH]; intros seen Hnd; cbn [fold_left].
  - split; [exact Hnd|]. intros c. simpl. tauto.
  - destruct (existsb (RestaurantView.same_category v) seen) eqn:E.
    + destruct (IH seen Hnd) as [H1 H2]. split; [exact H1|].
      intros c. rewrite H2. apply seen_category in E. simpl.
      split; [tauto|]. intros [H|[<-|H]]; auto.
    + assert (Hnew : ~ In v seen).
      { intros H. apply seen_category in H. congruence. }
      assert (Hnd' : NoDup (seen ++ [v])).
      { apply NoDup_app; [exact Hnd | repeat constructor; cbn; tauto |].
        intros k Hk [<-|[]]. contradiction. }
      destruct (IH (seen ++ [v]) Hnd') as [H1 H2]. split; [exact H1|].
      intros c. rewrite H2, in_app_iff. simpl. tauto.
Qed.

(** The category buttons of the menu.  After 'All' comes each category of
    the dishes, once.  'All' shows every
    dish; any other button shows exactly the dishes of its category, and
    at least one.  The buttons are pairwise different exactly when no dish
    has the category "All"; a dish category "All" gives a second 'All'
    button, and both show every dish. *)
Theorem menu_categories (dishes : list Dish.t) :
  let shown := RestaurantView.categories dishes in
  hd_error shown = Some (Some "All")
  /\ NoDup (tl shown)
  /\ (forall c, In c (tl shown) <-> exists dish, In dish dishes /\ Dish.category dish = c)
  /\ RestaurantView.filteredDishes (Some "All") dishes = dishes
  /\ (forall c dish, c <> Some "All" ->
        (In dish (RestaurantView.filteredDishes c dishes)
         <-> In dish dishes /\ Dish.category dish = c))
  /\ (forall c, In c (tl shown) -> RestaurantView.filteredDishes c dishes <> [])
  /\ (NoDup shown <-> forall dish, In dish dishes -> Dish.category dish <> Some "All").
Proof.
  intros shown. unfold shown, RestaurantView.categories. cbn [hd_error tl].
  destruct (set_of_from (map Dish.category dishes) [] (NoDup_nil _)) as [Hnd Hin].
  cbv zeta in Hnd, Hin. fold (RestaurantView.set_of (map Dish.category dishes)) in Hnd, Hin.
  assert (Hset : forall c, In c (RestaurantView.set_of (map Dish.category dishes))
                           <-> exists dish, In dish dishes /\ Dish.category dish = c).
  { intros c. rewrite Hin, in_map_iff. simpl. split.
    - intros [[]|(dish & H1 & H2)]. eauto.
    - intros (dish & H1 & H2). right. eauto. }
  assert (Hfilter : forall c dish, c <> Some "All" ->
            (In dish (RestaurantView.filteredDishes c dishes)
             <-> In dish dishes /\ Dish.category dish = c)).
  { intros c dish Hc. unfold RestaurantView.filteredDishes.
    destruct (RestaurantView.same_category c (Some "All")) eqn:E.
    - apply same_category_eq in E. contradiction.
    - rewrite filter_In, same_category_eq. tauto. }
  split; [reflexivity|]. split; [exact Hnd|]. split; [exact Hset|].
  split; [reflexivity|]. split; [exact Hfilter|]. split.
  - intros c Hc Hempty. apply Hset in Hc. destruct Hc as (dish & Hdish & Hcat).
    unfold RestaurantView.filteredDishes in Hempty.
    destruct (RestaurantView.same_category c (Some "All")).
    + rewrite Hempty in Hdish. contradiction.
    + assert (Hthere : In dish (filter (fun x => RestaurantView.same_category
                                                  (Dish.category x) c) dishes)).
      { apply filter_In. split; [exact Hdish|]. apply same_category_eq. exact Hcat. }
      rewrite Hempty in Hthere. contradiction.
  - split.
    + intros H dish Hdish Hcat. inversion H as [|? ? Hnotin _]; subst.
      apply Hnotin, Hset. eauto.
    + intros H. constructor; [|exact Hnd].
      intros Hall. apply Hset in Hall. destruct Hall as (dish & Hdish & Hcat).
      exact (H dish Hdish Hcat).
Qed.
